(** * Postal code to temperature: the gateway and the lookup service

    A shallow embedding of the two HTTP services of the repository
    [fc-pos-go-labs-observabilidade] and of the parts of the Go libraries
    their handlers go through, followed by the properties of the
    cross-service call chain.

    Sources embedded (names as in the Go code):
    - [common]: [IsValidCEP]
    - [service_b]: [weatherHandler], [getCityByCEP], [getTemperatureByCity]
      of the traced lookup service (service_b/main.go)
    - [lookup_plain]: [weatherHandler] and [isValidCEP] of the untraced
      lookup service
    - [service_a]: [handleRequest], [getTemperatura] of the traced gateway
      (service_a/main.go)
    - [gateway_plain]: [handleRequest], [getCotacao] of the untraced gateway
    The [main] functions and the router with its middleware are not
    embedded: no property below is about them.

    Conventions.  A Go [string] is a sequence of bytes: [string] of the
    Standard Library.  A Go [float64] is a binary64 number: the primitive
    [float], each operation rounded to nearest (no fused multiply-add).  A
    Go function of the repository returning [(T, error)] returns a pair
    whose second component is [None] for [nil]; a library function returning
    a pointer and an error returns a [result].  Time is not modelled: a call
    that runs out of time is a call that returns an error. *)

From Stdlib Require Import String Ascii List ZArith NArith Bool Lia Floats.
From stdpp Require Import base option gmap strings.
Import ListNotations.

Set Warnings "-inexact-float,-register-all".
Open Scope string_scope.

(** ** Go values *)

(** An [error] value is represented by its message. *)
Definition error := string.

Inductive result (A : Type) : Type :=
| Ok (a : A)
| Err (e : error).
Arguments Ok {A} a.
Arguments Err {A} e.

(** The double quote, which a string literal of this file never contains. *)
Definition dquote : ascii := "034"%char.

(** [q s] is [s] with every single quote replaced by a double quote: JSON
    texts are written with single quotes in this file. *)
Fixpoint q (s : string) : string :=
  match s with
  | EmptyString => EmptyString
  | String c s' => String (if Ascii.eqb c "'" then dquote else c) (q s')
  end.

Definition byte_in (lo hi : N) (c : ascii) : bool :=
  N.leb lo (N_of_ascii c) && N.leb (N_of_ascii c) hi.

Bind Scope N_scope with N.

(** Every byte of [s] satisfies [p]. *)
Fixpoint all_bytes (p : ascii -> bool) (s : string) : bool :=
  match s with
  | EmptyString => true
  | String c s' => p c && all_bytes p s'
  end.

(** The byte [c] occurs in [s]. *)
Fixpoint contains_byte (c : ascii) (s : string) : bool :=
  match s with
  | EmptyString => false
  | String d s' => (d =? c)%char || contains_byte c s'
  end.

(** ** Package regexp, as far as the pattern of the validator needs it *)

Module regexp.

(** The syntax tree of a pattern ([regexp/syntax]).  [OpCharClass lo hi] is a
    class of one range of ASCII characters, [OpRepeat n r] is [r{n}] (Min =
    Max = n).  Without the flag [m], [^] is the beginning of the text and [$]
    its end (not the end of a line: a trailing newline is not skipped). *)
Inductive Regexp : Type :=
| OpBeginText
| OpEndText
| OpCharClass (lo hi : N)
| OpConcat (r1 r2 : Regexp)
| OpRepeat (n : nat) (sub : Regexp).

(** [run r bot s k]: [r] matches a prefix of [s], and [k] accepts what is
    left; [bot] says whether [s] starts at the beginning of the text.  The
    matcher reads bytes: a class of ASCII characters contains no rune of
    two bytes or more, and every byte of such a rune is above 127, so it
    fails on the byte where Go's matcher fails on the rune. *)
Fixpoint run (r : Regexp) (bot : bool) (s : string)
    (k : bool -> string -> bool) {struct r} : bool :=
  match r with
  | OpBeginText => bot && k bot s
  | OpEndText =>
      match s with
      | EmptyString => k bot s
      | String _ _ => false
      end
  | OpCharClass lo hi =>
      match s with
      | EmptyString => false
      | String c s' => byte_in lo hi c && k false s'
      end
  | OpConcat r1 r2 => run r1 bot s (fun bot' s' => run r2 bot' s' k)
  | OpRepeat n sub =>
      (fix rep (n : nat) (bot : bool) (s : string)
           (k : bool -> string -> bool) {struct n} : bool :=
         match n with
         | O => k bot s
         | S n' => run sub bot s (fun bot' s' => rep n' bot' s' k)
         end) n bot s k
  end.

(** A match may start at any position of the text. *)
Fixpoint search (r : Regexp) (bot : bool) (s : string) : bool :=
  run r bot s (fun _ _ => true)
  || match s with
     | EmptyString => false
     | String _ s' => search r false s'
     end.

(** [re.MatchString(s)]: does [s] contain a match of [re]? *)
Definition MatchString (re : Regexp) (s : string) : bool := search re true s.

(** [\d] is the class [0-9] of ASCII digits. *)
Definition digit : Regexp := OpCharClass 48 57.

End regexp.

(** ** Package encoding/json, as far as the handlers go through it *)

Module json.

(** A number of a JSON text is kept by its exact value
    [(-1)^neg * mant * 10^exp10]; [Float64 f] is the literal the encoder
    writes for the finite [f], the shortest decimal that [ParseFloat] reads
    back as [f]. *)
Inductive number : Type :=
| Decimal (neg : bool) (mant : N) (exp10 : Z)
| Float64 (f : float).

Inductive Value : Type :=
| JNull
| JBool (b : bool)
| JNumber (n : number)
| JString (s : string)
| JArray (elems : list Value)
| JObject (members : list (string * Value)).

(** The bytes of a message body.  [Bytes s] are the bytes [s];
    [Encoded v] are the bytes the encoder writes for [v], the text of [v]
    and a newline: they are not spelled out, because the decimal digits the
    encoder chooses for a [float64] are not modelled. *)
Inductive chunk : Type :=
| Bytes (s : string)
| Encoded (v : Value).

(** *** The scanner *)

Definition is_space (c : ascii) : bool :=
  (c =? " ")%char || (c =? "009")%char || (c =? "010")%char || (c =? "013")%char.

Fixpoint skip_space (s : string) : string :=
  match s with
  | String c s' => if is_space c then skip_space s' else s
  | EmptyString => s
  end.

Definition is_digit (c : ascii) : bool := byte_in 48 57 c.

Definition digit_val (c : ascii) : N := (N_of_ascii c - 48)%N.

Definition hex_val (c : ascii) : option N :=
  if byte_in 48 57 c then Some (N_of_ascii c - 48)%N
  else if byte_in 97 102 c then Some (N_of_ascii c - 87)%N
  else if byte_in 65 70 c then Some (N_of_ascii c - 55)%N
  else None.

Definition getu4 (h1 h2 h3 h4 : ascii) : option N :=
  match hex_val h1, hex_val h2, hex_val h3, hex_val h4 with
  | Some a, Some b, Some c, Some d => Some (((a * 16 + b) * 16 + c) * 16 + d)%N
  | _, _, _, _ => None
  end.

Definition byte (n : N) : string := String (ascii_of_N n) EmptyString.

(** [utf8.EncodeRune] on a rune that is no surrogate. *)
Definition EncodeRune (r : N) : string :=
  if (r <? 128)%N then byte r
  else if (r <? 2048)%N then
    byte (192 + N.shiftr r 6)%N ++ byte (128 + N.land r 63)%N
  else if (r <? 65536)%N then
    byte (224 + N.shiftr r 12)%N ++ byte (128 + N.land (N.shiftr r 6) 63)%N
    ++ byte (128 + N.land r 63)%N
  else
    byte (240 + N.shiftr r 18)%N ++ byte (128 + N.land (N.shiftr r 12) 63)%N
    ++ byte (128 + N.land (N.shiftr r 6) 63)%N ++ byte (128 + N.land r 63)%N.

Definition RuneError : N := 65533%N.

Definition is_high_surrogate (r : N) : bool := (55296 <=? r)%N && (r <? 56320)%N.
Definition is_low_surrogate (r : N) : bool := (56320 <=? r)%N && (r <? 57344)%N.

Definition simple_escape (c : ascii) : option ascii :=
  if (c =? dquote)%char then Some dquote
  else if (c =? "\")%char then Some "\"%char
  else if (c =? "/")%char then Some "/"%char
  else if (c =? "b")%char then Some "008"%char
  else if (c =? "f")%char then Some "012"%char
  else if (c =? "n")%char then Some "010"%char
  else if (c =? "r")%char then Some "013"%char
  else if (c =? "t")%char then Some "009"%char
  else None.

Definition prepend (p : string) (r : option (string * string)) : option (string * string) :=
  match r with
  | Some (s, rest) => Some (p ++ s, rest)
  | None => None
  end.

(** The text after an opening quote: the string it holds (escapes replaced)
    and what follows the closing quote.  Bytes above 127 are copied: the
    replacement of ill-formed UTF-8 by U+FFFD is not modelled. *)
Fixpoint unquote (s : string) : option (string * string) :=
  match s with
  | EmptyString => None
  | String c s1 =>
      if (c =? dquote)%char then Some (EmptyString, s1)
      else if (c =? "\")%char then
        match s1 with
        | EmptyString => None
        | String e s2 =>
            match simple_escape e with
            | Some b => prepend (String b EmptyString) (unquote s2)
            | None =>
                if (e =? "u")%char then
                  match s2 with
                  | String h1 (String h2 (String h3 (String h4 s3))) =>
                      match getu4 h1 h2 h3 h4 with
                      | None => None
                      | Some rr =>
                          if is_high_surrogate rr then
                            match s3 with
                            | String b1 (String b2 (String g1 (String g2 (String g3 (String g4 s4))))) =>
                                match (if (b1 =? "\")%char && (b2 =? "u")%char
                                       then getu4 g1 g2 g3 g4 else None) with
                                | Some rr1 =>
                                    if is_low_surrogate rr1 then
                                      prepend
                                        (EncodeRune (65536 + (rr - 55296) * 1024 + (rr1 - 56320))%N)
                                        (unquote s4)
                                    else prepend (EncodeRune RuneError) (unquote s3)
                                | None => prepend (EncodeRune RuneError) (unquote s3)
                                end
                            | _ => prepend (EncodeRune RuneError) (unquote s3)
                            end
                          else if is_low_surrogate rr then
                            prepend (EncodeRune RuneError) (unquote s3)
                          else prepend (EncodeRune rr) (unquote s3)
                      end
                  | _ => None
                  end
                else None
            end
        end
      else if (N_of_ascii c <? 32)%N then None
      else prepend (String c EmptyString) (unquote s1)
  end.

(** The digits [s] starts with, and the rest. *)
Fixpoint span_digits (s : string) : string * string :=
  match s with
  | String c s' =>
      if is_digit c then let (ds, rest) := span_digits s' in (String c ds, rest)
      else (EmptyString, s)
  | EmptyString => (EmptyString, s)
  end.

Fixpoint digits_value (acc : N) (ds : string) : N :=
  match ds with
  | EmptyString => acc
  | String c ds' => digits_value (acc * 10 + digit_val c)%N ds'
  end.

(** An optional minus. *)
Definition scan_sign (s : string) : bool * string :=
  match s with
  | String c s' => if (c =? "-")%char then (true, s') else (false, s)
  | EmptyString => (false, s)
  end.

(** The integer part: [0] alone, or the digits [s] starts with. *)
Definition scan_int (s : string) : string * string :=
  match s with
  | String c s' => if (c =? "0")%char then (String c EmptyString, s') else span_digits s
  | EmptyString => (EmptyString, s)
  end.

(** An optional fraction: a point and one digit or more. *)
Definition scan_frac (s : string) : option (string * string) :=
  match s with
  | String c s' =>
      if (c =? ".")%char then
        let (fp, rest) := span_digits s' in
        if (fp =? EmptyString)%string then None else Some (fp, rest)
      else Some (EmptyString, s)
  | EmptyString => Some (EmptyString, s)
  end.

(** An optional exponent: [e] or [E], an optional sign, one digit or
    more. *)
Definition scan_exp (s : string) : option (Z * string) :=
  match s with
  | String c s' =>
      if (c =? "e")%char || (c =? "E")%char then
        let (eneg, s1) :=
          match s' with
          | String d s'' =>
              if (d =? "-")%char then (true, s'')
              else if (d =? "+")%char then (false, s'')
              else (false, s')
          | EmptyString => (false, s')
          end in
        let (ep, rest) := span_digits s1 in
        if (ep =? EmptyString)%string then None
        else
          let e := Z.of_N (digits_value 0%N ep) in
          Some (if eneg then (- e)%Z else e, rest)
      else Some (0%Z, s)
  | EmptyString => Some (0%Z, s)
  end.

(** A number: sign, integer part, fraction, exponent. *)
Definition scan_number (s : string) : option (number * string) :=
  let (neg, s1) := scan_sign s in
  let (ip, s2) := scan_int s1 in
  if (ip =? EmptyString)%string then None
  else
    match scan_frac s2 with
    | None => None
    | Some (fp, s3) =>
        match scan_exp s3 with
        | None => None
        | Some (e, rest) =>
            Some (Decimal neg (digits_value 0%N (ip ++ fp))
                    (e - Z.of_nat (String.length fp))%Z, rest)
        end
    end.

Fixpoint strip_prefix (p s : string) : option string :=
  match p, s with
  | EmptyString, _ => Some s
  | String a p', String b s' => if (a =? b)%char then strip_prefix p' s' else None
  | String _ _, EmptyString => None
  end.

(** One value at the head of [s] (after blanks) and the rest.  [fuel] bounds
    the depth of the calls: a value, a member and an element each take a
    byte of the text or more, and two calls at most are spent on a byte, so
    [S (2 * length s)] is enough ([value_fuel] below). *)
Fixpoint value (fuel : nat) (s : string) {struct fuel} : option (Value * string) :=
  match fuel with
  | O => None
  | S fuel' =>
      match skip_space s with
      | EmptyString => None
      | String c s1 =>
          if (c =? "{")%char then
            match skip_space s1 with
            | EmptyString => None
            | String c2 s2 =>
                if (c2 =? "}")%char then Some (JObject [], s2)
                else
                  match members fuel' (String c2 s2) with
                  | Some (ms, rest) => Some (JObject ms, rest)
                  | None => None
                  end
            end
          else if (c =? "[")%char then
            match skip_space s1 with
            | EmptyString => None
            | String c2 s2 =>
                if (c2 =? "]")%char then Some (JArray [], s2)
                else
                  match elements fuel' (String c2 s2) with
                  | Some (vs, rest) => Some (JArray vs, rest)
                  | None => None
                  end
            end
          else if (c =? dquote)%char then
            match unquote s1 with
            | Some (str, rest) => Some (JString str, rest)
            | None => None
            end
          else if (c =? "-")%char || is_digit c then
            match scan_number (String c s1) with
            | Some (n, rest) => Some (JNumber n, rest)
            | None => None
            end
          else
            match strip_prefix "true" (String c s1) with
            | Some rest => Some (JBool true, rest)
            | None =>
                match strip_prefix "false" (String c s1) with
                | Some rest => Some (JBool false, rest)
                | None =>
                    match strip_prefix "null" (String c s1) with
                    | Some rest => Some (JNull, rest)
                    | None => None
                    end
                end
            end
      end
  end

(** The members of an object from the first key on, up to the closing
    brace. *)
with members (fuel : nat) (s : string) {struct fuel}
    : option (list (string * Value) * string) :=
  match fuel with
  | O => None
  | S fuel' =>
      match s with
      | EmptyString => None
      | String c s1 =>
          if (c =? dquote)%char then
            match unquote s1 with
            | None => None
            | Some (key, s2) =>
                match skip_space s2 with
                | EmptyString => None
                | String c3 s3 =>
                    if (c3 =? ":")%char then
                      match value fuel' s3 with
                      | None => None
                      | Some (v, s4) =>
                          match skip_space s4 with
                          | EmptyString => None
                          | String c5 s5 =>
                              if (c5 =? "}")%char then Some ([(key, v)], s5)
                              else if (c5 =? ",")%char then
                                match members fuel' (skip_space s5) with
                                | Some (ms, rest) => Some ((key, v) :: ms, rest)
                                | None => None
                                end
                              else None
                          end
                      end
                    else None
                end
            end
          else None
      end
  end

(** The elements of an array from the first one on, up to the closing
    bracket. *)
with elements (fuel : nat) (s : string) {struct fuel}
    : option (list Value * string) :=
  match fuel with
  | O => None
  | S fuel' =>
      match value fuel' s with
      | None => None
      | Some (v, s1) =>
          match skip_space s1 with
          | EmptyString => None
          | String c s2 =>
              if (c =? "]")%char then Some ([v], s2)
              else if (c =? ",")%char then
                match elements fuel' s2 with
                | Some (vs, rest) => Some (v :: vs, rest)
                | None => None
                end
              else None
          end
      end
  end.

(** The whole text is one value between blanks ([checkValid]). *)
Definition parse (s : string) : result Value :=
  match value (S (2 * String.length s)) s with
  | Some (v, rest) =>
      match skip_space rest with
      | EmptyString => Ok v
      | String _ _ => Err "invalid character after top-level value"
      end
  | None => Err "invalid or incomplete JSON text"
  end.

(** The first value of a stream ([Decoder.readValue]): what follows an
    object or an array is left unread; a string, a number or a literal ends
    at the end of the stream or at a blank. *)
Definition parse_first (s : string) : result Value :=
  match value (S (2 * String.length s)) s with
  | Some (v, rest) =>
      match v with
      | JObject _ | JArray _ => Ok v
      | _ =>
          match rest with
          | EmptyString => Ok v
          | String c _ =>
              if is_space c then Ok v
              else Err "invalid character after top-level value"
          end
      end
  | None => Err "invalid or incomplete JSON text"
  end.

(** The text of a body made of raw bytes only. *)
Fixpoint text (data : list chunk) : option string :=
  match data with
  | [] => Some EmptyString
  | Bytes s :: data' =>
      match text data' with
      | Some s' => Some (s ++ s')
      | None => None
      end
  | Encoded _ :: _ => None
  end.

(** The value a body holds, read by [read] from its text.  What the encoder
    wrote is read back as the value it was given; a body that mixes encoded
    values and raw bytes is produced by no handler of the repository and is
    refused. *)
Definition document (read : string -> result Value) (data : list chunk) : result Value :=
  match data with
  | [Encoded v] => Ok v
  | _ =>
      match text data with
      | Some s => read s
      | None => Err "unsupported body"
      end
  end.

(** *** Storing a value in a Go variable *)

Definition prec : Z := 53.
Definition emax : Z := 1024.

(** [strconv.ParseFloat(s, 64)]: the binary64 number nearest to the decimal
    (ties to even), an error when it is out of range. *)
Definition ParseFloat (n : number) : result float :=
  match n with
  | Float64 f => if PrimFloat.is_finite f then Ok f else Err "unsupported value"
  | Decimal neg N0 _ => Ok (if neg then neg_zero else zero)
  | Decimal neg (Npos m) e =>
      let x := S754_finite neg m 0 in
      let r :=
        if (0 <=? e)%Z
        then SFmul prec emax x (S754_finite false (Z.to_pos (10 ^ e)) 0)
        else SFdiv prec emax x (S754_finite false (Z.to_pos (10 ^ (- e))) 0) in
      let f := SF2Prim r in
      if PrimFloat.is_finite f then Ok f else Err "value out of range"
  end.

Definition kind (v : Value) : string :=
  match v with
  | JNull => "null"
  | JBool _ => "bool"
  | JNumber _ => "number"
  | JString _ => "string"
  | JArray _ => "array"
  | JObject _ => "object"
  end.

Definition UnmarshalTypeError (v : Value) (type : string) : error :=
  "json: cannot unmarshal " ++ kind v ++ " into Go value of type " ++ type.

(** [Store T]: how a value is stored in a variable of type [T] that holds
    [old].  [null] leaves the variable as it is. *)
Definition Store (T : Type) : Type := Value -> T -> result T.

Definition store_string : Store string := fun v old =>
  match v with
  | JNull => Ok old
  | JString s => Ok s
  | _ => Err (UnmarshalTypeError v "string")
  end.

Definition store_bool : Store bool := fun v old =>
  match v with
  | JNull => Ok old
  | JBool b => Ok b
  | _ => Err (UnmarshalTypeError v "bool")
  end.

Definition store_float64 : Store float := fun v old =>
  match v with
  | JNull => Ok old
  | JNumber n =>
      match ParseFloat n with
      | Ok f => Ok f
      | Err _ => Err (UnmarshalTypeError v "float64")
      end
  | _ => Err (UnmarshalTypeError v "float64")
  end.

(** A field of a struct: the value is stored in the field. *)
Definition field {T A : Type} (st : Store A) (get : T -> A) (set : T -> A -> T)
    : Store T := fun v old =>
  match st v (get old) with
  | Ok a => Ok (set old a)
  | Err e => Err e
  end.

Definition upper (c : ascii) : ascii :=
  if byte_in 97 122 c then ascii_of_N (N_of_ascii c - 32)%N else c.

(** [foldName]: names are compared up to the case of their letters; the
    Kelvin sign (bytes 226 132 170) folds with [K] and the long s (bytes 197
    191) with [S]. *)
Fixpoint foldName (s : string) : string :=
  match s with
  | EmptyString => EmptyString
  | String a s1 =>
      match s1 with
      | EmptyString => String (upper a) EmptyString
      | String b s2 =>
          if (a =? "197")%char && (b =? "191")%char then String "S" (foldName s2)
          else
            match s2 with
            | EmptyString => String (upper a) (foldName s1)
            | String c s3 =>
                if (a =? "226")%char && (b =? "132")%char && (c =? "170")%char
                then String "K" (foldName s3)
                else String (upper a) (foldName s1)
            end
      end
  end.

(** The field a key names: the field with exactly this name, else the
    first one with this name up to folding. *)
Definition find_field {T : Type} (fields : list (string * Store T)) (key : string)
    : option (Store T) :=
  match List.find (fun f => String.eqb (fst f) key) fields with
  | Some f => Some (snd f)
  | None =>
      match List.find (fun f => String.eqb (foldName (fst f)) (foldName key)) fields with
      | Some f => Some (snd f)
      | None => None
      end
  end.

(** The members of an object are stored in the order of the text; a key
    that names no field is skipped.  The decoder goes on after a value of
    the wrong type and returns the first such error at the end: the callers
    drop the variable on an error, so the first error ends the model. *)
Fixpoint store_members {T : Type} (fields : list (string * Store T))
    (ms : list (string * Value)) (cur : T) : result T :=
  match ms with
  | [] => Ok cur
  | (key, v) :: ms' =>
      match find_field fields key with
      | None => store_members fields ms' cur
      | Some st =>
          match st v cur with
          | Ok cur' => store_members fields ms' cur'
          | Err e => Err e
          end
      end
  end.

Definition store_struct {T : Type} (type : string) (fields : list (string * Store T))
    : Store T := fun v old =>
  match v with
  | JNull => Ok old
  | JObject ms => store_members fields ms old
  | _ => Err (UnmarshalTypeError v type)
  end.

(** [json.Unmarshal(data, &v)], [v] holding [old]. *)
Definition Unmarshal {T : Type} (st : Store T) (data : list chunk) (old : T) : result T :=
  match document parse data with
  | Ok v => st v old
  | Err e => Err e
  end.

(** [json.NewDecoder(body).Decode(&v)] on a fresh decoder. *)
Definition Decode {T : Type} (st : Store T) (body : list chunk) (old : T) : result T :=
  match document parse_first body with
  | Ok v => st v old
  | Err e => Err e
  end.

(** The encoder refuses a [float64] that is infinite or not a number. *)
Definition encode_float64 (f : float) : result Value :=
  if PrimFloat.is_finite f then Ok (JNumber (Float64 f))
  else Err "json: unsupported value".

End json.

(** ** Package net/url *)

Module url.

(** A URL: the text it was read from and its query, the part the lookup
    service reads. *)
Record URL : Type := { Raw : string; RawQuery : string }.

(** [strings.Cut(s, sep)] for a separator of one byte. *)
Fixpoint Cut (sep : ascii) (s : string) : string * string * bool :=
  match s with
  | EmptyString => (EmptyString, EmptyString, false)
  | String c s' =>
      if (c =? sep)%char then (EmptyString, s', true)
      else let '(before, after, found) := Cut sep s' in (String c before, after, found)
  end.

(** The segments between the separators [sep] of [s]. *)
Fixpoint segments (sep : ascii) (cur : string) (s : string) : list string :=
  match s with
  | EmptyString => [cur]
  | String c s' =>
      if (c =? sep)%char then cur :: segments sep EmptyString s'
      else segments sep (cur ++ String c EmptyString) s'
  end.

(** [QueryUnescape]: [%XX] is the byte [XX], [+] is a blank. *)
Fixpoint QueryUnescape (s : string) : option string :=
  match s with
  | EmptyString => Some EmptyString
  | String c s1 =>
      if (c =? "%")%char then
        match s1 with
        | String h1 (String h2 s2) =>
            match json.hex_val h1, json.hex_val h2, QueryUnescape s2 with
            | Some a, Some b, Some r => Some (String (ascii_of_N (a * 16 + b)%N) r)
            | _, _, _ => None
            end
        | _ => None
        end
      else
        match QueryUnescape s1 with
        | Some r => Some (String (if (c =? "+")%char then " "%char else c) r)
        | None => None
        end
  end.

Definition hex_digit (n : N) : ascii :=
  if (n <? 10)%N then ascii_of_N (48 + n)%N else ascii_of_N (55 + n)%N.

(** [QueryEscape]: letters, digits and [-_.~] stay, a blank is [+], any
    other byte is [%XX]. *)
Fixpoint QueryEscape (s : string) : string :=
  match s with
  | EmptyString => EmptyString
  | String c s' =>
      if byte_in 97 122 c || byte_in 65 90 c || byte_in 48 57 c
         || (c =? "-")%char || (c =? "_")%char || (c =? ".")%char || (c =? "~")%char
      then String c (QueryEscape s')
      else if (c =? " ")%char then String "+" (QueryEscape s')
      else
        String "%" (String (hex_digit (N_of_ascii c / 16)%N)
                      (String (hex_digit (N_of_ascii c mod 16)%N) (QueryEscape s')))
  end.

(** [ParseQuery], the error dropped as [Query] drops it: a segment with a
    semicolon or an escape that cannot be read is skipped. *)
Fixpoint parseQuery (m : gmap string (list string)) (segs : list string)
    : gmap string (list string) :=
  match segs with
  | [] => m
  | seg :: segs' =>
      if contains_byte ";" seg then parseQuery m segs'
      else if (seg =? EmptyString)%string then parseQuery m segs'
      else
        let '(key, value, _) := Cut "=" seg in
        match QueryUnescape key, QueryUnescape value with
        | Some key, Some value =>
            parseQuery (<[key := (default [] (m !! key) ++ [value])%list]> m) segs'
        | _, _ => parseQuery m segs'
        end
  end.

(** [u.Query()] *)
Definition Query (u : URL) : gmap string (list string) :=
  parseQuery ∅ (segments "&" EmptyString (RawQuery u)).

(** [v.Get(key)]: the first value of the key, or the empty string. *)
Definition Get (v : gmap string (list string)) (key : string) : string :=
  match v !! key with
  | Some (x :: _) => x
  | _ => EmptyString
  end.

End url.

(** ** Package go.opentelemetry.io/otel/trace: span contexts *)

Module trace.

(** A trace identifier is represented by its 32 lower-case hexadecimal
    digits and a span identifier by its 16 digits, as the header
    [traceparent] writes them. *)
Record SpanContext : Type := {
  TraceID : string;
  SpanID : string;
  Sampled : bool;
  Remote : bool
}.

(** The zero value: no span. *)
Definition noSpan : SpanContext :=
  {| TraceID := EmptyString; SpanID := EmptyString; Sampled := false; Remote := false |}.

Definition is_lower_hex (c : ascii) : bool := byte_in 48 57 c || byte_in 97 102 c.

(** An identifier of [n] digits that is not zero. *)
Definition valid_id (n : nat) (s : string) : bool :=
  (String.length s =? n)%nat && all_bytes is_lower_hex s
  && negb (all_bytes (fun c => (c =? "0")%char) s).

Definition IsValid (sc : SpanContext) : bool :=
  valid_id 32 (TraceID sc) && valid_id 16 (SpanID sc).

End trace.

(** ** Package context *)

Module context.

(** What a context carries here: the current span ([noSpan] when there is
    none) and the time allowed, in milliseconds, when it is bounded. *)
Record Context : Type := {
  span : trace.SpanContext;
  timeout : option Z
}.

Definition Background : Context := {| span := trace.noSpan; timeout := None |}.

(** [context.WithTimeout(parent, d)]: the earlier deadline stands. *)
Definition WithTimeout (parent : Context) (d : Z) : Context :=
  {| span := span parent;
     timeout := match timeout parent with
                | Some d0 => Some (Z.min d0 d)
                | None => Some d
                end |}.

Definition WithSpan (parent : Context) (sc : trace.SpanContext) : Context :=
  {| span := sc; timeout := timeout parent |}.

End context.

(** ** Package net/http *)

Module http.

Definition StatusOK : Z := 200.
Definition StatusBadRequest : Z := 400.
Definition StatusNotFound : Z := 404.
Definition StatusUnprocessableEntity : Z := 422.
Definition StatusInternalServerError : Z := 500.

Definition validHeaderFieldByte (c : ascii) : bool :=
  byte_in 97 122 c || byte_in 65 90 c || byte_in 48 57 c
  || contains_byte c "!#$%&'*+-.^_`|~".

Fixpoint canonical (up : bool) (s : string) : string :=
  match s with
  | EmptyString => EmptyString
  | String c s' =>
      let c' :=
        if up then (if byte_in 97 122 c then ascii_of_N (N_of_ascii c - 32)%N else c)
        else (if byte_in 65 90 c then ascii_of_N (N_of_ascii c + 32)%N else c) in
      String c' (canonical (c' =? "-")%char s')
  end.

(** [textproto.CanonicalMIMEHeaderKey]: a capital at the start and after
    each hyphen, small letters elsewhere; a key with a byte that a header
    name cannot have is left as it is. *)
Definition CanonicalMIMEHeaderKey (s : string) : string :=
  if all_bytes validHeaderFieldByte s then canonical true s else s.

(** [http.Header]: [map[string][]string]. *)
Abbreviation Header := (gmap string (list string)).

Definition Header_Set (h : Header) (key value : string) : Header :=
  <[CanonicalMIMEHeaderKey key := [value]]> h.

Definition Header_Get (h : Header) (key : string) : string :=
  match h !! CanonicalMIMEHeaderKey key with
  | Some (x :: _) => x
  | _ => EmptyString
  end.

Definition Header_Del (h : Header) (key : string) : Header :=
  delete (CanonicalMIMEHeaderKey key) h.

Record Request : Type := {
  Method : string;
  URL : url.URL;
  ReqHeader : Header;
  ReqBody : list json.chunk;
  Context : context.Context
}.

(** [http.NewRequestWithContext(ctx, method, url, nil)], [parse] being
    [url.Parse]: the request has no header yet. *)
Definition NewRequestWithContext (parse : string -> result url.URL)
    (ctx : context.Context) (method url : string) : result Request :=
  match parse url with
  | Err e => Err e
  | Ok u => Ok {| Method := method; URL := u; ReqHeader := ∅; ReqBody := [];
                  Context := ctx |}
  end.

Definition WithHeader (req : Request) (h : Header) : Request :=
  {| Method := Method req; URL := URL req; ReqHeader := h; ReqBody := ReqBody req;
     Context := Context req |}.

(** A response as its receiver has it: [io.ReadAll(res.Body)] returns the
    bytes [Body] and the error [ReadErr]. *)
Record Response : Type := {
  StatusCode : Z;
  RespHeader : Header;
  Body : list json.chunk;
  ReadErr : option error
}.

(** A [ResponseWriter]: the header map of the handler, the status and the
    header sent by the first [WriteHeader] or [Write], and the bytes
    written. *)
Record ResponseWriter : Type := {
  header : Header;
  sent : option (Z * Header);
  written : list json.chunk
}.

Definition newResponseWriter : ResponseWriter :=
  {| header := ∅; sent := None; written := [] |}.

Definition SetHeader (w : ResponseWriter) (key value : string) : ResponseWriter :=
  {| header := Header_Set (header w) key value; sent := sent w; written := written w |}.

Definition DelHeader (w : ResponseWriter) (key : string) : ResponseWriter :=
  {| header := Header_Del (header w) key; sent := sent w; written := written w |}.

(** A second [WriteHeader] changes nothing. *)
Definition WriteHeader (w : ResponseWriter) (code : Z) : ResponseWriter :=
  match sent w with
  | Some _ => w
  | None => {| header := header w; sent := Some (code, header w); written := written w |}
  end.

(** The first [Write] sends the status 200 when none was sent. *)
Definition Write (w : ResponseWriter) (c : json.chunk) : ResponseWriter :=
  let w := WriteHeader w StatusOK in
  {| header := header w; sent := sent w; written := (written w ++ [c])%list |}.

(** [http.Error(w, error, code)]: the message and a newline as plain text. *)
Definition Error (w : ResponseWriter) (error : string) (code : Z) : ResponseWriter :=
  let w := DelHeader w "Content-Length" in
  let w := SetHeader w "Content-Type" "text/plain; charset=utf-8" in
  let w := SetHeader w "X-Content-Type-Options" "nosniff" in
  let w := WriteHeader w code in
  Write w (json.Bytes (error ++ String "010" EmptyString)).

(** What the server sends when the handler has returned: the status 200
    when the handler sent none. *)
Definition response (w : ResponseWriter) : Response :=
  let w := WriteHeader w StatusOK in
  {| StatusCode := match sent w with Some (code, _) => code | None => StatusOK end;
     RespHeader := match sent w with Some (_, h) => h | None => ∅ end;
     Body := written w;
     ReadErr := None |}.

End http.

(** ** The run of a handler *)

Module codes.

(** [go.opentelemetry.io/otel/codes] *)
Inductive Code : Type := Unset | Error | Ok.

End codes.

(** What a handler does besides writing its response, in the order it does
    it: the calls it makes on its spans, on the methods of its API client
    and on the HTTP client. *)
Inductive Event : Type :=
| SpanStart (name : string) (sc parent : trace.SpanContext)
| SpanRecordError (sc : trace.SpanContext) (err : error)
| SpanSetStatus (sc : trace.SpanContext) (code : codes.Code) (description : string)
| SpanEnd (sc : trace.SpanContext)
| ApiCall (method arg : string)
| ClientDo (req : http.Request)
| Println (line : string).

(** The state a handler runs in: its response writer, the number of
    identifiers the tracer has drawn, and the events so far. *)
Record State : Type := {
  w : http.ResponseWriter;
  draws : nat;
  events : list Event
}.

Definition M (A : Type) : Type := State -> A * State.

Definition ret {A : Type} (a : A) : M A := fun st => (a, st).

Definition bind {A B : Type} (m : M A) (k : A -> M B) : M B :=
  fun st => let (a, st') := m st in k a st'.

Declare Scope go_scope.
Delimit Scope go_scope with go.
Notation "'do' x <- m ;; k" := (bind m (fun x => k))
  (at level 10, x pattern, m at level 99, k at level 200) : go_scope.
Notation "m ;; k" := (bind m (fun _ => k))
  (at level 100, right associativity) : go_scope.

Definition emit (e : Event) : M unit :=
  fun st => (tt, {| w := w st; draws := draws st; events := (events st ++ [e])%list |}).

Definition on_writer (f : http.ResponseWriter -> http.ResponseWriter) : M unit :=
  fun st => (tt, {| w := f (w st); draws := draws st; events := events st |}).

(** A call of the method [name] of the API client, [f] being the method. *)
Definition call {B : Type} (name : string) (f : string -> B) (arg : string) : M B :=
  (emit (ApiCall name arg) ;; ret (f arg))%go.

(** [http.Error(w, error, code)] *)
Definition http_Error (error : string) (code : Z) : M unit :=
  on_writer (fun w => http.Error w error code).

(** [w.Header().Set(key, value)] *)
Definition w_Header_Set (key value : string) : M unit :=
  on_writer (fun w => http.SetHeader w key value).

(** [json.NewEncoder(w).Encode(x)], [doc] being what the encoder makes of
    [x]: the value is written in one piece, or nothing is written and the
    error is returned. *)
Definition Encode (doc : result json.Value) : M (option error) :=
  match doc with
  | Ok v => (on_writer (fun w => http.Write w (json.Encoded v)) ;; ret None)%go
  | Err e => ret (Some e)
  end.

(** [defer d] before [body]: [d] runs when [body] returns. *)
Definition defer {A : Type} (d : M unit) (body : M A) : M A :=
  (do a <- body ;; d ;; ret a)%go.

(** The state a request is served in: nothing written, no event. *)
Definition serving (n : nat) : State :=
  {| w := http.newResponseWriter; draws := n; events := [] |}.

(** ** Package go.opentelemetry.io/otel *)

Module otel.

(** The source of the identifiers of the SDK: the [n]-th draw. *)
Record IDGenerator : Type := {
  NewIDs : nat -> string * string;
  NewSpanID : nat -> string
}.

(** Modelled from the spec: the tracer that [common.InitProvider] installs
    (its source is not among the files of the repository): one trace per
    request, each step a span of it.  A span started under a valid span
    context continues the trace of that context, any other span starts a
    trace of its own. *)
Record Tracer : Type := { idGenerator : IDGenerator }.

Record Span : Type := { SpanContext : trace.SpanContext }.

(** The context of a span started under [parent], the tracer drawing its
    [n]-th identifiers. *)
Definition newSpanContext (t : Tracer) (parent : trace.SpanContext) (n : nat)
    : trace.SpanContext :=
  if trace.IsValid parent then
    {| trace.TraceID := trace.TraceID parent;
       trace.SpanID := NewSpanID (idGenerator t) n;
       trace.Sampled := trace.Sampled parent;
       trace.Remote := false |}
  else
    let (tid, sid) := NewIDs (idGenerator t) n in
    {| trace.TraceID := tid; trace.SpanID := sid;
       trace.Sampled := true; trace.Remote := false |}.

Definition Start (t : Tracer) (ctx : context.Context) (name : string)
    : M (context.Context * Span) :=
  fun st =>
    let parent := context.span ctx in
    let sc := newSpanContext t parent (draws st) in
    ((context.WithSpan ctx sc, {| SpanContext := sc |}),
     {| w := w st; draws := S (draws st);
        events := (events st ++ [SpanStart name sc parent])%list |}).

Definition RecordError (s : Span) (err : error) : M unit :=
  emit (SpanRecordError (SpanContext s) err).

Definition SetStatus (s : Span) (code : codes.Code) (description : string) : M unit :=
  emit (SpanSetStatus (SpanContext s) code description).

Definition End (s : Span) : M unit := emit (SpanEnd (SpanContext s)).

(** [propagation.TextMapPropagator], on the carrier
    [propagation.HeaderCarrier]. *)
Record TextMapPropagator : Type := {
  Inject : context.Context -> http.Header -> http.Header;
  Extract : context.Context -> http.Header -> context.Context
}.

(** The header [traceparent]: version, trace identifier, span identifier
    and flags, joined by hyphens. *)
Definition traceparent (sc : trace.SpanContext) : string :=
  "00-" ++ trace.TraceID sc ++ "-" ++ trace.SpanID sc ++ "-"
  ++ (if trace.Sampled sc then "01" else "00").

Definition hex2 (s : string) : option N :=
  match s with
  | String a (String b EmptyString) =>
      if trace.is_lower_hex a && trace.is_lower_hex b then
        match json.hex_val a, json.hex_val b with
        | Some x, Some y => Some (x * 16 + y)%N
        | _, _ => None
        end
      else None
  | _ => None
  end.

(** The span context a header [traceparent] holds, [noSpan] when it holds
    none.  Version 00 has four fields and flags up to 02; a later version,
    ff apart, may have more fields. *)
Definition parse_traceparent (h : string) : trace.SpanContext :=
  match url.segments "-" EmptyString h with
  | ver :: tid :: sid :: flags :: more =>
      match hex2 ver, hex2 flags with
      | Some v, Some f =>
          if (v =? 255)%N then trace.noSpan
          else if (v =? 0)%N && (negb (length more =? 0)%nat || (2 <? f)%N)
          then trace.noSpan
          else
            let sc := {| trace.TraceID := tid; trace.SpanID := sid;
                         trace.Sampled := N.odd f; trace.Remote := true |} in
            if trace.IsValid sc then sc else trace.noSpan
      | _, _ => trace.noSpan
      end
  | _ => trace.noSpan
  end.

(** Modelled from the spec: the propagator that [common.InitProvider]
    installs (its source is not among the files of the repository), the
    standard textual trace-context headers attached to every outbound call
    and read from every inbound request.  The header [tracestate] is left
    out. *)
Definition TraceContext : TextMapPropagator :=
  {| Inject := fun ctx carrier =>
       let sc := context.span ctx in
       if trace.IsValid sc
       then http.Header_Set carrier "traceparent" (traceparent sc)
       else carrier;
     Extract := fun ctx carrier =>
       let sc := parse_traceparent (http.Header_Get carrier "traceparent") in
       if trace.IsValid sc then context.WithSpan ctx sc else ctx |}.

(** What the process holds globally once it has started: the propagator
    [otel.GetTextMapPropagator()] returns. *)
Record Globals : Type := { GetTextMapPropagator : TextMapPropagator }.

End otel.

(** ** Package common *)

Module common.

(** [regexp.MustCompile(`^\d{8}$`)] *)
Definition cep_pattern : regexp.Regexp :=
  regexp.OpConcat regexp.OpBeginText
    (regexp.OpConcat (regexp.OpRepeat 8 regexp.digit) regexp.OpEndText).

Definition IsValidCEP (cep : string) : bool :=
  let re := cep_pattern in
  regexp.MatchString re cep.

(** Modelled from the spec: the type [common.WeatherResponse], whose
    declaration is not among the files of the repository: the WeatherRecord
    of a city and three temperatures, under the JSON keys [city], [temp_C],
    [temp_F] and [temp_K].  The fields are those the literal in
    [weatherHandler] names; the untraced services declare the same struct
    with these keys ([TempResponse], [WeatherResponse] of package main). *)
Record WeatherResponse : Type := {
  City : string;
  TempC : float;
  TempF : float;
  TempK : float
}.

(** [WeatherResponse{}] *)
Definition zero : WeatherResponse :=
  {| City := EmptyString; TempC := 0; TempF := 0; TempK := 0 |}.

Definition fields : list (string * json.Store WeatherResponse) :=
  [ ("city", json.field json.store_string City
       (fun r x => {| City := x; TempC := TempC r; TempF := TempF r; TempK := TempK r |}));
    ("temp_C", json.field json.store_float64 TempC
       (fun r x => {| City := City r; TempC := x; TempF := TempF r; TempK := TempK r |}));
    ("temp_F", json.field json.store_float64 TempF
       (fun r x => {| City := City r; TempC := TempC r; TempF := x; TempK := TempK r |}));
    ("temp_K", json.field json.store_float64 TempK
       (fun r x => {| City := City r; TempC := TempC r; TempF := TempF r; TempK := x |})) ].

Definition store : json.Store WeatherResponse :=
  json.store_struct "common.WeatherResponse" fields.

(** What the encoder makes of a [WeatherResponse]. *)
Definition Marshal (r : WeatherResponse) : result json.Value :=
  match json.encode_float64 (TempC r), json.encode_float64 (TempF r),
        json.encode_float64 (TempK r) with
  | Ok c, Ok f, Ok k =>
      Ok (json.JObject [("city", json.JString (City r)); ("temp_C", c);
                        ("temp_F", f); ("temp_K", k)])
  | Err e, _, _ => Err e
  | _, Err e, _ => Err e
  | _, _, Err e => Err e
  end.

End common.

(** ** The traced lookup service (service_b/main.go) *)

Module service_b.

Record ViaCEPResponse : Type := {
  Localidade : string;
  Erro : bool
}.

Definition store_ViaCEPResponse : json.Store ViaCEPResponse :=
  json.store_struct "main.ViaCEPResponse"
    [ ("localidade", json.field json.store_string Localidade
         (fun r x => {| Localidade := x; Erro := Erro r |}));
      ("erro", json.field json.store_bool Erro
         (fun r x => {| Localidade := Localidade r; Erro := x |})) ].

(** The struct of the field [Current]. *)
Record Current_struct : Type := { TempC : float }.

Record WeatherAPIResponse : Type := { Current : Current_struct }.

Definition store_WeatherAPIResponse : json.Store WeatherAPIResponse :=
  json.store_struct "main.WeatherAPIResponse"
    [ ("current",
       json.field
         (json.store_struct "struct { TempC float64 }"
            [ ("temp_c", json.field json.store_float64 TempC
                 (fun _ x => {| TempC := x |})) ])
         Current (fun _ x => {| Current := x |})) ].

Class IApiClient (C : Type) : Type := {
  getCityByCEP : C -> string -> string * option error;
  getTemperatureByCity : C -> string -> float * option error
}.

Record ApiClient : Type := {
  httpGet : string -> result http.Response;
  wheatherApiKey : string
}.

Definition NewClient (httpGet : string -> result http.Response)
    (wheatherApiKey : string) : ApiClient :=
  {| httpGet := httpGet; wheatherApiKey := wheatherApiKey |}.

Record WeatherHandler (C : Type) : Type := {
  apiClient : C;
  tracer : otel.Tracer
}.
Arguments apiClient {C} _.
Arguments tracer {C} _.

Definition NewWeatherHandler {C : Type} (apiClient : C) (tracer : otel.Tracer)
    : WeatherHandler C :=
  {| apiClient := apiClient; tracer := tracer |}.

Definition ApiClient_getCityByCEP (c : ApiClient) (cep : string) : string * option error :=
  match httpGet c ("https://viacep.com.br/ws/" ++ cep ++ "/json/") with
  | Err err => (EmptyString, Some err)
  | Ok resp =>
      let body := http.Body resp in
      match json.Unmarshal store_ViaCEPResponse body
              {| Localidade := EmptyString; Erro := false |} with
      | Err err => (EmptyString, Some err)
      | Ok viaCEP =>
          if Erro viaCEP || (Localidade viaCEP =? EmptyString)%string
          then (EmptyString, Some "not found")
          else (Localidade viaCEP, None)
      end
  end.

Definition ApiClient_getTemperatureByCity (c : ApiClient) (city : string)
    : float * option error :=
  let url := "https://api.weatherapi.com/v1/current.json?key=" ++ wheatherApiKey c
             ++ "&q=" ++ url.QueryEscape city in
  match httpGet c url with
  | Err err => (0%float, Some err)
  | Ok resp =>
      let body := http.Body resp in
      match json.Unmarshal store_WeatherAPIResponse body
              {| Current := {| TempC := 0 |} |} with
      | Err err => (0%float, Some err)
      | Ok weather => (TempC (Current weather), None)
      end
  end.

#[global] Instance ApiClient_IApiClient : IApiClient ApiClient :=
  {| getCityByCEP := ApiClient_getCityByCEP;
     getTemperatureByCity := ApiClient_getTemperatureByCity |}.

Local Open Scope go_scope.

Definition weatherHandler {C : Type} `{IApiClient C} (g : otel.Globals)
    (wh : WeatherHandler C) (r : http.Request) : M unit :=
  let carrier := http.ReqHeader r in
  let ctx := http.Context r in
  let ctx := otel.Extract (otel.GetTextMapPropagator g) ctx carrier in
  do (ctx, span) <- otel.Start (tracer wh) ctx "Validate inputs" ;;
  let cep := url.Get (url.Query (http.URL r)) "cep" in
  if negb (common.IsValidCEP cep) then
    http_Error "invalid zipcode" http.StatusUnprocessableEntity ;;
    otel.SetStatus span codes.Error "invalid zipcode" ;;
    otel.End span
  else
    otel.End span ;;
    do (ctx, span) <- otel.Start (tracer wh) ctx "Get City from Zipcode" ;;
    do (city, err) <- call "getCityByCEP" (getCityByCEP (apiClient wh)) cep ;;
    match err with
    | Some err =>
        http_Error "can not find zipcode" http.StatusNotFound ;;
        otel.RecordError span err ;;
        otel.SetStatus span codes.Error "can not find zipcode" ;;
        otel.End span
    | None =>
        otel.End span ;;
        do (ctx, span) <- otel.Start (tracer wh) ctx "Get City temperature" ;;
        defer (otel.End span)
          (do (tempC, err) <-
              call "getTemperatureByCity" (getTemperatureByCity (apiClient wh)) city ;;
           match err with
           | Some err =>
               http_Error "can not find temperature" http.StatusNotFound ;;
               otel.RecordError span err ;;
               otel.SetStatus span codes.Error "can not find temperature"
           | None =>
               let resp :=
                 {| common.City := city;
                    common.TempC := tempC;
                    common.TempF := tempC * 1.8 + 32;
                    common.TempK := tempC + 273 |} in
               w_Header_Set "Content-Type" "application/json" ;;
               do _ <- Encode (common.Marshal resp) ;;
               ret tt
           end)
    end.

End service_b.

(** ** The untraced lookup service *)

Module lookup_plain.

(** The declarations of the API client ([ViaCEPResponse],
    [WeatherAPIResponse], [IApiClient], [ApiClient], [getCityByCEP],
    [getTemperatureByCity]) are those of [service_b] word for word, but for
    the option [omitempty] of one tag, which only an encoder reads: they
    are taken from there. *)
Import service_b (IApiClient, getCityByCEP, getTemperatureByCity,
                  ApiClient, ApiClient_IApiClient).

Record TempResponse : Type := {
  City : string;
  TempC : float;
  TempF : float;
  TempK : float
}.

(** What the encoder makes of a [TempResponse]. *)
Definition Marshal (r : TempResponse) : result json.Value :=
  match json.encode_float64 (TempC r), json.encode_float64 (TempF r),
        json.encode_float64 (TempK r) with
  | Ok c, Ok f, Ok k =>
      Ok (json.JObject [("city", json.JString (City r)); ("temp_C", c);
                        ("temp_F", f); ("temp_K", k)])
  | Err e, _, _ => Err e
  | _, Err e, _ => Err e
  | _, _, Err e => Err e
  end.

Record WeatherHandler (C : Type) : Type := { apiClient : C }.
Arguments apiClient {C} _.

Definition NewWeatherHandler {C : Type} (apiClient : C) : WeatherHandler C :=
  {| apiClient := apiClient |}.

Definition isValidCEP (cep : string) : bool :=
  let re :=
    regexp.OpConcat regexp.OpBeginText
      (regexp.OpConcat (regexp.OpRepeat 8 regexp.digit) regexp.OpEndText) in
  regexp.MatchString re cep.

Local Open Scope go_scope.

Definition weatherHandler {C : Type} `{IApiClient C} (wh : WeatherHandler C)
    (r : http.Request) : M unit :=
  let cep := url.Get (url.Query (http.URL r)) "cep" in
  if negb (isValidCEP cep) then
    http_Error "invalid zipcode" http.StatusUnprocessableEntity
  else
    do (city, err) <- call "getCityByCEP" (getCityByCEP (apiClient wh)) cep ;;
    match err with
    | Some err => http_Error "can not find zipcode" http.StatusNotFound
    | None =>
        do (tempC, err) <-
           call "getTemperatureByCity" (getTemperatureByCity (apiClient wh)) city ;;
        match err with
        | Some err =>
            emit (Println err) ;;
            http_Error "can not find temperature" http.StatusNotFound
        | None =>
            let resp :=
              {| City := city;
                 TempC := tempC;
                 TempF := tempC * 1.8 + 32;
                 TempK := tempC + 273 |} in
            w_Header_Set "Content-Type" "application/json" ;;
            do _ <- Encode (Marshal resp) ;;
            ret tt
        end
    end.

End lookup_plain.

(** ** The traced gateway (service_a/main.go) *)

Module service_a.

Record Entrada : Type := { CEP : string }.

Definition store_Entrada : json.Store Entrada :=
  json.store_struct "main.Entrada"
    [ ("cep", json.field json.store_string CEP (fun _ x => {| CEP := x |})) ].

Record WebServer : Type := { Tracer : otel.Tracer }.

(** What the gateway finds outside itself: the value of the variable
    [WEATHER_SERVICE], [url.Parse], and what [http.DefaultClient.Do] returns
    for a request, an error when the service cannot be reached or the time
    allowed by the context of the request runs out. *)
Record Outside : Type := {
  WEATHER_SERVICE : string;
  url_Parse : string -> result url.URL;
  DefaultClient_Do : http.Request -> result http.Response
}.

Local Open Scope go_scope.

Definition client_Do (out : Outside) (req : http.Request) : M (result http.Response) :=
  emit (ClientDo req) ;; ret (DefaultClient_Do out req).

Definition getTemperatura (g : otel.Globals) (out : Outside) (ws : WebServer)
    (tracectx : context.Context) (entrada : Entrada)
    : M (common.WeatherResponse * option error) :=
  let ctx := context.WithTimeout tracectx 5000 in
  match http.NewRequestWithContext (url_Parse out) ctx "GET"
          (WEATHER_SERVICE out ++ "/weather?cep=" ++ CEP entrada) with
  | Err err => ret (common.zero, Some err)
  | Ok req =>
      let req :=
        http.WithHeader req
          (otel.Inject (otel.GetTextMapPropagator g) ctx (http.ReqHeader req)) in
      do res <- client_Do out req ;;
      match res with
      | Err err => ret (common.zero, Some err)
      | Ok res =>
          let body := http.Body res in
          match http.ReadErr res with
          | Some err => ret (common.zero, Some err)
          | None =>
              match json.Unmarshal common.store body common.zero with
              | Err err => ret (common.zero, Some err)
              | Ok response => ret (response, None)
              end
          end
      end
  end.

Definition handleRequest (g : otel.Globals) (out : Outside) (ws : WebServer)
    (r : http.Request) : M unit :=
  let carrier := http.ReqHeader r in
  let ctx := http.Context r in
  let ctx := otel.Extract (otel.GetTextMapPropagator g) ctx carrier in
  do (ctx, spanValidation) <- otel.Start (Tracer ws) ctx "Validate inputs" ;;
  match json.Decode store_Entrada (http.ReqBody r) {| CEP := EmptyString |} with
  | Err err =>
      http_Error "payload inválido" http.StatusBadRequest ;;
      otel.RecordError spanValidation err ;;
      otel.SetStatus spanValidation codes.Error "payload inválido" ;;
      otel.End spanValidation
  | Ok entrada =>
      if negb (common.IsValidCEP (CEP entrada)) then
        http_Error "invalid zipcode" http.StatusUnprocessableEntity ;;
        otel.SetStatus spanValidation codes.Error "invalid zipcode" ;;
        otel.End spanValidation
      else
        otel.End spanValidation ;;
        do (ctx, span) <- otel.Start (Tracer ws) ctx "Call to service_b" ;;
        defer (otel.End span)
          (do (response, err) <- getTemperatura g out ws ctx entrada ;;
           match err with
           | Some err =>
               http_Error "Falha para recuperar os dados" http.StatusInternalServerError ;;
               otel.RecordError span err ;;
               otel.SetStatus span codes.Error "Falha para recuperar os dados"
           | None =>
               w_Header_Set "Content-Type" "application/json" ;;
               do _ <- Encode (common.Marshal response) ;;
               ret tt
           end)
  end.

End service_a.

(** ** The untraced gateway *)

Module gateway_plain.

Record Entrada : Type := { CEP : string }.

Definition store_Entrada : json.Store Entrada :=
  json.store_struct "main.Entrada"
    [ ("cep", json.field json.store_string CEP (fun _ x => {| CEP := x |})) ].

Record WeatherResponse : Type := {
  City : string;
  TempC : float;
  TempF : float;
  TempK : float
}.

(** [WeatherResponse{}] *)
Definition zero : WeatherResponse :=
  {| City := EmptyString; TempC := 0; TempF := 0; TempK := 0 |}.

Definition fields : list (string * json.Store WeatherResponse) :=
  [ ("city", json.field json.store_string City
       (fun r x => {| City := x; TempC := TempC r; TempF := TempF r; TempK := TempK r |}));
    ("temp_C", json.field json.store_float64 TempC
       (fun r x => {| City := City r; TempC := x; TempF := TempF r; TempK := TempK r |}));
    ("temp_F", json.field json.store_float64 TempF
       (fun r x => {| City := City r; TempC := TempC r; TempF := x; TempK := TempK r |}));
    ("temp_K", json.field json.store_float64 TempK
       (fun r x => {| City := City r; TempC := TempC r; TempF := TempF r; TempK := x |})) ].

Definition store : json.Store WeatherResponse :=
  json.store_struct "main.WeatherResponse" fields.

(** What the encoder makes of a [WeatherResponse]. *)
Definition Marshal (r : WeatherResponse) : result json.Value :=
  match json.encode_float64 (TempC r), json.encode_float64 (TempF r),
        json.encode_float64 (TempK r) with
  | Ok c, Ok f, Ok k =>
      Ok (json.JObject [("city", json.JString (City r)); ("temp_C", c);
                        ("temp_F", f); ("temp_K", k)])
  | Err e, _, _ => Err e
  | _, Err e, _ => Err e
  | _, _, Err e => Err e
  end.

(** What the gateway finds outside itself: [url.Parse], and what
    [http.DefaultClient.Do] returns for a request, an error when the service
    cannot be reached or the time allowed by the context of the request runs
    out. *)
Record Outside : Type := {
  url_Parse : string -> result url.URL;
  DefaultClient_Do : http.Request -> result http.Response
}.

Local Open Scope go_scope.

Definition client_Do (out : Outside) (req : http.Request) : M (result http.Response) :=
  emit (ClientDo req) ;; ret (DefaultClient_Do out req).

Definition getCotacao (out : Outside) (entrada : Entrada)
    : M (WeatherResponse * option error) :=
  let ctx := context.WithTimeout context.Background 5000 in
  match http.NewRequestWithContext (url_Parse out) ctx "GET"
          ("http://localhost:8080/weather?cep=" ++ CEP entrada) with
  | Err err => ret (zero, Some err)
  | Ok req =>
      do res <- client_Do out req ;;
      match res with
      | Err err => ret (zero, Some err)
      | Ok res =>
          let body := http.Body res in
          match http.ReadErr res with
          | Some err => ret (zero, Some err)
          | None =>
              match json.Unmarshal store body zero with
              | Err err => ret (zero, Some err)
              | Ok response => ret (response, None)
              end
          end
      end
  end.

Definition handleRequest (out : Outside) (r : http.Request) : M unit :=
  match json.Decode store_Entrada (http.ReqBody r) {| CEP := EmptyString |} with
  | Err err => http_Error "payload inválido" http.StatusBadRequest
  | Ok entrada =>
      do (response, err) <- getCotacao out entrada ;;
      match err with
      | Some err =>
          http_Error "Falha para recuperar os dados" http.StatusInternalServerError
      | None =>
          w_Header_Set "Content-Type" "application/json" ;;
          do _ <- Encode (Marshal response) ;;
          ret tt
      end
  end.

End gateway_plain.

(** ** The two services together *)

(** A handler serves one request: it starts with nothing written and no
    event, its tracer having drawn [n] identifiers before. *)
Definition serve (n : nat) (handler : M unit) : State := snd (handler (serving n)).

(** What the client receives. *)
Definition status (st : State) : Z := http.StatusCode (http.response (w st)).
Definition body (st : State) : list json.chunk := http.Body (http.response (w st)).

(** The writer of a handler that has set the content type to JSON and
    given [doc] to the encoder, and has written nothing else. *)
Definition json_response (doc : result json.Value) : http.ResponseWriter :=
  let w1 := http.SetHeader http.newResponseWriter "Content-Type" "application/json" in
  match doc with
  | Ok v => http.Write w1 (json.Encoded v)
  | Err _ => w1
  end.

Module deployment.

(** What the lookup service receives of a request of the gateway: the
    request without the context of the sender, which stays in the sending
    process. *)
Definition deliver (req : http.Request) : http.Request :=
  {| http.Method := http.Method req;
     http.URL := http.URL req;
     http.ReqHeader := http.ReqHeader req;
     http.ReqBody := http.ReqBody req;
     http.Context := context.Background |}.

(** The lookup service serves a request of the gateway. *)
Definition lookup {C : Type} `{service_b.IApiClient C} (g : otel.Globals)
    (wh : service_b.WeatherHandler C) (n : nat) (req : http.Request) : State :=
  serve n (service_b.weatherHandler g wh (deliver req)).

(** A stand-in for [url.Parse] on the addresses of the deployment, which
    have no fragment: the query is what follows the first question mark. *)
Definition Parse (s : string) : result url.URL :=
  let '(_, query, _) := url.Cut "?" s in
  Ok {| url.Raw := s; url.RawQuery := query |}.

(** The outside of a gateway whose requests reach the lookup service. *)
Definition outside {C : Type} `{service_b.IApiClient C} (g : otel.Globals)
    (wh : service_b.WeatherHandler C) (n : nat) (base : string) : service_a.Outside :=
  {| service_a.WEATHER_SERVICE := base;
     service_a.url_Parse := Parse;
     service_a.DefaultClient_Do := fun req => Ok (http.response (w (lookup g wh n req))) |}.

(** The gateway serves a request. *)
Definition gateway (g : otel.Globals) (out : service_a.Outside)
    (ws : service_a.WebServer) (n : nat) (r : http.Request) : State :=
  serve n (service_a.handleRequest g out ws r).

End deployment.

(** ** The runs of the handlers, path by path

    The state each handler ends in, written out for every path through it;
    the lemmas [weatherHandler_run], [plain_weatherHandler_run] and
    [handleRequest_run] below prove that the handlers end there. *)

Module paths.

Local Open Scope list_scope.

Section lookup.

Context {C : Type} `{service_b.IApiClient C}.

Definition weatherHandler (g : otel.Globals) (wh : service_b.WeatherHandler C)
    (n : nat) (r : http.Request) : State :=
  let t := service_b.tracer wh in
  let ctx0 := otel.Extract (otel.GetTextMapPropagator g) (http.Context r) (http.ReqHeader r) in
  let cep := url.Get (url.Query (http.URL r)) "cep" in
  let sc1 := otel.newSpanContext t (context.span ctx0) n in
  let sc2 := otel.newSpanContext t sc1 (S n) in
  let sc3 := otel.newSpanContext t sc2 (S (S n)) in
  let w0 := http.newResponseWriter in
  let validated := [SpanStart "Validate inputs" sc1 (context.span ctx0); SpanEnd sc1;
                    SpanStart "Get City from Zipcode" sc2 sc1;
                    ApiCall "getCityByCEP" cep] in
  if negb (common.IsValidCEP cep) then
    {| w := http.Error w0 "invalid zipcode" http.StatusUnprocessableEntity;
       draws := S n;
       events := [SpanStart "Validate inputs" sc1 (context.span ctx0);
                  SpanSetStatus sc1 codes.Error "invalid zipcode"; SpanEnd sc1] |}
  else
    match service_b.getCityByCEP (service_b.apiClient wh) cep with
    | (_, Some err) =>
        {| w := http.Error w0 "can not find zipcode" http.StatusNotFound;
           draws := S (S n);
           events := validated ++
             [SpanRecordError sc2 err;
              SpanSetStatus sc2 codes.Error "can not find zipcode"; SpanEnd sc2] |}
    | (city, None) =>
        let located := validated ++
          [SpanEnd sc2; SpanStart "Get City temperature" sc3 sc2;
           ApiCall "getTemperatureByCity" city] in
        match service_b.getTemperatureByCity (service_b.apiClient wh) city with
        | (_, Some err) =>
            {| w := http.Error w0 "can not find temperature" http.StatusNotFound;
               draws := S (S (S n));
               events := located ++
                 [SpanRecordError sc3 err;
                  SpanSetStatus sc3 codes.Error "can not find temperature"; SpanEnd sc3] |}
        | (tempC, None) =>
            let resp := {| common.City := city; common.TempC := tempC;
                           common.TempF := tempC * 1.8 + 32;
                           common.TempK := tempC + 273 |} in
            {| w := json_response (common.Marshal resp);
               draws := S (S (S n));
               events := located ++ [SpanEnd sc3] |}
        end
    end.

Definition plain_weatherHandler (wh : lookup_plain.WeatherHandler C)
    (n : nat) (r : http.Request) : State :=
  let cep := url.Get (url.Query (http.URL r)) "cep" in
  let w0 := http.newResponseWriter in
  if negb (lookup_plain.isValidCEP cep) then
    {| w := http.Error w0 "invalid zipcode" http.StatusUnprocessableEntity;
       draws := n; events := [] |}
  else
    match service_b.getCityByCEP (lookup_plain.apiClient wh) cep with
    | (_, Some err) =>
        {| w := http.Error w0 "can not find zipcode" http.StatusNotFound;
           draws := n; events := [ApiCall "getCityByCEP" cep] |}
    | (city, None) =>
        match service_b.getTemperatureByCity (lookup_plain.apiClient wh) city with
        | (_, Some err) =>
            {| w := http.Error w0 "can not find temperature" http.StatusNotFound;
               draws := n;
               events := [ApiCall "getCityByCEP" cep;
                          ApiCall "getTemperatureByCity" city; Println err] |}
        | (tempC, None) =>
            let resp := {| lookup_plain.City := city; lookup_plain.TempC := tempC;
                           lookup_plain.TempF := tempC * 1.8 + 32;
                           lookup_plain.TempK := tempC + 273 |} in
            {| w := json_response (lookup_plain.Marshal resp);
               draws := n;
               events := [ApiCall "getCityByCEP" cep;
                          ApiCall "getTemperatureByCity" city] |}
        end
    end.

End lookup.

(** The request the gateway sends for [entrada], [u] being its URL. *)
Definition outbound (g : otel.Globals) (ws : service_a.WebServer) (n : nat)
    (r : http.Request) (u : url.URL) : http.Request :=
  let t := service_a.Tracer ws in
  let ctx0 := otel.Extract (otel.GetTextMapPropagator g) (http.Context r) (http.ReqHeader r) in
  let sc1 := otel.newSpanContext t (context.span ctx0) n in
  let sc2 := otel.newSpanContext t sc1 (S n) in
  let ctx := context.WithTimeout
               (context.WithSpan (context.WithSpan ctx0 sc1) sc2) 5000 in
  {| http.Method := "GET"; http.URL := u;
     http.ReqHeader := otel.Inject (otel.GetTextMapPropagator g) ctx ∅;
     http.ReqBody := [];
     http.Context := ctx |}.

Definition handleRequest (g : otel.Globals) (out : service_a.Outside)
    (ws : service_a.WebServer) (n : nat) (r : http.Request) : State :=
  let t := service_a.Tracer ws in
  let ctx0 := otel.Extract (otel.GetTextMapPropagator g) (http.Context r) (http.ReqHeader r) in
  let sc1 := otel.newSpanContext t (context.span ctx0) n in
  let sc2 := otel.newSpanContext t sc1 (S n) in
  let w0 := http.newResponseWriter in
  let start1 := SpanStart "Validate inputs" sc1 (context.span ctx0) in
  match json.Decode service_a.store_Entrada (http.ReqBody r)
          {| service_a.CEP := EmptyString |} with
  | Err err =>
      {| w := http.Error w0 "payload inválido" http.StatusBadRequest;
         draws := S n;
         events := [start1; SpanRecordError sc1 err;
                    SpanSetStatus sc1 codes.Error "payload inválido"; SpanEnd sc1] |}
  | Ok entrada =>
      if negb (common.IsValidCEP (service_a.CEP entrada)) then
        {| w := http.Error w0 "invalid zipcode" http.StatusUnprocessableEntity;
           draws := S n;
           events := [start1; SpanSetStatus sc1 codes.Error "invalid zipcode";
                      SpanEnd sc1] |}
      else
        let validated := [start1; SpanEnd sc1; SpanStart "Call to service_b" sc2 sc1] in
        let failed (sent : list Event) (err : error) :=
          {| w := http.Error w0 "Falha para recuperar os dados"
                    http.StatusInternalServerError;
             draws := S (S n);
             events := validated ++ sent ++
               [SpanRecordError sc2 err;
                SpanSetStatus sc2 codes.Error "Falha para recuperar os dados";
                SpanEnd sc2] |} in
        match service_a.url_Parse out
                (service_a.WEATHER_SERVICE out ++ "/weather?cep="
                 ++ service_a.CEP entrada)%string with
        | Err err => failed [] err
        | Ok u =>
            let req := outbound g ws n r u in
            match service_a.DefaultClient_Do out req with
            | Err err => failed [ClientDo req] err
            | Ok res =>
                match http.ReadErr res with
                | Some err => failed [ClientDo req] err
                | None =>
                    match json.Unmarshal common.store (http.Body res) common.zero with
                    | Err err => failed [ClientDo req] err
                    | Ok response =>
                        {| w := json_response (common.Marshal response);
                           draws := S (S n);
                           events := validated ++ [ClientDo req; SpanEnd sc2] |}
                    end
                end
            end
        end
  end.

End paths.

(** ** The words of the specification *)

(** The decimal digits. *)
Definition decimal_digits : list ascii :=
  ["0"; "1"; "2"; "3"; "4"; "5"; "6"; "7"; "8"; "9"]%char.

(** A string of exactly 8 decimal digits. *)
Definition eight_decimal_digits (s : string) : Prop :=
  String.length s = 8 /\ Forall (fun c => In c decimal_digits) (list_ascii_of_string s).

(** The key [key] of a JSON object names the field tagged [tag]: it is the
    tag, exactly or up to the case of its letters. *)
Definition names (tag key : string) : bool :=
  String.eqb tag key || String.eqb (json.foldName tag) (json.foldName key).

(** No member of an object names the field. *)
Definition lacks (tag : string) (ms : list (string * json.Value)) : Prop :=
  forall key v, In (key, v) ms -> names tag key = false.

(** A JSON object that lacks the field [current.temp_c]: each member named
    [current] is [null] or an object without [temp_c]. *)
Definition lacks_current_temp_c (ms : list (string * json.Value)) : Prop :=
  forall key v, In (key, v) ms -> names "current" key = true ->
    v = json.JNull \/ exists ms', v = json.JObject ms' /\ lacks "temp_c" ms'.

(** A JSON object with no field [cep], or with empty ones. *)
Definition cep_absent_or_empty (ms : list (string * json.Value)) : Prop :=
  forall key v, In (key, v) ms -> names "cep" key = true ->
    v = json.JNull \/ v = json.JString EmptyString.

(** The three temperatures of a record are finite numbers. *)
Definition finite (r : common.WeatherResponse) : Prop :=
  PrimFloat.is_finite (common.TempC r) = true
  /\ PrimFloat.is_finite (common.TempF r) = true
  /\ PrimFloat.is_finite (common.TempK r) = true.

(** The identifiers a generator draws are well formed and not zero. *)
Definition valid_generator (gen : otel.IDGenerator) : Prop :=
  forall n,
    trace.valid_id 32 (fst (otel.NewIDs gen n)) = true
    /\ trace.valid_id 16 (snd (otel.NewIDs gen n)) = true
    /\ trace.valid_id 16 (otel.NewSpanID gen n) = true.

(** A span context as another process sees it. *)
Definition remote (sc : trace.SpanContext) : trace.SpanContext :=
  {| trace.TraceID := trace.TraceID sc; trace.SpanID := trace.SpanID sc;
     trace.Sampled := trace.Sampled sc; trace.Remote := true |}.

(** The log has no call of [getTemperatureByCity]. *)
Definition no_temperature_call (st : State) : Prop :=
  forall arg, ~ In (ApiCall "getTemperatureByCity" arg) (events st).

(** The log has no call of the HTTP client. *)
Definition no_outbound_call (st : State) : Prop :=
  forall req, ~ In (ClientDo req) (events st).

(** A call of the HTTP client. *)
Definition is_call (e : Event) : Prop := exists req, e = ClientDo req.

(** ** A deployment to run the handlers on *)

Module example.

Definition gen : otel.IDGenerator :=
  {| otel.NewIDs := fun n => ("0af7651916cd43dd8448eb211c80319c", "b7ad6b7169203331");
     otel.NewSpanID := fun n => "00f067aa0ba902b7" |}.

Definition tracer : otel.Tracer := {| otel.idGenerator := gen |}.

(** The tracer of the lookup service draws other identifiers. *)
Definition tracer_b : otel.Tracer :=
  {| otel.idGenerator :=
       {| otel.NewIDs := fun n => ("4bf92f3577b34da6a3ce929d0e0e4736", "53995c3f42cd8ad8");
          otel.NewSpanID := fun n => "a3ce929d0e0e4736" |} |}.

Definition globals : otel.Globals := {| otel.GetTextMapPropagator := otel.TraceContext |}.

Definition answer_of (code : Z) (b : string) : http.Response :=
  {| http.StatusCode := code; http.RespHeader := ∅;
     http.Body := [json.Bytes b]; http.ReadErr := None |}.

Definition answer (code : Z) (b : string) : result http.Response :=
  Ok (answer_of code b).

(** The two providers: the address of 01001000 is in São Paulo, where it
    is 25 degrees; 99999999 is no postal code; no other address is
    reached. *)
Definition httpGet (u : string) : result http.Response :=
  if (u =? "https://viacep.com.br/ws/01001000/json/")%string then
    answer 200 (q "{'cep': '01001-000', 'localidade': 'São Paulo', 'uf': 'SP'}")
  else if (u =? "https://viacep.com.br/ws/99999999/json/")%string then
    answer 200 (q "{'erro': true}")
  else if (u =? "https://api.weatherapi.com/v1/current.json?key=KEY&q=S%C3%A3o+Paulo")%string then
    answer 200 (q "{'location': {'name': 'Sao Paulo'}, 'current': {'temp_c': 25.0}}")
  else Err "dial tcp: lookup failed".

Definition client : service_b.ApiClient := service_b.NewClient httpGet "KEY".

Definition wh : service_b.WeatherHandler service_b.ApiClient :=
  service_b.NewWeatherHandler client tracer.

Definition wh_plain : lookup_plain.WeatherHandler service_b.ApiClient :=
  lookup_plain.NewWeatherHandler client.

Definition ws : service_a.WebServer := {| service_a.Tracer := tracer |}.

(** The gateway in front of the lookup service. *)
Definition out : service_a.Outside :=
  deployment.outside globals wh 0 "http://service_b:8080".

(** A gateway whose lookup service answers every request with [res]. *)
Definition out_answering (res : result http.Response) : service_a.Outside :=
  {| service_a.WEATHER_SERVICE := "http://service_b:8080";
     service_a.url_Parse := deployment.Parse;
     service_a.DefaultClient_Do := fun _ => res |}.

(** [POST /] with the body [b]. *)
Definition post (b : string) : http.Request :=
  {| http.Method := "POST"; http.URL := {| url.Raw := "/"; url.RawQuery := EmptyString |};
     http.ReqHeader := ∅; http.ReqBody := [json.Bytes b];
     http.Context := context.Background |}.

(** [GET /weather?query] *)
Definition get (query : string) : http.Request :=
  {| http.Method := "GET";
     http.URL := {| url.Raw := "/weather?" ++ query; url.RawQuery := query |};
     http.ReqHeader := ∅; http.ReqBody := [];
     http.Context := context.Background |}.

(** An API client whose weather provider answers with the body [b]. *)
Definition client_weather (b : string) : service_b.ApiClient :=
  service_b.NewClient
    (fun u =>
       if (u =? "https://viacep.com.br/ws/01001000/json/")%string
       then answer 200 (q "{'localidade': 'São Paulo'}")
       else answer 200 b)
    "KEY".

End example.

(** ** The untraced gateway at work *)

(** The request the untraced gateway sends, [u] being its URL: a [GET]
    without header and without body, with 5 seconds allowed. *)
Definition plain_outbound (u : url.URL) : http.Request :=
  {| http.Method := "GET"; http.URL := u; http.ReqHeader := ∅; http.ReqBody := [];
     http.Context := context.WithTimeout context.Background 5000 |}.

(** The state the untraced gateway ends in, written out for every path
    through it; the lemma [plain_handleRequest_run] below proves that the
    handler ends there. *)
Definition plain_handleRequest_path (out : gateway_plain.Outside) (n : nat)
    (r : http.Request) : State :=
  let w0 := http.newResponseWriter in
  match json.Decode gateway_plain.store_Entrada (http.ReqBody r)
          {| gateway_plain.CEP := EmptyString |} with
  | Err err =>
      {| w := http.Error w0 "payload inválido" http.StatusBadRequest;
         draws := n; events := [] |}
  | Ok entrada =>
      let failed (sent : list Event) :=
        {| w := http.Error w0 "Falha para recuperar os dados"
                  http.StatusInternalServerError;
           draws := n; events := sent |} in
      match gateway_plain.url_Parse out
              ("http://localhost:8080/weather?cep=" ++ gateway_plain.CEP entrada) with
      | Err err => failed []
      | Ok u =>
          let req := plain_outbound u in
          match gateway_plain.DefaultClient_Do out req with
          | Err err => failed [ClientDo req]
          | Ok res =>
              match http.ReadErr res with
              | Some err => failed [ClientDo req]
              | None =>
                  match json.Unmarshal gateway_plain.store (http.Body res)
                          gateway_plain.zero with
                  | Err err => failed [ClientDo req]
                  | Ok response =>
                      {| w := json_response (gateway_plain.Marshal response);
                         draws := n; events := [ClientDo req] |}
                  end
              end
          end
      end
  end.

(** The untraced lookup service as the untraced gateway finds it at its
    address. *)
Definition plain_outside {C : Type} `{service_b.IApiClient C}
    (wh : lookup_plain.WeatherHandler C) (n : nat) : gateway_plain.Outside :=
  {| gateway_plain.url_Parse := deployment.Parse;
     gateway_plain.DefaultClient_Do := fun req =>
       Ok (http.response
             (w (serve n (lookup_plain.weatherHandler wh (deployment.deliver req))))) |}.

(** ** Answers, logs and queries *)

(** The line [msg] that [http.Error] writes. *)
Definition line (msg : string) : list json.chunk :=
  [json.Bytes (msg ++ String "010" EmptyString)].

(** The value of the header [Content-Type] of the response. *)
Definition content_type (st : State) : string :=
  http.Header_Get (http.RespHeader (http.response (w st))) "Content-Type".

(** A call of [getTemperatureByCity]. *)
Definition is_temperature_call (e : Event) : Prop :=
  exists arg, e = ApiCall "getTemperatureByCity" arg.

Definition SpanContext_eqb (a b : trace.SpanContext) : bool :=
  String.eqb (trace.TraceID a) (trace.TraceID b)
  && String.eqb (trace.SpanID a) (trace.SpanID b)
  && Bool.eqb (trace.Sampled a) (trace.Sampled b)
  && Bool.eqb (trace.Remote a) (trace.Remote b).

(** The spans of a log are open one at a time, [open] being the span that
    is open where the log starts: a span starts when none is open and ends
    when it is the open one; an error or a status is recorded on the open
    span; a call of the API client or of the HTTP client is made while a
    span is open; no span is left open. *)
Fixpoint one_span_at_a_time (open : option trace.SpanContext) (es : list Event) : bool :=
  match es with
  | [] => match open with None => true | Some _ => false end
  | SpanStart _ sc _ :: es' =>
      match open with
      | None => one_span_at_a_time (Some sc) es'
      | Some _ => false
      end
  | SpanEnd sc :: es' =>
      match open with
      | Some sc' => SpanContext_eqb sc sc' && one_span_at_a_time None es'
      | None => false
      end
  | SpanRecordError sc _ :: es' | SpanSetStatus sc _ _ :: es' =>
      match open with
      | Some sc' => SpanContext_eqb sc sc' && one_span_at_a_time open es'
      | None => false
      end
  | ApiCall _ _ :: es' | ClientDo _ :: es' =>
      match open with
      | Some _ => one_span_at_a_time open es'
      | None => false
      end
  | Println _ :: es' => one_span_at_a_time open es'
  end.

(** Each span but the first is started under the context of the span
    started before it, [last] being the span started last. *)
Fixpoint chained (last : option trace.SpanContext) (es : list Event) : bool :=
  match es with
  | [] => true
  | SpanStart _ sc parent :: es' =>
      match last with
      | Some sc' => SpanContext_eqb parent sc'
      | None => true
      end && chained (Some sc) es'
  | _ :: es' => chained last es'
  end.

(** The status of the span tells what the client receives: no error and no
    status is recorded when the answer is 200; any other answer has one
    status recorded, an error whose description is the message sent. *)
Definition status_mirrored (st : State) : Prop :=
  (status st = 200%Z ->
     (forall sc code description, ~ In (SpanSetStatus sc code description) (events st))
     /\ (forall sc err, ~ In (SpanRecordError sc err) (events st)))
  /\ (status st <> 200%Z ->
        exists sc description,
          In (SpanSetStatus sc codes.Error description) (events st)
          /\ body st = line description
          /\ forall sc' code description',
               In (SpanSetStatus sc' code description') (events st) ->
               sc' = sc /\ code = codes.Error /\ description' = description).

(** A byte that [QueryEscape] leaves as it is. *)
Definition unreserved (c : ascii) : bool :=
  byte_in 97 122 c || byte_in 65 90 c || byte_in 48 57 c
  || (c =? "-")%char || (c =? "_")%char || (c =? ".")%char || (c =? "~")%char.

(** A byte of an escaped text: an unreserved one, a plus sign, or a percent
    sign with its two digits. *)
Definition escaped_byte (c : ascii) : bool :=
  unreserved c || (c =? "+")%char || (c =? "%")%char.

(** The text starts with the two bytes of a [\u] escape. *)
Definition starts_with_escape_u (s : string) : bool :=
  match s with
  | String b1 (String b2 _) => (b1 =? "\")%char && (b2 =? "u")%char
  | _ => false
  end.

(** ** The bodies of the address provider *)

(** The two fields of [ViaCEPResponse], as [store_ViaCEPResponse] stores
    them. *)
Definition ViaCEP_Localidade : json.Store service_b.ViaCEPResponse :=
  json.field json.store_string service_b.Localidade
    (fun r x => {| service_b.Localidade := x; service_b.Erro := service_b.Erro r |}).

Definition ViaCEP_Erro : json.Store service_b.ViaCEPResponse :=
  json.field json.store_bool service_b.Erro
    (fun r x => {| service_b.Localidade := service_b.Localidade r; service_b.Erro := x |}).

Definition ViaCEP_fields : list (string * json.Store service_b.ViaCEPResponse) :=
  [ ("localidade", ViaCEP_Localidade); ("erro", ViaCEP_Erro) ].

(** A body of the address provider that reports an error: it has a member
    named [erro], and the value of every such member is something else than
    [false] and [null] ([true], or a value that is no boolean, such as the
    string [true]). *)
Definition reports_erro (ms : list (string * json.Value)) : Prop :=
  (exists key v, In (key, v) ms /\ names "erro" key = true)
  /\ (forall key v, In (key, v) ms -> names "erro" key = true ->
        v <> json.JBool false /\ v <> json.JNull).

(** ** The two gateways side by side *)

(** Two results are alike: two values that [R] relates, or two errors. *)
Definition alike {A B : Type} (R : A -> B -> Prop) (x : result A) (y : result B) : Prop :=
  match x, y with
  | Ok a, Ok b => R a b
  | Err _, Err _ => True
  | _, _ => False
  end.

(** Two stores treat related variables alike. *)
Definition stores_alike {T T' : Type} (R : T -> T' -> Prop)
    (st : json.Store T) (st' : json.Store T') : Prop :=
  forall v a a', R a a' -> alike R (st v a) (st' v a').

(** The records of the two gateways with the same fields. *)
Definition same_record (a : common.WeatherResponse) (b : gateway_plain.WeatherResponse)
    : Prop :=
  common.City a = gateway_plain.City b /\ common.TempC a = gateway_plain.TempC b
  /\ common.TempF a = gateway_plain.TempF b /\ common.TempK a = gateway_plain.TempK b.

(** The two bodies of a request with the same postal code. *)
Definition same_entrada (a : service_a.Entrada) (b : gateway_plain.Entrada) : Prop :=
  service_a.CEP a = gateway_plain.CEP b.

(** ** Proof automation *)

(** Runs a handler: the monad, the calls on spans and the handlers are
    unfolded, the library functions are not. *)
Ltac run :=
  cbv beta iota zeta delta
    [serve bind ret emit on_writer defer call http_Error w_Header_Set Encode serving
     otel.Start otel.End otel.SetStatus otel.RecordError otel.SpanContext
     service_b.weatherHandler lookup_plain.weatherHandler
     service_b.apiClient service_b.tracer lookup_plain.apiClient
     service_a.handleRequest service_a.getTemperatura service_a.client_Do
     http.NewRequestWithContext http.WithHeader http.ReqHeader
     paths.weatherHandler paths.plain_weatherHandler paths.handleRequest
     paths.outbound
     context.span context.WithSpan app
     fst snd w events draws].

(** An event that a written-out log does not hold. *)
Ltac absent Hin :=
  cbn in Hin;
  repeat (destruct Hin as [Hin | Hin]; [discriminate Hin |]);
  exact Hin.

Ltac no_such_event :=
  let Hin := fresh "Hin" in
  intros ? Hin; absent Hin.

(** No event of a written-out log is a call of the HTTP client. *)
Ltac no_call :=
  repeat first
    [ apply List.Forall_nil
    | apply List.Forall_cons; [intros [? Hcall]; discriminate Hcall |] ].

(** Runs the untraced gateway. *)
Ltac run_plain :=
  cbv beta iota zeta delta
    [serve bind ret emit on_writer http_Error w_Header_Set Encode serving
     gateway_plain.handleRequest gateway_plain.getCotacao gateway_plain.client_Do
     http.NewRequestWithContext plain_outbound plain_handleRequest_path
     app fst snd w events draws].

(** * Properties *)

(** ** The postal-code validator *)

Lemma byte_in_digit (c : ascii) :
  byte_in 48 57 c = true <-> In c decimal_digits.
Proof.
  split.
  - destruct c as [[] [] [] [] [] [] [] []]; vm_compute; intros H;
      try discriminate H; tauto.
  - intros H. unfold decimal_digits in H. simpl in H.
    repeat (destruct H as [<- | H]; [reflexivity |]). destruct H.
Qed.

(** [d{n}] followed by the end of the text accepts exactly the texts of [n]
    digits. *)
Lemma run_repeat_digit_end (n : nat) (bot : bool) (s : string) :
  regexp.run (regexp.OpRepeat n regexp.digit) bot s
    (fun bot' s' => regexp.run regexp.OpEndText bot' s' (fun _ _ => true)) = true
  <-> String.length s = n /\
      Forall (fun c => In c decimal_digits) (list_ascii_of_string s).
Proof.
  revert bot s. induction n as [| n IH]; intros bot s.
  - simpl. destruct s as [| c s]; simpl.
    + split; [intros _; split; [reflexivity | constructor] | reflexivity].
    + split; [discriminate | intros [H _]; discriminate H].
  - destruct s as [| c s].
    + simpl. split; [discriminate | intros [H _]; discriminate H].
    + change (byte_in 48 57 c
              && regexp.run (regexp.OpRepeat n regexp.digit) false s
                   (fun bot' s' => regexp.run regexp.OpEndText bot' s' (fun _ _ => true))
              = true <-> String.length (String c s) = S n /\
                Forall (fun c => In c decimal_digits) (list_ascii_of_string (String c s))).
      rewrite andb_true_iff, IH, byte_in_digit. simpl. split.
      * intros (Hc & Hl & Hs). split; [congruence | constructor; assumption].
      * intros (Hl & Hs). inversion Hs; subst. repeat split; [assumption | congruence | assumption].
Qed.

(** No match of the pattern starts after the beginning of the text. *)
Lemma search_cep_pattern_inside (s : string) :
  regexp.search common.cep_pattern false s = false.
Proof.
  induction s as [| c s IH]; simpl; [reflexivity | exact IH].
Qed.

Lemma MatchString_cep_pattern (s : string) :
  regexp.MatchString common.cep_pattern s = true <-> eight_decimal_digits s.
Proof.
  unfold regexp.MatchString, eight_decimal_digits.
  rewrite <- (run_repeat_digit_end 8 true s).
  destruct s as [| c s].
  - simpl. split; discriminate.
  - change (regexp.search common.cep_pattern true (String c s))
      with (regexp.run common.cep_pattern true (String c s) (fun _ _ => true)
            || regexp.search common.cep_pattern false s).
    rewrite search_cep_pattern_inside, orb_false_r. reflexivity.
Qed.

(** C1: for every string of exactly 8 decimal digits the validator
    [IsValidCEP], and its copy [isValidCEP] in the untraced lookup service,
    return true; for every other string (wrong length, a character that is
    no digit, empty) they return false. *)
Theorem IsValidCEP_eight_decimal_digits (cep : string) :
  (eight_decimal_digits cep ->
     common.IsValidCEP cep = true /\ lookup_plain.isValidCEP cep = true)
  /\ (~ eight_decimal_digits cep ->
     common.IsValidCEP cep = false /\ lookup_plain.isValidCEP cep = false).
Proof.
  change (lookup_plain.isValidCEP cep) with (common.IsValidCEP cep).
  unfold common.IsValidCEP. cbv zeta.
  pose proof (MatchString_cep_pattern cep) as Hm.
  split; intros Hd.
  - split; apply Hm, Hd.
  - destruct (regexp.MatchString common.cep_pattern cep); [| split; reflexivity].
    exfalso. apply Hd, Hm. reflexivity.
Qed.

Example IsValidCEP_examples :
  common.IsValidCEP "01001000" = true
  /\ common.IsValidCEP "123" = false
  /\ common.IsValidCEP EmptyString = false
  /\ common.IsValidCEP "0100100a" = false
  /\ common.IsValidCEP "010010000" = false
  /\ common.IsValidCEP " 01001000" = false
  /\ common.IsValidCEP ("01001000" ++ String "010" EmptyString) = false.
Proof. repeat split; reflexivity. Qed.

Lemma IsValidCEP_eight_decimal_digits_witness :
  (common.IsValidCEP "01001000" = true /\ lookup_plain.isValidCEP "01001000" = true)
  /\ (common.IsValidCEP "123" = false /\ lookup_plain.isValidCEP "123" = false).
Proof.
  split.
  - apply (proj1 (IsValidCEP_eight_decimal_digits "01001000")).
    split; [reflexivity |].
    repeat (apply List.Forall_cons; [cbn; tauto |]). apply List.Forall_nil.
  - apply (proj2 (IsValidCEP_eight_decimal_digits "123")).
    intros [Hlength _]. discriminate Hlength.
Defined.

(** ** The handlers end where [paths] says *)

Lemma weatherHandler_run {C : Type} `{service_b.IApiClient C} (g : otel.Globals)
    (wh : service_b.WeatherHandler C) (n : nat) (r : http.Request) :
  serve n (service_b.weatherHandler g wh r) = paths.weatherHandler g wh n r.
Proof.
  run.
  destruct (common.IsValidCEP _); cbn [negb]; [| reflexivity].
  destruct (service_b.getCityByCEP _ _) as [city [err |]]; [reflexivity |].
  destruct (service_b.getTemperatureByCity _ _) as [tempC [err |]]; [reflexivity |].
  destruct (common.Marshal _); reflexivity.
Qed.

Lemma plain_weatherHandler_run {C : Type} `{service_b.IApiClient C}
    (wh : lookup_plain.WeatherHandler C) (n : nat) (r : http.Request) :
  serve n (lookup_plain.weatherHandler wh r) = paths.plain_weatherHandler wh n r.
Proof.
  run.
  destruct (lookup_plain.isValidCEP _); cbn [negb]; [| reflexivity].
  destruct (service_b.getCityByCEP _ _) as [city [err |]]; [reflexivity |].
  destruct (service_b.getTemperatureByCity _ _) as [tempC [err |]]; [reflexivity |].
  destruct (lookup_plain.Marshal _); reflexivity.
Qed.

Lemma handleRequest_run (g : otel.Globals) (out : service_a.Outside)
    (ws : service_a.WebServer) (n : nat) (r : http.Request) :
  serve n (service_a.handleRequest g out ws r) = paths.handleRequest g out ws n r.
Proof.
  run.
  destruct (json.Decode _ _ _) as [entrada | err]; [| reflexivity].
  destruct (common.IsValidCEP _); cbn [negb]; [| reflexivity].
  destruct (service_a.url_Parse _ _) as [u | err]; [| reflexivity].
  destruct (service_a.DefaultClient_Do _ _) as [res | err]; [| reflexivity].
  destruct (http.ReadErr res) as [err |]; [reflexivity |].
  destruct (json.Unmarshal _ _ _) as [response | err]; [| reflexivity].
  destruct (common.Marshal _); reflexivity.
Qed.

(** ** What the client receives *)

Lemma status_Error (msg : string) (code : Z) (n : nat) (es : list Event) :
  status {| w := http.Error http.newResponseWriter msg code; draws := n; events := es |}
  = code.
Proof. reflexivity. Qed.

Lemma body_Error (msg : string) (code : Z) (n : nat) (es : list Event) :
  body {| w := http.Error http.newResponseWriter msg code; draws := n; events := es |}
  = [json.Bytes (msg ++ String "010" EmptyString)].
Proof. reflexivity. Qed.

Lemma status_json_response (doc : result json.Value) (n : nat) (es : list Event) :
  status {| w := json_response doc; draws := n; events := es |} = 200%Z.
Proof. destruct doc; reflexivity. Qed.

Lemma body_json_response (doc : result json.Value) (n : nat) (es : list Event) :
  body {| w := json_response doc; draws := n; events := es |}
  = match doc with
    | Ok v => [json.Encoded v]
    | Err _ => []
    end.
Proof. destruct doc; reflexivity. Qed.

(** The encoder takes a record of finite temperatures, field by field. *)
Lemma Marshal_finite (r : common.WeatherResponse) :
  finite r ->
  common.Marshal r
  = Ok (json.JObject
          [("city", json.JString (common.City r));
           ("temp_C", json.JNumber (json.Float64 (common.TempC r)));
           ("temp_F", json.JNumber (json.Float64 (common.TempF r)));
           ("temp_K", json.JNumber (json.Float64 (common.TempK r)))]).
Proof.
  intros (Hc & Hf & Hk). unfold common.Marshal, json.encode_float64.
  rewrite Hc, Hf, Hk. reflexivity.
Qed.

(** ** The lookup service *)

(** C3: for every successful temperature resolution with Celsius value [t],
    the record the lookup service builds has [tempF = t*1.8+32] and
    [tempK = t+273], in binary64 arithmetic, and it is this record, made
    once from [t], that the handler gives to the encoder; so in the traced
    service, so in the untraced one. *)
Theorem weatherHandler_derived_temperatures {C : Type} `{service_b.IApiClient C}
    (g : otel.Globals) (t : otel.Tracer) (c : C) (r : http.Request) (n : nat)
    (city : string) (tempC : float) :
  common.IsValidCEP (url.Get (url.Query (http.URL r)) "cep") = true ->
  service_b.getCityByCEP c (url.Get (url.Query (http.URL r)) "cep") = (city, None) ->
  service_b.getTemperatureByCity c city = (tempC, None) ->
  (exists resp : common.WeatherResponse,
      (common.City resp = city /\ common.TempC resp = tempC
       /\ common.TempF resp = (tempC * 1.8 + 32)%float
       /\ common.TempK resp = (tempC + 273)%float)
      /\ w (serve n (service_b.weatherHandler g (service_b.NewWeatherHandler c t) r))
         = json_response (common.Marshal resp))
  /\ (exists resp : lookup_plain.TempResponse,
      (lookup_plain.City resp = city /\ lookup_plain.TempC resp = tempC
       /\ lookup_plain.TempF resp = (tempC * 1.8 + 32)%float
       /\ lookup_plain.TempK resp = (tempC + 273)%float)
      /\ w (serve n (lookup_plain.weatherHandler (lookup_plain.NewWeatherHandler c) r))
         = json_response (lookup_plain.Marshal resp)).
Proof.
  intros Hv Hc Ht. split.
  - eexists. split; [| rewrite weatherHandler_run; unfold paths.weatherHandler; cbv zeta;
                       cbn [service_b.apiClient service_b.NewWeatherHandler];
                       rewrite Hv, Hc, Ht; reflexivity].
    repeat split.
  - eexists. split; [| rewrite plain_weatherHandler_run; unfold paths.plain_weatherHandler;
                       cbv zeta;
                       cbn [lookup_plain.apiClient lookup_plain.NewWeatherHandler];
                       change (lookup_plain.isValidCEP ?x) with (common.IsValidCEP x);
                       rewrite Hv, Hc, Ht; reflexivity].
    repeat split.
Qed.

Lemma weatherHandler_derived_temperatures_witness :
  (exists resp : common.WeatherResponse,
      (common.City resp = "São Paulo" /\ common.TempC resp = 25%float
       /\ common.TempF resp = (25 * 1.8 + 32)%float
       /\ common.TempK resp = (25 + 273)%float)
      /\ w (serve 0 (service_b.weatherHandler example.globals
                       (service_b.NewWeatherHandler example.client example.tracer)
                       (example.get "cep=01001000")))
         = json_response (common.Marshal resp))
  /\ (exists resp : lookup_plain.TempResponse,
      (lookup_plain.City resp = "São Paulo" /\ lookup_plain.TempC resp = 25%float
       /\ lookup_plain.TempF resp = (25 * 1.8 + 32)%float
       /\ lookup_plain.TempK resp = (25 + 273)%float)
      /\ w (serve 0 (lookup_plain.weatherHandler
                       (lookup_plain.NewWeatherHandler example.client)
                       (example.get "cep=01001000")))
         = json_response (lookup_plain.Marshal resp)).
Proof.
  apply (weatherHandler_derived_temperatures example.globals example.tracer
           example.client (example.get "cep=01001000") 0 "São Paulo" 25%float);
    vm_compute; reflexivity.
Defined.

(** Scenario A at the lookup service: 25 degrees Celsius are 77 degrees
    Fahrenheit and 298 kelvins. *)
Example lookup_scenario_A :
  let st := serve 0 (service_b.weatherHandler example.globals example.wh
                       (example.get "cep=01001000")) in
  status st = 200%Z
  /\ body st = [json.Encoded
                  (json.JObject
                     [("city", json.JString "São Paulo");
                      ("temp_C", json.JNumber (json.Float64 25));
                      ("temp_F", json.JNumber (json.Float64 77));
                      ("temp_K", json.JNumber (json.Float64 298))])].
Proof. split; vm_compute; reflexivity. Qed.

(** C4: in the lookup service, for every request with a valid postal code:
    if [getCityByCEP] returns an error the handler responds 404 and does not
    call [getTemperatureByCity]; if [getCityByCEP] succeeds and
    [getTemperatureByCity] returns an error, the handler responds 404 too;
    so in the traced service, so in the untraced one. *)
Theorem weatherHandler_not_found {C : Type} `{service_b.IApiClient C}
    (g : otel.Globals) (t : otel.Tracer) (c : C) (r : http.Request) (n : nat) :
  common.IsValidCEP (url.Get (url.Query (http.URL r)) "cep") = true ->
  let cep := url.Get (url.Query (http.URL r)) "cep" in
  let traced := serve n (service_b.weatherHandler g (service_b.NewWeatherHandler c t) r) in
  let plain := serve n (lookup_plain.weatherHandler (lookup_plain.NewWeatherHandler c) r) in
  (forall city err, service_b.getCityByCEP c cep = (city, Some err) ->
     (status traced = 404%Z /\ no_temperature_call traced)
     /\ (status plain = 404%Z /\ no_temperature_call plain))
  /\ (forall city tempC err,
        service_b.getCityByCEP c cep = (city, None) ->
        service_b.getTemperatureByCity c city = (tempC, Some err) ->
        status traced = 404%Z /\ status plain = 404%Z).
Proof.
  intros Hv cep traced plain. subst traced plain.
  rewrite weatherHandler_run, plain_weatherHandler_run.
  unfold paths.weatherHandler, paths.plain_weatherHandler. cbv zeta.
  cbn [service_b.apiClient service_b.NewWeatherHandler
       lookup_plain.apiClient lookup_plain.NewWeatherHandler].
  change (lookup_plain.isValidCEP ?x) with (common.IsValidCEP x).
  fold cep. fold cep in Hv. rewrite Hv. cbn [negb]. split.
  - intros city err Hc. rewrite Hc.
    repeat split; try reflexivity; unfold no_temperature_call; no_such_event.
  - intros city tempC err Hc Ht. rewrite Hc, Ht. split; reflexivity.
Qed.

Lemma weatherHandler_not_found_witness :
  (status (serve 0 (service_b.weatherHandler example.globals example.wh
                      (example.get "cep=99999999"))) = 404%Z
   /\ no_temperature_call
        (serve 0 (service_b.weatherHandler example.globals example.wh
                    (example.get "cep=99999999"))))
  /\ status (serve 0 (service_b.weatherHandler example.globals
                        (service_b.NewWeatherHandler
                           (example.client_weather "Service Unavailable") example.tracer)
                        (example.get "cep=01001000"))) = 404%Z.
Proof.
  split.
  - destruct (weatherHandler_not_found example.globals example.tracer example.client
                (example.get "cep=99999999") 0 ltac:(vm_compute; reflexivity))
      as [Hcity _].
    destruct (Hcity EmptyString "not found" ltac:(vm_compute; reflexivity))
      as [Htraced _].
    exact Htraced.
  - destruct (weatherHandler_not_found example.globals example.tracer
                (example.client_weather "Service Unavailable")
                (example.get "cep=01001000") 0 ltac:(vm_compute; reflexivity))
      as [_ Htemp].
    destruct (Htemp "São Paulo" 0%float "invalid or incomplete JSON text"
                ltac:(vm_compute; reflexivity) ltac:(vm_compute; reflexivity))
      as [Htraced _].
    exact Htraced.
Defined.

(** C8: the lookup handler is deterministic in its inputs.  Two executions
    on the same valid request against the same results of the resolvers
    (the same locality, the same Celsius temperature) send the same
    response, the same record in its four fields: whatever the tracer has
    drawn before, whatever identifiers it draws, whatever trace headers and
    context the request carries, whatever propagator is installed. *)
Theorem weatherHandler_deterministic {C : Type} `{service_b.IApiClient C}
    (g1 g2 : otel.Globals) (t1 t2 : otel.Tracer) (c1 c2 : C)
    (r1 r2 : http.Request) (n1 n2 : nat) (city : string) (tempC : float) :
  http.URL r1 = http.URL r2 ->
  common.IsValidCEP (url.Get (url.Query (http.URL r1)) "cep") = true ->
  service_b.getCityByCEP c1 (url.Get (url.Query (http.URL r1)) "cep") = (city, None) ->
  service_b.getCityByCEP c2 (url.Get (url.Query (http.URL r1)) "cep") = (city, None) ->
  service_b.getTemperatureByCity c1 city = (tempC, None) ->
  service_b.getTemperatureByCity c2 city = (tempC, None) ->
  let run1 := serve n1 (service_b.weatherHandler g1 (service_b.NewWeatherHandler c1 t1) r1) in
  let run2 := serve n2 (service_b.weatherHandler g2 (service_b.NewWeatherHandler c2 t2) r2) in
  let plain1 := serve n1 (lookup_plain.weatherHandler (lookup_plain.NewWeatherHandler c1) r1) in
  let plain2 := serve n2 (lookup_plain.weatherHandler (lookup_plain.NewWeatherHandler c2) r2) in
  (http.response (w run1) = http.response (w run2)
   /\ exists resp : common.WeatherResponse,
        w run1 = json_response (common.Marshal resp)
        /\ w run2 = json_response (common.Marshal resp))
  /\ (http.response (w plain1) = http.response (w plain2)
      /\ exists resp : lookup_plain.TempResponse,
           w plain1 = json_response (lookup_plain.Marshal resp)
           /\ w plain2 = json_response (lookup_plain.Marshal resp)).
Proof.
  intros Hu Hv Hc1 Hc2 Ht1 Ht2 run1 run2 plain1 plain2.
  subst run1 run2 plain1 plain2.
  rewrite !weatherHandler_run, !plain_weatherHandler_run.
  unfold paths.weatherHandler, paths.plain_weatherHandler. cbv zeta.
  cbn [service_b.apiClient service_b.NewWeatherHandler
       lookup_plain.apiClient lookup_plain.NewWeatherHandler].
  change (lookup_plain.isValidCEP ?x) with (common.IsValidCEP x).
  rewrite <- Hu, Hv, Hc1, Hc2, Ht1, Ht2. cbn [negb w].
  split; (split; [reflexivity | eexists; split; reflexivity]).
Qed.

Lemma weatherHandler_deterministic_witness :
  let other :=
    {| otel.idGenerator :=
         {| otel.NewIDs := fun n => ("4bf92f3577b34da6a3ce929d0e0e4736", "00f067aa0ba902b7");
            otel.NewSpanID := fun n => "53995c3f42cd8ad8" |} |} in
  http.response
    (w (serve 0 (service_b.weatherHandler example.globals
                   (service_b.NewWeatherHandler example.client example.tracer)
                   (example.get "cep=01001000"))))
  = http.response
      (w (serve 7 (service_b.weatherHandler example.globals
                     (service_b.NewWeatherHandler example.client other)
                     (example.get "cep=01001000")))).
Proof.
  intros other.
  exact (proj1 (proj1
           (weatherHandler_deterministic example.globals example.globals
              example.tracer other example.client example.client
              (example.get "cep=01001000") (example.get "cep=01001000") 0 7
              "São Paulo" 25%float eq_refl
              ltac:(vm_compute; reflexivity) ltac:(vm_compute; reflexivity)
              ltac:(vm_compute; reflexivity) ltac:(vm_compute; reflexivity)
              ltac:(vm_compute; reflexivity)))).
Defined.

(** ** The scanner of JSON texts has fuel enough *)

Lemma skip_space_length (s : string) :
  String.length (json.skip_space s) <= String.length s.
Proof.
  induction s as [| c s IH]; [reflexivity |].
  cbn [json.skip_space]. destruct (json.is_space c); cbn [String.length]; lia.
Qed.

Lemma prepend_Some (p : string) (r : option (string * string)) (x rest : string) :
  json.prepend p r = Some (x, rest) -> exists y, r = Some (y, rest).
Proof.
  destruct r as [[y rest'] |]; [| discriminate].
  intros [= _ <-]. exists y. reflexivity.
Qed.

Lemma unquote_length (n : nat) :
  forall s str rest, String.length s <= n ->
    json.unquote s = Some (str, rest) -> String.length rest < String.length s.
Proof.
  induction n as [| n IH]; intros s str rest Hn Hu.
  - destruct s; [discriminate Hu | cbn in Hn; lia].
  - assert (Hrec : forall p x, String.length x <= n ->
              json.prepend p (json.unquote x) = Some (str, rest) ->
              String.length rest < String.length x).
    { intros p x Hx Hp. apply prepend_Some in Hp. destruct Hp as [y Hy].
      exact (IH x y rest Hx Hy). }
    destruct s as [| c s1]; [discriminate Hu |].
    cbn [json.unquote] in Hu. cbn [String.length] in Hn |- *.
    destruct (c =? dquote)%char; [injection Hu as _ <-; lia |].
    destruct (c =? "\")%char.
    + destruct s1 as [| e s2]; [discriminate Hu |]. cbn [String.length] in Hn |- *.
      destruct (json.simple_escape e).
      { apply Hrec in Hu; lia. }
      destruct (e =? "u")%char; [| discriminate Hu].
      destruct s2 as [| h1 [| h2 [| h3 [| h4 s3]]]]; try discriminate Hu.
      cbn [String.length] in Hn |- *.
      destruct (json.getu4 h1 h2 h3 h4) as [rr |]; [| discriminate Hu].
      destruct (json.is_high_surrogate rr).
      * destruct s3 as [| b1 [| b2 [| g1 [| g2 [| g3 [| g4 s4]]]]]];
          cbn [String.length] in Hn |- *;
          try (apply Hrec in Hu; cbn [String.length] in *; lia).
        destruct (if (b1 =? "\")%char && (b2 =? "u")%char then json.getu4 g1 g2 g3 g4 else None)
          as [rr1 |];
          [destruct (json.is_low_surrogate rr1) |];
          apply Hrec in Hu; cbn [String.length] in *; lia.
      * destruct (json.is_low_surrogate rr); apply Hrec in Hu; lia.
    + destruct (N_of_ascii c <? 32)%N; [discriminate Hu |].
      apply Hrec in Hu; lia.
Qed.

Lemma span_digits_length (s ds rest : string) :
  json.span_digits s = (ds, rest) ->
  String.length s = String.length ds + String.length rest.
Proof.
  revert ds rest. induction s as [| c s IH]; intros ds rest Hs.
  - injection Hs as <- <-. reflexivity.
  - cbn [json.span_digits] in Hs. destruct (json.is_digit c).
    + destruct (json.span_digits s) as [ds' rest'].
      injection Hs as <- <-. cbn [String.length]. rewrite (IH ds' rest' eq_refl). lia.
    + injection Hs as <- <-. reflexivity.
Qed.

Lemma scan_number_length (s : string) (n : json.number) (rest : string) :
  json.scan_number s = Some (n, rest) -> String.length rest < String.length s.
Proof.
  unfold json.scan_number.
  destruct (json.scan_sign s) as [neg s1] eqn:Hsign.
  destruct (json.scan_int s1) as [ip s2] eqn:Hint.
  destruct (ip =? EmptyString)%string eqn:Hip; [discriminate |].
  destruct (json.scan_frac s2) as [[fp s3] |] eqn:Hfrac; [| discriminate].
  destruct (json.scan_exp s3) as [[e r] |] eqn:Hexp; [| discriminate].
  intros [= _ <-].
  assert (H1 : String.length s1 <= String.length s).
  { unfold json.scan_sign in Hsign. destruct s as [| c s']; [injection Hsign as _ <-; lia |].
    destruct (c =? "-")%char; injection Hsign as _ <-; cbn [String.length]; lia. }
  assert (H2 : String.length s2 < String.length s1).
  { destruct ip as [| d ip]; [discriminate Hip |].
    unfold json.scan_int in Hint. destruct s1 as [| c s']; [discriminate Hint |].
    destruct (c =? "0")%char; [injection Hint as _ _ <-; cbn [String.length]; lia |].
    apply span_digits_length in Hint. cbn [String.length] in *. lia. }
  assert (H3 : String.length s3 <= String.length s2).
  { unfold json.scan_frac in Hfrac. destruct s2 as [| c s']; [injection Hfrac as _ <-; lia |].
    destruct (c =? ".")%char; [| injection Hfrac as _ <-; lia].
    destruct (json.span_digits s') as [fp' r'] eqn:Hspan.
    destruct (fp' =? EmptyString)%string; [discriminate Hfrac |].
    injection Hfrac as _ <-. apply span_digits_length in Hspan. cbn [String.length]. lia. }
  assert (H4 : String.length r <= String.length s3).
  { unfold json.scan_exp in Hexp. destruct s3 as [| c s']; [injection Hexp as _ <-; lia |].
    destruct ((c =? "e")%char || (c =? "E")%char); [| injection Hexp as _ <-; lia].
    destruct (match s' with
              | String d s'' =>
                  if (d =? "-")%char then (true, s'')
                  else if (d =? "+")%char then (false, s'')
                  else (false, s')
              | EmptyString => (false, s')
              end) as [eneg s4] eqn:Hesign.
    assert (String.length s4 <= String.length s').
    { destruct s' as [| d s'']; [injection Hesign as _ <-; lia |].
      destruct (d =? "-")%char; [injection Hesign as _ <-; cbn [String.length]; lia |].
      destruct (d =? "+")%char; injection Hesign as _ <-; cbn [String.length]; lia. }
    destruct (json.span_digits s4) as [ep r'] eqn:Hspan.
    destruct (ep =? EmptyString)%string; [discriminate Hexp |].
    injection Hexp as _ <-. apply span_digits_length in Hspan. cbn [String.length]. lia. }
  lia.
Qed.

Lemma strip_prefix_length (p s rest : string) :
  json.strip_prefix p s = Some rest ->
  String.length s = String.length p + String.length rest.
Proof.
  revert s. induction p as [| a p IH]; intros s Hs.
  - injection Hs as <-. reflexivity.
  - destruct s as [| b s]; [discriminate Hs |]. cbn [json.strip_prefix] in Hs.
    destruct (a =? b)%char; [| discriminate Hs].
    cbn [String.length]. rewrite (IH s Hs). reflexivity.
Qed.

(** What a successful scan leaves is shorter than what it was given. *)
Lemma value_consumes (fuel : nat) :
  (forall s v rest, json.value fuel s = Some (v, rest) ->
     String.length rest < String.length s) /\
  (forall s ms rest, json.members fuel s = Some (ms, rest) ->
     String.length rest < String.length s) /\
  (forall s vs rest, json.elements fuel s = Some (vs, rest) ->
     String.length rest < String.length s).
Proof.
  induction fuel as [| fuel (IHv & IHm & IHe)];
    [repeat split; intros s a rest Hs; discriminate Hs |].
  assert (Hv : forall s v rest, json.value (S fuel) s = Some (v, rest) ->
               String.length rest < String.length s).
  { intros s v rest Hs. cbn [json.value] in Hs.
    pose proof (skip_space_length s) as Hskip.
    destruct (json.skip_space s) as [| c s1]; [discriminate Hs |].
    cbn [String.length] in Hskip.
    destruct (c =? "{")%char.
    { pose proof (skip_space_length s1) as Hskip1.
      destruct (json.skip_space s1) as [| c2 s2]; [discriminate Hs |].
      cbn [String.length] in Hskip1.
      destruct (c2 =? "}")%char; [injection Hs as _ <-; lia |].
      destruct (json.members fuel (String c2 s2)) as [[ms r] |] eqn:Hm; [| discriminate Hs].
      injection Hs as _ <-. apply IHm in Hm. cbn [String.length] in Hm. lia. }
    destruct (c =? "[")%char.
    { pose proof (skip_space_length s1) as Hskip1.
      destruct (json.skip_space s1) as [| c2 s2]; [discriminate Hs |].
      cbn [String.length] in Hskip1.
      destruct (c2 =? "]")%char; [injection Hs as _ <-; lia |].
      destruct (json.elements fuel (String c2 s2)) as [[vs r] |] eqn:He; [| discriminate Hs].
      injection Hs as _ <-. apply IHe in He. cbn [String.length] in He. lia. }
    destruct (c =? dquote)%char.
    { destruct (json.unquote s1) as [[str r] |] eqn:Hu; [| discriminate Hs].
      injection Hs as _ <-. apply (unquote_length _ _ _ _ (le_n _)) in Hu. lia. }
    destruct ((c =? "-")%char || json.is_digit c).
    { destruct (json.scan_number (String c s1)) as [[n r] |] eqn:Hn; [| discriminate Hs].
      injection Hs as _ <-. apply scan_number_length in Hn. cbn [String.length] in Hn. lia. }
    destruct (json.strip_prefix "true" (String c s1)) as [r |] eqn:Ht.
    { injection Hs as _ <-. apply strip_prefix_length in Ht. cbn [String.length] in Ht. lia. }
    destruct (json.strip_prefix "false" (String c s1)) as [r |] eqn:Hf.
    { injection Hs as _ <-. apply strip_prefix_length in Hf. cbn [String.length] in Hf. lia. }
    destruct (json.strip_prefix "null" (String c s1)) as [r |] eqn:Hnull; [| discriminate Hs].
    injection Hs as _ <-. apply strip_prefix_length in Hnull. cbn [String.length] in Hnull. lia. }
  split; [exact Hv |]. split.
  - intros s ms rest Hs. cbn [json.members] in Hs.
    destruct s as [| c s1]; [discriminate Hs |]. cbn [String.length].
    destruct (c =? dquote)%char; [| discriminate Hs].
    destruct (json.unquote s1) as [[key s2] |] eqn:Hu; [| discriminate Hs].
    apply (unquote_length _ _ _ _ (le_n _)) in Hu.
    pose proof (skip_space_length s2) as Hskip2.
    destruct (json.skip_space s2) as [| c3 s3]; [discriminate Hs |].
    cbn [String.length] in Hskip2.
    destruct (c3 =? ":")%char; [| discriminate Hs].
    destruct (json.value fuel s3) as [[v s4] |] eqn:Hval; [| discriminate Hs].
    apply IHv in Hval.
    pose proof (skip_space_length s4) as Hskip4.
    destruct (json.skip_space s4) as [| c5 s5]; [discriminate Hs |].
    cbn [String.length] in Hskip4.
    destruct (c5 =? "}")%char; [injection Hs as _ <-; lia |].
    destruct (c5 =? ",")%char; [| discriminate Hs].
    destruct (json.members fuel (json.skip_space s5)) as [[ms' r] |] eqn:Hm; [| discriminate Hs].
    injection Hs as _ <-. apply IHm in Hm. pose proof (skip_space_length s5). lia.
  - intros s vs rest Hs. cbn [json.elements] in Hs.
    destruct (json.value fuel s) as [[v s1] |] eqn:Hval; [| discriminate Hs].
    apply IHv in Hval.
    pose proof (skip_space_length s1) as Hskip1.
    destruct (json.skip_space s1) as [| c s2]; [discriminate Hs |].
    cbn [String.length] in Hskip1.
    destruct (c =? "]")%char; [injection Hs as _ <-; lia |].
    destruct (c =? ",")%char; [| discriminate Hs].
    destruct (json.elements fuel s2) as [[vs' r] |] eqn:He; [| discriminate Hs].
    injection Hs as _ <-. apply IHe in He. lia.
Qed.

(** Two amounts of fuel above the bound give the same result. *)
Lemma value_fuel_mono (fuel : nat) :
  forall fuel' s,
    (2 * String.length s < fuel -> 2 * String.length s < fuel' ->
     json.value fuel s = json.value fuel' s) /\
    (2 * String.length s < fuel -> 2 * String.length s < fuel' ->
     json.members fuel s = json.members fuel' s) /\
    (2 * String.length s + 1 < fuel -> 2 * String.length s + 1 < fuel' ->
     json.elements fuel s = json.elements fuel' s).
Proof.
  induction fuel as [| f IH]; intros fuel' s; [repeat split; lia |].
  destruct fuel' as [| f']; [repeat split; lia |].
  destruct (value_consumes f) as (Cv & _ & _).
  repeat split; intros Hf Hf'.
  - cbn [json.value].
    pose proof (skip_space_length s) as Hskip.
    destruct (json.skip_space s) as [| c s1]; [reflexivity |].
    cbn [String.length] in Hskip.
    pose proof (skip_space_length s1) as Hskip1.
    destruct (json.skip_space s1) as [| c2 s2].
    + destruct (c =? "{")%char; [reflexivity |].
      destruct (c =? "[")%char; reflexivity.
    + cbn [String.length] in Hskip1.
      destruct (IH f' (String c2 s2)) as (_ & IHm & IHe).
      rewrite IHm by (cbn [String.length]; lia).
      rewrite IHe by (cbn [String.length]; lia).
      reflexivity.
  - cbn [json.members].
    destruct s as [| c s1]; [reflexivity |]. cbn [String.length] in Hf, Hf'.
    destruct (c =? dquote)%char; [| reflexivity].
    destruct (json.unquote s1) as [[key s2] |] eqn:Hu; [| reflexivity].
    apply (unquote_length _ _ _ _ (le_n _)) in Hu.
    pose proof (skip_space_length s2) as Hskip2.
    destruct (json.skip_space s2) as [| c3 s3]; [reflexivity |].
    cbn [String.length] in Hskip2.
    destruct (c3 =? ":")%char; [| reflexivity].
    destruct (IH f' s3) as (IHv & _ & _).
    rewrite <- IHv by lia.
    destruct (json.value f s3) as [[v s4] |] eqn:Hval; [| reflexivity].
    apply Cv in Hval.
    pose proof (skip_space_length s4) as Hskip4.
    destruct (json.skip_space s4) as [| c5 s5]; [reflexivity |].
    cbn [String.length] in Hskip4.
    pose proof (skip_space_length s5) as Hskip5.
    destruct (IH f' (json.skip_space s5)) as (_ & IHm & _).
    rewrite IHm by lia. reflexivity.
  - cbn [json.elements].
    destruct (IH f' s) as (IHv & _ & _).
    rewrite <- IHv by lia.
    destruct (json.value f s) as [[v s1] |] eqn:Hval; [| reflexivity].
    apply Cv in Hval.
    pose proof (skip_space_length s1) as Hskip1.
    destruct (json.skip_space s1) as [| c s2]; [reflexivity |].
    cbn [String.length] in Hskip1.
    destruct (IH f' s2) as (_ & _ & IHe).
    rewrite IHe by lia. reflexivity.
Qed.

(** More fuel than [parse] gives changes nothing: no text is refused
    because the fuel ran out. *)
Lemma value_fuel (s : string) (fuel : nat) :
  2 * String.length s < fuel ->
  json.value fuel s = json.value (S (2 * String.length s)) s.
Proof.
  intros Hf. destruct (value_fuel_mono fuel (S (2 * String.length s)) s) as (Hv & _).
  apply Hv; lia.
Qed.

(** ** Decoding *)

Lemma IsValidCEP_true_iff (cep : string) :
  common.IsValidCEP cep = true <-> eight_decimal_digits cep.
Proof. exact (MatchString_cep_pattern cep). Qed.

Lemma IsValidCEP_false (cep : string) :
  ~ eight_decimal_digits cep -> common.IsValidCEP cep = false.
Proof.
  intros Hd. destruct (common.IsValidCEP cep) eqn:Hv; [| reflexivity].
  exfalso. apply Hd, IsValidCEP_true_iff, Hv.
Qed.

(** In a struct of one field, a key finds the field when it names it. *)
Lemma find_field_single {T : Type} (tag : string) (st : json.Store T) (key : string) :
  json.find_field [(tag, st)] key = if names tag key then Some st else None.
Proof.
  unfold json.find_field, names. cbn [List.find fst snd].
  destruct (String.eqb tag key); [reflexivity |].
  destruct (String.eqb (json.foldName tag) (json.foldName key)); reflexivity.
Qed.

(** Members that name no field, or whose value leaves the variable as it
    is, leave the variable as it is. *)
Lemma store_members_unchanged {T : Type} (fields : list (string * json.Store T))
    (ms : list (string * json.Value)) (old : T) :
  (forall key v, In (key, v) ms ->
     match json.find_field fields key with
     | None => True
     | Some st => st v old = Ok old
     end) ->
  json.store_members fields ms old = Ok old.
Proof.
  induction ms as [| [key v] ms IH]; intros Hms; [reflexivity |].
  cbn [json.store_members].
  pose proof (Hms key v (or_introl eq_refl)) as Hhead.
  assert (Htail : json.store_members fields ms old = Ok old)
    by (apply IH; intros k x Hin; apply Hms; right; exact Hin).
  destruct (json.find_field fields key) as [st |]; [| exact Htail].
  rewrite Hhead. exact Htail.
Qed.

(** A body with no field [cep], or with empty ones, decodes to the empty
    postal code. *)
Lemma Decode_cep_absent (data : list json.chunk) (ms : list (string * json.Value)) :
  json.document json.parse_first data = Ok (json.JObject ms) ->
  cep_absent_or_empty ms ->
  json.Decode service_a.store_Entrada data {| service_a.CEP := EmptyString |}
  = Ok {| service_a.CEP := EmptyString |}.
Proof.
  intros Hdoc Hms. unfold json.Decode. rewrite Hdoc.
  unfold service_a.store_Entrada, json.store_struct.
  apply store_members_unchanged. intros key v Hin.
  rewrite find_field_single. destruct (names "cep" key) eqn:Hk; [| exact I].
  destruct (Hms key v Hin Hk) as [-> | ->]; reflexivity.
Qed.

(** ** The gateway *)

(** An event that stands once in a log stands where it is seen. *)
Lemma only_occurrence {A : Type} (P : A -> Prop) (l1 : list A) (x : A) (l2 pre : list A)
    (y : A) (post : list A) :
  (l1 ++ x :: l2 = pre ++ y :: post)%list ->
  Forall (fun e => ~ P e) l1 -> Forall (fun e => ~ P e) l2 -> P y ->
  pre = l1.
Proof.
  revert pre. induction l1 as [| a l1 IH]; intros pre Heq H1 H2 Hy.
  - destruct pre as [| b pre]; [reflexivity |].
    cbn in Heq. injection Heq as _ Heq. exfalso.
    rewrite List.Forall_forall in H2. apply (H2 y); [| exact Hy].
    rewrite Heq. apply in_elt.
  - destruct pre as [| b pre]; cbn in Heq; injection Heq as Hab Heq.
    + exfalso. subst a. inversion H1; subst. auto.
    + subst b. f_equal. apply IH; [exact Heq | | exact H2 | exact Hy].
      inversion H1; subst; assumption.
Qed.

(** C5: for every request of the gateway whose body decodes and whose [cep]
    is not exactly 8 decimal digits, [handleRequest] responds 422 and makes
    no call to the lookup service; and within one request validation comes
    strictly before the call: when the HTTP client is called, the body was
    decoded, its postal code found valid, and the span of the validation
    started and ended. *)
Theorem handleRequest_validates_first (g : otel.Globals) (out : service_a.Outside)
    (ws : service_a.WebServer) (r : http.Request) (n : nat) :
  let st := serve n (service_a.handleRequest g out ws r) in
  let decoded := json.Decode service_a.store_Entrada (http.ReqBody r)
                   {| service_a.CEP := EmptyString |} in
  (forall entrada, decoded = Ok entrada ->
     ~ eight_decimal_digits (service_a.CEP entrada) ->
     status st = 422%Z /\ no_outbound_call st)
  /\ (forall pre req post, events st = (pre ++ ClientDo req :: post)%list ->
        exists entrada sc parent,
          decoded = Ok entrada
          /\ eight_decimal_digits (service_a.CEP entrada)
          /\ In (SpanStart "Validate inputs" sc parent) pre
          /\ In (SpanEnd sc) pre).
Proof.
  intros st decoded. subst st decoded. rewrite handleRequest_run.
  unfold paths.handleRequest. cbv beta zeta. split.
  - intros entrada -> Hd. rewrite (IsValidCEP_false _ Hd). cbn [negb].
    split; [reflexivity | unfold no_outbound_call; no_such_event].
  - intros pre req post Heq.
    assert (Hin : In (ClientDo req)
                    (events (paths.handleRequest g out ws n r))).
    { unfold paths.handleRequest. cbv beta zeta. rewrite Heq. apply in_elt. }
    unfold paths.handleRequest in Hin. cbv beta zeta in Hin.
    destruct (json.Decode _ _ _) as [entrada | err];
      [| exfalso; absent Hin].
    destruct (common.IsValidCEP _) eqn:Hv; cbn [negb] in Heq, Hin;
      [| exfalso; absent Hin].
    apply IsValidCEP_true_iff in Hv.
    destruct (service_a.url_Parse _ _) as [u | err];
      [| exfalso; absent Hin].
    clear Hin.
    destruct (service_a.DefaultClient_Do _ _) as [res | err];
      [destruct (http.ReadErr res) as [err |];
       [| destruct (json.Unmarshal _ _ _) as [response | err]] |];
      cbn [events] in Heq;
      change ([ClientDo ?c] ++ ?t)%list with (ClientDo c :: t) in Heq;
      (apply (only_occurrence is_call) in Heq;
       [| no_call | no_call | eexists; reflexivity]);
      subst pre; eexists _, _, _;
      (split; [reflexivity | split; [exact Hv | split;
         [left; reflexivity | right; left; reflexivity]]]).
Qed.

Lemma handleRequest_validates_first_witness :
  (let st := serve 0 (service_a.handleRequest example.globals example.out example.ws
                        (example.post (q "{'cep':'123'}"))) in
   status st = 422%Z /\ no_outbound_call st)
  /\ (let r := example.post (q "{'cep':'01001000'}") in
      let st := serve 0 (service_a.handleRequest example.globals example.out example.ws r) in
      exists entrada sc parent,
        json.Decode service_a.store_Entrada (http.ReqBody r)
          {| service_a.CEP := EmptyString |} = Ok entrada
        /\ eight_decimal_digits (service_a.CEP entrada)
        /\ In (SpanStart "Validate inputs" sc parent) (firstn 3 (events st))
        /\ In (SpanEnd sc) (firstn 3 (events st))).
Proof.
  split.
  - intros st.
    destruct (handleRequest_validates_first example.globals example.out example.ws
                (example.post (q "{'cep':'123'}")) 0) as [Hinvalid _].
    apply (Hinvalid {| service_a.CEP := "123" |}).
    + vm_compute. reflexivity.
    + intros [Hlength _]. discriminate Hlength.
  - intros r st.
    destruct (handleRequest_validates_first example.globals example.out example.ws r 0)
      as [_ Hfirst].
    apply (Hfirst (firstn 3 (events st))
             (paths.outbound example.globals example.ws 0 r
                {| url.Raw := "http://service_b:8080/weather?cep=01001000";
                   url.RawQuery := "cep=01001000" |})
             (skipn 4 (events st))).
    vm_compute. reflexivity.
Defined.

(** C10: a request of the gateway whose body is valid JSON but has no field
    [cep], or an empty one, decodes to the empty postal code, fails
    validation and gets 422, not 400: 400 is the answer to the bodies that
    fail to decode, and to no other. *)
Theorem handleRequest_cep_absent (g : otel.Globals) (out : service_a.Outside)
    (ws : service_a.WebServer) (r : http.Request) (n : nat) :
  let st := serve n (service_a.handleRequest g out ws r) in
  let decoded := json.Decode service_a.store_Entrada (http.ReqBody r)
                   {| service_a.CEP := EmptyString |} in
  (forall ms, json.document json.parse_first (http.ReqBody r) = Ok (json.JObject ms) ->
     cep_absent_or_empty ms ->
     decoded = Ok {| service_a.CEP := EmptyString |}
     /\ common.IsValidCEP EmptyString = false
     /\ status st = 422%Z)
  /\ (status st = 400%Z <-> exists err, decoded = Err err).
Proof.
  intros st decoded. subst st decoded. rewrite handleRequest_run.
  unfold paths.handleRequest. cbv beta zeta. split.
  - intros ms Hdoc Hms. rewrite (Decode_cep_absent _ _ Hdoc Hms).
    repeat split; reflexivity.
  - destruct (json.Decode _ _ _) as [entrada | err].
    + split; [| intros [err Herr]; discriminate Herr].
      intros Hs. exfalso.
      destruct (common.IsValidCEP _); cbn [negb] in Hs; [| discriminate Hs].
      destruct (service_a.url_Parse _ _) as [u | err]; [| discriminate Hs].
      destruct (service_a.DefaultClient_Do _ _) as [res | err]; [| discriminate Hs].
      destruct (http.ReadErr res) as [err |]; [discriminate Hs |].
      destruct (json.Unmarshal _ _ _) as [response | err]; [| discriminate Hs].
      rewrite status_json_response in Hs. discriminate Hs.
    + split; [intros _; exists err; reflexivity | reflexivity].
Qed.

(** Bodies without [cep], with an empty or a null [cep], and with nothing
    but blanks after the first value get 422; a body that is no JSON, an
    empty body and a [cep] that is no string get 400. *)
Example handleRequest_statuses :
  let status_of b :=
    status (serve 0 (service_a.handleRequest example.globals example.out example.ws
                       (example.post (q b)))) in
  status_of "{}" = 422%Z
  /\ status_of "{'cep':''}" = 422%Z
  /\ status_of "{'cep':null}" = 422%Z
  /\ status_of "{'zip':'01001000'}" = 422%Z
  /\ status_of "null" = 422%Z
  /\ status_of "{'cep':'123'}" = 422%Z
  /\ status_of "{'cep':" = 400%Z
  /\ status_of "cep=01001000" = 400%Z
  /\ status_of "" = 400%Z
  /\ status_of "{'cep':1001000}" = 400%Z
  /\ status_of "['01001000']" = 400%Z.
Proof. repeat split; vm_compute; reflexivity. Qed.

Lemma handleRequest_cep_absent_witness :
  status (serve 0 (service_a.handleRequest example.globals example.out example.ws
                     (example.post (q "{}")))) = 422%Z
  /\ status (serve 0 (service_a.handleRequest example.globals example.out example.ws
                        (example.post (q "{'cep':''}")))) = 422%Z.
Proof.
  split.
  - destruct (handleRequest_cep_absent example.globals example.out example.ws
                (example.post (q "{}")) 0) as [Habsent _].
    apply (Habsent []); [vm_compute; reflexivity | intros key v []].
  - destruct (handleRequest_cep_absent example.globals example.out example.ws
                (example.post (q "{'cep':''}")) 0) as [Habsent _].
    apply (Habsent [("cep", json.JString EmptyString)]); [vm_compute; reflexivity |].
    intros key v [[= <- <-] | []] _. right. reflexivity.
Defined.

(** The lookup service sends its failures as plain text, which is no
    [WeatherResponse]. *)
Lemma lookup_failure_not_decoded {C : Type} `{service_b.IApiClient C}
    (g : otel.Globals) (wh : service_b.WeatherHandler C) (n : nat) (r : http.Request) :
  let st := serve n (service_b.weatherHandler g wh r) in
  status st <> 200%Z ->
  exists err, json.Unmarshal common.store (body st) common.zero = Err err.
Proof.
  intros st. subst st. rewrite weatherHandler_run.
  unfold paths.weatherHandler. cbv beta zeta.
  destruct (common.IsValidCEP _); cbn [negb];
    [| intros _; eexists; vm_compute; reflexivity].
  destruct (service_b.getCityByCEP _ _) as [city [err |]];
    [intros _; eexists; vm_compute; reflexivity |].
  destruct (service_b.getTemperatureByCity _ _) as [tempC [err |]];
    [intros _; eexists; vm_compute; reflexivity |].
  rewrite status_json_response. intros Hs. exfalso. apply Hs. reflexivity.
Qed.

(** The context of the request the gateway sends allows 5 seconds at most. *)
Lemma outbound_timeout (g : otel.Globals) (ws : service_a.WebServer) (n : nat)
    (r : http.Request) (u : url.URL) :
  exists d, context.timeout (http.Context (paths.outbound g ws n r u)) = Some d
            /\ (d <= 5000)%Z.
Proof.
  unfold paths.outbound, context.WithTimeout, context.WithSpan. cbn.
  destruct (context.timeout _) as [d0 |]; eexists; split; try reflexivity; lia.
Qed.

(** C2, as amended: whenever the request to the lookup service cannot be
    built, the call fails (the service is not reached, the 5 seconds run
    out), the body of the response cannot be read or fails to decode as a
    [WeatherResponse], [handleRequest] responds 500.  The status of the
    response is not looked at: a response whose body decodes is answered
    with 200 whatever its status, and a response with a status outside 2xx
    is answered with 500 when its body fails to decode, as the body of
    every such response of the lookup service does. *)
Theorem handleRequest_internal_server_error (g : otel.Globals) (out : service_a.Outside)
    (ws : service_a.WebServer) (r : http.Request) (n : nat) (entrada : service_a.Entrada) :
  json.Decode service_a.store_Entrada (http.ReqBody r) {| service_a.CEP := EmptyString |}
  = Ok entrada ->
  common.IsValidCEP (service_a.CEP entrada) = true ->
  let st := serve n (service_a.handleRequest g out ws r) in
  let address := service_a.WEATHER_SERVICE out ++ "/weather?cep=" ++ service_a.CEP entrada in
  (forall err, service_a.url_Parse out address = Err err -> status st = 500%Z)
  /\ (forall u, service_a.url_Parse out address = Ok u ->
      let req := paths.outbound g ws n r u in
      (exists d, context.timeout (http.Context req) = Some d /\ (d <= 5000)%Z)
      /\ (forall err, service_a.DefaultClient_Do out req = Err err -> status st = 500%Z)
      /\ (forall res, service_a.DefaultClient_Do out req = Ok res ->
          (forall err, http.ReadErr res = Some err -> status st = 500%Z)
          /\ (forall err, http.ReadErr res = None ->
                json.Unmarshal common.store (http.Body res) common.zero = Err err ->
                status st = 500%Z)
          /\ (forall response, http.ReadErr res = None ->
                json.Unmarshal common.store (http.Body res) common.zero = Ok response ->
                status st = 200%Z)
          /\ (forall (C : Type) (H : service_b.IApiClient C) (gB : otel.Globals)
                     (whB : service_b.WeatherHandler C) (nB : nat) (rB : http.Request),
                res = http.response (w (serve nB (service_b.weatherHandler gB whB rB))) ->
                ~ (200 <= http.StatusCode res < 300)%Z ->
                status st = 500%Z))).
Proof.
  intros Hdec Hv st address. subst st address. rewrite handleRequest_run.
  unfold paths.handleRequest. cbv beta zeta. rewrite Hdec, Hv. cbn [negb]. split.
  - intros err ->. reflexivity.
  - intros u ->. cbv zeta. split; [apply outbound_timeout |]. split.
    + intros err ->. reflexivity.
    + intros res ->. split; [intros err ->; reflexivity |]. split; [| split].
      * intros err -> ->. reflexivity.
      * intros response -> ->. apply status_json_response.
      * intros C H gB whB nB rB -> Hstatus. cbn [http.ReadErr http.response].
        destruct (lookup_failure_not_decoded gB whB nB rB) as [err Herr].
        { unfold status. lia. }
        unfold body in Herr. rewrite Herr. reflexivity.
Qed.

(** C2, as stated, fails: the lookup service, or whatever answers in its
    place, responds 404 with a JSON body, and the gateway responds 200. *)
Lemma handleRequest_ok_on_downstream_404 :
  let res := {| http.StatusCode := 404; http.RespHeader := ∅;
                http.Body := [json.Bytes (q "{'message':'not found'}")];
                http.ReadErr := None |} in
  let st := serve 0 (service_a.handleRequest example.globals
                       (example.out_answering (Ok res)) example.ws
                       (example.post (q "{'cep':'01001000'}"))) in
  ~ (200 <= http.StatusCode res < 300)%Z
  /\ status st = 200%Z
  /\ status st <> 500%Z.
Proof.
  cbv zeta. split; [cbn; lia |]. split; [vm_compute; reflexivity |].
  vm_compute. discriminate.
Qed.

Lemma handleRequest_internal_server_error_witness :
  status (serve 0 (service_a.handleRequest example.globals
                     (example.out_answering (Err "context deadline exceeded"))
                     example.ws (example.post (q "{'cep':'01001000'}")))) = 500%Z
  /\ status (serve 0 (service_a.handleRequest example.globals example.out
                        example.ws (example.post (q "{'cep':'99999999'}")))) = 500%Z.
Proof.
  split.
  - destruct (handleRequest_internal_server_error example.globals
                (example.out_answering (Err "context deadline exceeded")) example.ws
                (example.post (q "{'cep':'01001000'}")) 0
                {| service_a.CEP := "01001000" |}
                ltac:(vm_compute; reflexivity) ltac:(vm_compute; reflexivity))
      as [_ Hsent].
    edestruct Hsent as (_ & Hfailed & _); [cbv; reflexivity |].
    apply (Hfailed "context deadline exceeded"). reflexivity.
  - destruct (handleRequest_internal_server_error example.globals example.out example.ws
                (example.post (q "{'cep':'99999999'}")) 0
                {| service_a.CEP := "99999999" |}
                ltac:(vm_compute; reflexivity) ltac:(vm_compute; reflexivity))
      as [_ Hsent].
    edestruct Hsent as (_ & _ & Hanswered); [cbv; reflexivity |].
    edestruct Hanswered as (_ & _ & _ & Hlookup); [reflexivity |].
    eapply (Hlookup _ _ example.globals example.wh 0); [reflexivity |].
    intros [_ Hlt]. vm_compute in Hlt. discriminate Hlt.
Defined.

(** ** Records that were decoded are encoded *)

Lemma ParseFloat_finite (n : json.number) (f : float) :
  json.ParseFloat n = Ok f -> PrimFloat.is_finite f = true.
Proof.
  destruct n as [neg [| m] e | f0]; cbn [json.ParseFloat].
  - intros [= <-]. destruct neg; reflexivity.
  - cbv zeta. match goal with |- context [PrimFloat.is_finite ?x] =>
      destruct (PrimFloat.is_finite x) eqn:Hfin end; [| discriminate].
    intros [= <-]. exact Hfin.
  - destruct (PrimFloat.is_finite f0) eqn:Hfin; [| discriminate].
    intros [= <-]. exact Hfin.
Qed.

Lemma store_float64_finite (v : json.Value) (old f : float) :
  json.store_float64 v old = Ok f ->
  PrimFloat.is_finite old = true -> PrimFloat.is_finite f = true.
Proof.
  unfold json.store_float64. destruct v; try discriminate.
  - intros [= <-] Hold. exact Hold.
  - destruct (json.ParseFloat n) as [f0 |] eqn:Hparse; [| discriminate].
    intros [= <-] _. exact (ParseFloat_finite _ _ Hparse).
Qed.

Lemma find_field_In {T : Type} (fields : list (string * json.Store T)) (key : string)
    (st : json.Store T) :
  json.find_field fields key = Some st -> In st (List.map snd fields).
Proof.
  unfold json.find_field.
  destruct (List.find (fun f => String.eqb (fst f) key) fields) as [f |] eqn:Hexact.
  - intros [= <-]. apply List.in_map. exact (proj1 (List.find_some _ _ Hexact)).
  - destruct (List.find (fun f => String.eqb (json.foldName (fst f)) (json.foldName key))
                fields) as [f |] eqn:Hfold; [| discriminate].
    intros [= <-]. apply List.in_map. exact (proj1 (List.find_some _ _ Hfold)).
Qed.

Lemma fields_keep_finite (st : json.Store common.WeatherResponse) :
  In st (List.map snd common.fields) ->
  forall v cur cur', st v cur = Ok cur' -> finite cur -> finite cur'.
Proof.
  intros Hin v [city tc tf tk] cur' Hst (Hc & Hf & Hk). cbn in Hc, Hf, Hk.
  cbn in Hin. destruct Hin as [<- | [<- | [<- | [<- | []]]]];
    unfold json.field in Hst; cbn in Hst.
  - destruct (json.store_string v city); [| discriminate].
    injection Hst as <-. repeat split; assumption.
  - destruct (json.store_float64 v tc) as [f |] eqn:Hf64; [| discriminate].
    injection Hst as <-. apply store_float64_finite in Hf64; [| exact Hc].
    repeat split; assumption.
  - destruct (json.store_float64 v tf) as [f |] eqn:Hf64; [| discriminate].
    injection Hst as <-. apply store_float64_finite in Hf64; [| exact Hf].
    repeat split; assumption.
  - destruct (json.store_float64 v tk) as [f |] eqn:Hf64; [| discriminate].
    injection Hst as <-. apply store_float64_finite in Hf64; [| exact Hk].
    repeat split; assumption.
Qed.

Lemma store_members_finite (ms : list (string * json.Value))
    (cur r : common.WeatherResponse) :
  json.store_members common.fields ms cur = Ok r -> finite cur -> finite r.
Proof.
  revert cur. induction ms as [| [key v] ms IH]; intros cur Hst Hcur.
  - injection Hst as <-. exact Hcur.
  - cbn [json.store_members] in Hst.
    destruct (json.find_field common.fields key) as [st |] eqn:Hfind;
      [| exact (IH _ Hst Hcur)].
    destruct (st v cur) as [cur' |] eqn:Hstore; [| discriminate].
    apply (IH cur' Hst).
    exact (fields_keep_finite st (find_field_In _ _ _ Hfind) v cur cur' Hstore Hcur).
Qed.

(** The decoder yields finite temperatures only. *)
Lemma Unmarshal_finite (data : list json.chunk) (r : common.WeatherResponse) :
  json.Unmarshal common.store data common.zero = Ok r -> finite r.
Proof.
  unfold json.Unmarshal. destruct (json.document json.parse data) as [v |]; [| discriminate].
  unfold common.store, json.store_struct. destruct v; try discriminate.
  - intros [= <-]. repeat split; reflexivity.
  - intros Hst. apply (store_members_finite _ _ _ Hst). repeat split; reflexivity.
Qed.

(** What the encoder made of a record is decoded as the record. *)
Lemma Unmarshal_Marshal (r : common.WeatherResponse) (v : json.Value) :
  common.Marshal r = Ok v ->
  json.Unmarshal common.store [json.Encoded v] common.zero = Ok r.
Proof.
  destruct r as [city tc tf tk]. unfold common.Marshal, json.encode_float64.
  cbn [common.TempC common.TempF common.TempK common.City].
  destruct (PrimFloat.is_finite tc) eqn:Hc; [| discriminate].
  destruct (PrimFloat.is_finite tf) eqn:Hf; [| discriminate].
  destruct (PrimFloat.is_finite tk) eqn:Hk; [| discriminate].
  intros [= <-].
  cbv -[PrimFloat.is_finite]. rewrite Hc, Hf, Hk. reflexivity.
Qed.

(** C6: on a successful call of the lookup service, [handleRequest]
    responds 200 with a body equal, field for field ([city], [temp_C],
    [temp_F], [temp_K]), to the record decoded from the response of the
    service: the body is the encoding of that record and decodes to it,
    no field recomputed or altered. *)
Theorem handleRequest_relays_record (g : otel.Globals) (out : service_a.Outside)
    (ws : service_a.WebServer) (r : http.Request) (n : nat)
    (entrada : service_a.Entrada) (u : url.URL) (res : http.Response)
    (response : common.WeatherResponse) :
  json.Decode service_a.store_Entrada (http.ReqBody r) {| service_a.CEP := EmptyString |}
  = Ok entrada ->
  common.IsValidCEP (service_a.CEP entrada) = true ->
  service_a.url_Parse out
    (service_a.WEATHER_SERVICE out ++ "/weather?cep=" ++ service_a.CEP entrada) = Ok u ->
  service_a.DefaultClient_Do out (paths.outbound g ws n r u) = Ok res ->
  http.ReadErr res = None ->
  json.Unmarshal common.store (http.Body res) common.zero = Ok response ->
  let st := serve n (service_a.handleRequest g out ws r) in
  status st = 200%Z
  /\ body st
     = [json.Encoded
          (json.JObject
             [("city", json.JString (common.City response));
              ("temp_C", json.JNumber (json.Float64 (common.TempC response)));
              ("temp_F", json.JNumber (json.Float64 (common.TempF response)));
              ("temp_K", json.JNumber (json.Float64 (common.TempK response)))])]
  /\ json.Unmarshal common.store (body st) common.zero = Ok response
  /\ http.Header_Get (http.RespHeader (http.response (w st))) "Content-Type"
     = "application/json".
Proof.
  intros Hdec Hv Hu Hdo Hread Hres st. subst st. rewrite handleRequest_run.
  unfold paths.handleRequest. cbv beta zeta.
  rewrite Hdec, Hv. cbn [negb]. rewrite Hu, Hdo, Hread, Hres.
  pose proof (Marshal_finite response (Unmarshal_finite _ _ Hres)) as Henc.
  rewrite status_json_response, body_json_response, Henc.
  split; [reflexivity |]. split; [reflexivity |].
  split; [exact (Unmarshal_Marshal _ _ Henc) |].
  vm_compute. reflexivity.
Qed.

(** Scenario A, through both services. *)
Lemma handleRequest_relays_record_witness :
  let st := serve 0 (service_a.handleRequest example.globals example.out example.ws
                       (example.post (q "{'cep':'01001000'}"))) in
  status st = 200%Z
  /\ body st
     = [json.Encoded
          (json.JObject
             [("city", json.JString "São Paulo");
              ("temp_C", json.JNumber (json.Float64 25));
              ("temp_F", json.JNumber (json.Float64 77));
              ("temp_K", json.JNumber (json.Float64 298))])].
Proof.
  intros st.
  pose (u := {| url.Raw := "http://service_b:8080/weather?cep=01001000";
                url.RawQuery := "cep=01001000" |}).
  destruct (handleRequest_relays_record example.globals example.out example.ws
              (example.post (q "{'cep':'01001000'}")) 0
              {| service_a.CEP := "01001000" |} u
              (http.response
                 (w (deployment.lookup example.globals example.wh 0
                       (paths.outbound example.globals example.ws 0
                          (example.post (q "{'cep':'01001000'}")) u))))
              {| common.City := "São Paulo"; common.TempC := 25;
                 common.TempF := 77; common.TempK := 298 |}
              ltac:(vm_compute; reflexivity) ltac:(vm_compute; reflexivity)
              ltac:(vm_compute; reflexivity) ltac:(reflexivity)
              ltac:(reflexivity) ltac:(vm_compute; reflexivity))
    as (Hstatus & Hbody & _).
  split; [exact Hstatus | exact Hbody].
Defined.

(** ** The weather provider answers without a temperature *)

(** A body that lacks [current.temp_c] decodes to the zero value. *)
Lemma Unmarshal_lacks_current_temp_c (data : list json.chunk)
    (ms : list (string * json.Value)) :
  json.document json.parse data = Ok (json.JObject ms) ->
  lacks_current_temp_c ms ->
  json.Unmarshal service_b.store_WeatherAPIResponse data
    {| service_b.Current := {| service_b.TempC := 0 |} |}
  = Ok {| service_b.Current := {| service_b.TempC := 0 |} |}.
Proof.
  intros Hdoc Hms. unfold json.Unmarshal. rewrite Hdoc.
  unfold service_b.store_WeatherAPIResponse. cbn [json.store_struct].
  apply store_members_unchanged. intros key v Hin.
  rewrite find_field_single. destruct (names "current" key) eqn:Hk; [| exact I].
  destruct (Hms key v Hin Hk) as [-> | (ms' & -> & Hms')]; [reflexivity |].
  unfold json.field. cbn [json.store_struct service_b.Current].
  rewrite store_members_unchanged; [reflexivity |].
  intros key' v' Hin'. rewrite find_field_single. rewrite (Hms' key' v' Hin'). exact I.
Qed.

(** C9: if the weather provider returns a body that is valid JSON but lacks
    the field [current.temp_c] (the body [{}], say), [getTemperatureByCity]
    returns 0 and no error, and the lookup service responds 200 with
    [temp_C = 0], [temp_F = 32] and [temp_K = 273], not with an error
    status. *)
Theorem getTemperatureByCity_without_temp_c (c : service_b.ApiClient) (city : string)
    (resp : http.Response) (ms : list (string * json.Value)) :
  service_b.httpGet c
    ("https://api.weatherapi.com/v1/current.json?key=" ++ service_b.wheatherApiKey c
     ++ "&q=" ++ url.QueryEscape city) = Ok resp ->
  json.document json.parse (http.Body resp) = Ok (json.JObject ms) ->
  lacks_current_temp_c ms ->
  service_b.ApiClient_getTemperatureByCity c city = (0%float, None)
  /\ forall (g : otel.Globals) (t : otel.Tracer) (r : http.Request) (n : nat),
       common.IsValidCEP (url.Get (url.Query (http.URL r)) "cep") = true ->
       service_b.ApiClient_getCityByCEP c (url.Get (url.Query (http.URL r)) "cep")
       = (city, None) ->
       let st := serve n (service_b.weatherHandler g (service_b.NewWeatherHandler c t) r) in
       status st = 200%Z
       /\ body st
          = [json.Encoded
               (json.JObject
                  [("city", json.JString city);
                   ("temp_C", json.JNumber (json.Float64 0));
                   ("temp_F", json.JNumber (json.Float64 32));
                   ("temp_K", json.JNumber (json.Float64 273))])].
Proof.
  intros Hget Hdoc Hms.
  assert (Htemp : service_b.ApiClient_getTemperatureByCity c city = (0%float, None)).
  { unfold service_b.ApiClient_getTemperatureByCity. cbv zeta. rewrite Hget.
    rewrite (Unmarshal_lacks_current_temp_c _ _ Hdoc Hms). reflexivity. }
  split; [exact Htemp |].
  intros g t r n Hv Hcity st. subst st. rewrite weatherHandler_run.
  unfold paths.weatherHandler. cbv beta zeta.
  cbn [service_b.apiClient service_b.NewWeatherHandler].
  change (service_b.getCityByCEP c ?x) with (service_b.ApiClient_getCityByCEP c x).
  change (service_b.getTemperatureByCity c ?x)
    with (service_b.ApiClient_getTemperatureByCity c x).
  rewrite Hv, Hcity. cbn [negb]. rewrite Htemp.
  rewrite status_json_response, body_json_response. split; reflexivity.
Qed.

Lemma getTemperatureByCity_without_temp_c_witness :
  service_b.ApiClient_getTemperatureByCity (example.client_weather (q "{}")) "São Paulo"
  = (0%float, None)
  /\ let st := serve 0 (service_b.weatherHandler example.globals
                          (service_b.NewWeatherHandler
                             (example.client_weather (q "{}")) example.tracer)
                          (example.get "cep=01001000")) in
     status st = 200%Z
     /\ body st
        = [json.Encoded
             (json.JObject
                [("city", json.JString "São Paulo");
                 ("temp_C", json.JNumber (json.Float64 0));
                 ("temp_F", json.JNumber (json.Float64 32));
                 ("temp_K", json.JNumber (json.Float64 273))])].
Proof.
  destruct (getTemperatureByCity_without_temp_c (example.client_weather (q "{}"))
              "São Paulo" (example.answer_of 200 (q "{}")) []
              ltac:(vm_compute; reflexivity) ltac:(vm_compute; reflexivity)
              ltac:(intros key v [])) as [Htemp Hserved].
  split; [exact Htemp |].
  apply (Hserved example.globals example.tracer (example.get "cep=01001000") 0);
    vm_compute; reflexivity.
Defined.

(** Other bodies without a temperature, and bodies that are refused. *)
Example getTemperatureByCity_examples :
  let temp_of b :=
    service_b.ApiClient_getTemperatureByCity (example.client_weather (q b)) "São Paulo" in
  temp_of "{'current':{}}" = (0%float, None)
  /\ temp_of "{'current':null}" = (0%float, None)
  /\ temp_of "{'error':{'code':1006,'message':'No matching location found.'}}"
     = (0%float, None)
  /\ temp_of "{'current':{'temp_c':25.0}}" = (25%float, None)
  /\ temp_of "{'current':{'temp_c':'25.0'}}"
     = (0%float, Some "json: cannot unmarshal string into Go value of type float64")
  /\ snd (temp_of "<html>") <> None.
Proof. repeat split; vm_compute; (reflexivity || discriminate). Qed.

(** ** The trace context crosses the network *)

Lemma append_nil_r (s : string) : s ++ EmptyString = s.
Proof.
  induction s as [| c s IH]; [reflexivity |].
  change (String c s ++ EmptyString) with (String c (s ++ EmptyString)).
  rewrite IH. reflexivity.
Qed.

Lemma append_cons_r (s : string) (c : ascii) (t : string) :
  (s ++ String c EmptyString) ++ t = s ++ String c t.
Proof.
  induction s as [| d s IH]; [reflexivity |].
  change (String d (s ++ String c EmptyString) ++ t = String d (s ++ String c t)).
  change (String d ((s ++ String c EmptyString) ++ t) = String d (s ++ String c t)).
  rewrite IH. reflexivity.
Qed.

Lemma segments_app (sep : ascii) (a cur rest : string) :
  contains_byte sep a = false ->
  url.segments sep cur (a ++ String sep rest)
  = (cur ++ a) :: url.segments sep EmptyString rest.
Proof.
  revert cur. induction a as [| c a IH]; intros cur Ha.
  - change (EmptyString ++ String sep rest) with (String sep rest).
    cbn [url.segments]. rewrite Ascii.eqb_refl, append_nil_r. reflexivity.
  - change (String c a ++ String sep rest) with (String c (a ++ String sep rest)).
    cbn [url.segments contains_byte] in Ha |- *.
    apply orb_false_iff in Ha. destruct Ha as [Hc Ha].
    rewrite Hc. rewrite (IH _ Ha), append_cons_r. reflexivity.
Qed.

Lemma hex_no_hyphen (s : string) :
  all_bytes trace.is_lower_hex s = true -> contains_byte "-" s = false.
Proof.
  induction s as [| c s IH]; [reflexivity |]. cbn.
  intros Hs. apply andb_true_iff in Hs. destruct Hs as [Hc Hs].
  rewrite (IH Hs), orb_false_r.
  destruct (Ascii.eqb_spec c "-") as [-> |]; [discriminate Hc | reflexivity].
Qed.

Lemma valid_id_no_hyphen (n : nat) (s : string) :
  trace.valid_id n s = true -> contains_byte "-" s = false.
Proof.
  unfold trace.valid_id. intros Hs.
  apply andb_true_iff in Hs. destruct Hs as [Hs _].
  apply andb_true_iff in Hs. destruct Hs as [_ Hs].
  exact (hex_no_hyphen s Hs).
Qed.

(** The header [traceparent] is read back as the span context it was
    written from. *)
Lemma parse_traceparent_traceparent (sc : trace.SpanContext) :
  trace.IsValid sc = true ->
  otel.parse_traceparent (otel.traceparent sc) = remote sc.
Proof.
  intros Hsc. pose proof Hsc as Hvalid.
  unfold trace.IsValid in Hsc. apply andb_true_iff in Hsc. destruct Hsc as [Ht Hs].
  unfold otel.parse_traceparent, otel.traceparent.
  change (url.segments "-" EmptyString
            ("00-" ++ trace.TraceID sc ++ "-" ++ trace.SpanID sc ++ "-"
             ++ (if trace.Sampled sc then "01" else "00")))
    with ("00" :: url.segments "-" EmptyString
                    (trace.TraceID sc
                     ++ String "-" (trace.SpanID sc
                     ++ String "-" (if trace.Sampled sc then "01" else "00")))).
  rewrite (segments_app "-" _ _ _ (valid_id_no_hyphen _ _ Ht)).
  rewrite (segments_app "-" _ _ _ (valid_id_no_hyphen _ _ Hs)).
  cbn [append].
  assert (Hremote : trace.IsValid (remote sc) = true) by exact Hvalid.
  unfold remote in *.
  destruct (trace.Sampled sc);
    cbv -[trace.IsValid trace.TraceID trace.SpanID]; rewrite Hremote; reflexivity.
Qed.

Lemma Header_Get_Set (h : http.Header) (value : string) :
  http.Header_Get (http.Header_Set h "traceparent" value) "traceparent" = value.
Proof.
  unfold http.Header_Get, http.Header_Set.
  rewrite lookup_insert_eq. reflexivity.
Qed.

(** The tracer of the SDK gives every span a valid context, in the trace
    of its parent when the parent is valid. *)
Lemma newSpanContext_valid (t : otel.Tracer) (parent : trace.SpanContext) (n : nat) :
  valid_generator (otel.idGenerator t) ->
  trace.IsValid (otel.newSpanContext t parent n) = true.
Proof.
  intros Hgen. destruct (Hgen n) as (Htid & Hsid & Hspan).
  unfold otel.newSpanContext. destruct (trace.IsValid parent) eqn:Hp.
  - unfold trace.IsValid in Hp |- *. cbn.
    apply andb_true_iff in Hp. destruct Hp as [Hp _]. rewrite Hp, Hspan. reflexivity.
  - destruct (otel.NewIDs (otel.idGenerator t) n) as [tid sid]. cbn in Htid, Hsid.
    unfold trace.IsValid. cbn. rewrite Htid, Hsid. reflexivity.
Qed.

Lemma newSpanContext_TraceID (t : otel.Tracer) (parent : trace.SpanContext) (n : nat) :
  trace.IsValid parent = true ->
  trace.TraceID (otel.newSpanContext t parent n) = trace.TraceID parent.
Proof. intros Hp. unfold otel.newSpanContext. rewrite Hp. reflexivity. Qed.

(** The lookup service starts its validation span under the context it
    extracts from the headers of the request. *)
Lemma lookup_first_event {C : Type} `{service_b.IApiClient C} (g : otel.Globals)
    (wh : service_b.WeatherHandler C) (n : nat) (r : http.Request) :
  let parent :=
    context.span (otel.Extract (otel.GetTextMapPropagator g)
                    (http.Context r) (http.ReqHeader r)) in
  In (SpanStart "Validate inputs"
        (otel.newSpanContext (service_b.tracer wh) parent n) parent)
     (events (serve n (service_b.weatherHandler g wh r))).
Proof.
  cbv zeta. rewrite weatherHandler_run. unfold paths.weatherHandler. cbv beta zeta.
  destruct (common.IsValidCEP _); cbn [negb]; [| left; reflexivity].
  destruct (service_b.getCityByCEP _ _) as [city [err |]]; [left; reflexivity |].
  destruct (service_b.getTemperatureByCity _ _) as [tempC [err |]]; left; reflexivity.
Qed.

(** What the lookup service extracts from a request of the gateway is the
    context of the span in which the gateway sent it. *)
Lemma Extract_outbound (ws : service_a.WebServer) (n : nat) (r : http.Request)
    (u : url.URL) (call : trace.SpanContext) :
  let g := {| otel.GetTextMapPropagator := otel.TraceContext |} in
  valid_generator (otel.idGenerator (service_a.Tracer ws)) ->
  context.span (http.Context (paths.outbound g ws n r u)) = call ->
  context.span
    (otel.Extract otel.TraceContext context.Background
       (http.ReqHeader (deployment.deliver (paths.outbound g ws n r u))))
  = remote call.
Proof.
  intros g Hgen <-. unfold paths.outbound. cbv zeta.
  cbn [deployment.deliver http.ReqHeader http.Context context.span
       context.WithTimeout context.WithSpan otel.GetTextMapPropagator g
       otel.Inject otel.Extract otel.TraceContext].
  rewrite (newSpanContext_valid _ _ _ Hgen).
  rewrite Header_Get_Set, parse_traceparent_traceparent
    by exact (newSpanContext_valid _ _ _ Hgen).
  assert (Hremote : forall sc, trace.IsValid (remote sc) = trace.IsValid sc)
    by reflexivity.
  rewrite Hremote, (newSpanContext_valid _ _ _ Hgen). reflexivity.
Qed.

(** C7: for every successful end-to-end request, the trace context the
    gateway injects into the headers of its request in [getTemperatura],
    the context of its span "Call to service_b", is the context the lookup
    service extracts from the headers it receives in [weatherHandler] and
    starts its span "Validate inputs" under: the two spans carry the same
    trace identifier. *)
Theorem trace_identifier_shared {C : Type} `{service_b.IApiClient C}
    (tA tB : otel.Tracer) (c : C) (base : string) (nA nB : nat) (r : http.Request) :
  valid_generator (otel.idGenerator tA) ->
  valid_generator (otel.idGenerator tB) ->
  let g := {| otel.GetTextMapPropagator := otel.TraceContext |} in
  let whB := service_b.NewWeatherHandler c tB in
  let stA := deployment.gateway g (deployment.outside g whB nB base)
               {| service_a.Tracer := tA |} nA r in
  status stA = 200%Z ->
  exists req call parent validate,
    In (SpanStart "Call to service_b" call parent) (events stA)
    /\ In (ClientDo req) (events stA)
    /\ context.span (http.Context req) = call
    /\ context.span
         (otel.Extract otel.TraceContext context.Background
            (http.ReqHeader (deployment.deliver req))) = remote call
    /\ In (SpanStart "Validate inputs" validate (remote call))
          (events (deployment.lookup g whB nB req))
    /\ trace.TraceID validate = trace.TraceID call.
Proof.
  intros HgenA HgenB g whB stA Hstatus. subst stA.
  unfold deployment.gateway in *. rewrite handleRequest_run in *.
  unfold paths.handleRequest in *. cbv beta zeta in *.
  destruct (json.Decode _ _ _) as [entrada | err]; [| discriminate Hstatus].
  destruct (common.IsValidCEP _); cbn [negb] in *; [| discriminate Hstatus].
  destruct (service_a.url_Parse _ _) as [u | err]; [| discriminate Hstatus].
  destruct (service_a.DefaultClient_Do _ _) as [res | err]; [| discriminate Hstatus].
  destruct (http.ReadErr res) as [err |]; [discriminate Hstatus |].
  destruct (json.Unmarshal _ _ _) as [response | err]; [| discriminate Hstatus].
  clear Hstatus.
  set (ws := {| service_a.Tracer := tA |}).
  set (req := paths.outbound g ws nA r u).
  set (call := context.span (http.Context req)).
  assert (Hcall : trace.IsValid call = true)
    by exact (newSpanContext_valid tA _ _ HgenA).
  pose proof (Extract_outbound ws nA r u call HgenA eq_refl) as Hextract.
  fold g req in Hextract.
  pose proof (lookup_first_event g whB nB (deployment.deliver req)) as Hfirst.
  cbv zeta in Hfirst.
  change (otel.Extract (otel.GetTextMapPropagator g)
            (http.Context (deployment.deliver req))
            (http.ReqHeader (deployment.deliver req)))
    with (otel.Extract otel.TraceContext context.Background
            (http.ReqHeader (deployment.deliver req))) in Hfirst.
  rewrite Hextract in Hfirst.
  exists req, call, (otel.newSpanContext tA
                       (context.span (otel.Extract (otel.GetTextMapPropagator g)
                                        (http.Context r) (http.ReqHeader r))) nA),
    (otel.newSpanContext (service_b.tracer whB) (remote call) nB).
  split; [right; right; left; reflexivity |].
  split; [right; right; right; left; reflexivity |].
  split; [reflexivity |].
  split; [exact Hextract |].
  split; [exact Hfirst |].
  rewrite newSpanContext_TraceID by exact Hcall. reflexivity.
Qed.

Lemma example_generators :
  valid_generator (otel.idGenerator example.tracer)
  /\ valid_generator (otel.idGenerator example.tracer_b).
Proof. split; intros n; repeat split; vm_compute; reflexivity. Qed.

Lemma trace_identifier_shared_witness :
  let g := {| otel.GetTextMapPropagator := otel.TraceContext |} in
  let whB := service_b.NewWeatherHandler example.client example.tracer_b in
  let stA := deployment.gateway g (deployment.outside g whB 0 "http://service_b:8080")
               {| service_a.Tracer := example.tracer |} 0
               (example.post (q "{'cep':'01001000'}")) in
  exists req call parent validate,
    In (SpanStart "Call to service_b" call parent) (events stA)
    /\ In (ClientDo req) (events stA)
    /\ context.span (http.Context req) = call
    /\ context.span
         (otel.Extract otel.TraceContext context.Background
            (http.ReqHeader (deployment.deliver req))) = remote call
    /\ In (SpanStart "Validate inputs" validate (remote call))
          (events (deployment.lookup g whB 0 req))
    /\ trace.TraceID validate = trace.TraceID call.
Proof.
  apply (trace_identifier_shared example.tracer example.tracer_b example.client
           "http://service_b:8080" 0 0 (example.post (q "{'cep':'01001000'}"))
           (proj1 example_generators) (proj2 example_generators)).
  vm_compute. reflexivity.
Defined.

(** The identifiers of the two spans in that run. *)
Example trace_scenario_A :
  let g := example.globals in
  let whB := service_b.NewWeatherHandler example.client example.tracer_b in
  let stA := deployment.gateway g (deployment.outside g whB 0 "http://service_b:8080")
               example.ws 0 (example.post (q "{'cep':'01001000'}")) in
  exists req tail tail',
    events stA
    = ([SpanStart "Validate inputs"
         {| trace.TraceID := "0af7651916cd43dd8448eb211c80319c";
            trace.SpanID := "b7ad6b7169203331";
            trace.Sampled := true; trace.Remote := false |} trace.noSpan;
       SpanEnd
         {| trace.TraceID := "0af7651916cd43dd8448eb211c80319c";
            trace.SpanID := "b7ad6b7169203331";
            trace.Sampled := true; trace.Remote := false |};
       SpanStart "Call to service_b"
         {| trace.TraceID := "0af7651916cd43dd8448eb211c80319c";
            trace.SpanID := "00f067aa0ba902b7";
            trace.Sampled := true; trace.Remote := false |}
         {| trace.TraceID := "0af7651916cd43dd8448eb211c80319c";
            trace.SpanID := "b7ad6b7169203331";
            trace.Sampled := true; trace.Remote := false |};
       ClientDo req] ++ tail)%list
    /\ http.Header_Get (http.ReqHeader req) "traceparent"
       = "00-0af7651916cd43dd8448eb211c80319c-00f067aa0ba902b7-01"
    /\ events (deployment.lookup g whB 0 req)
       = SpanStart "Validate inputs"
           {| trace.TraceID := "0af7651916cd43dd8448eb211c80319c";
              trace.SpanID := "a3ce929d0e0e4736";
              trace.Sampled := true; trace.Remote := false |}
           {| trace.TraceID := "0af7651916cd43dd8448eb211c80319c";
              trace.SpanID := "00f067aa0ba902b7";
              trace.Sampled := true; trace.Remote := true |} :: tail'.
Proof.
  cbv zeta. eexists _, _, _. split; [vm_compute; reflexivity |].
  split; vm_compute; reflexivity.
Qed.

(** * Further properties *)

(** ** Validation comes first in the lookup service *)

(** X1: a request of the lookup service whose parameter [cep] is not exactly
    8 decimal digits (or is missing) is answered 422 with the line
    [invalid zipcode], and no method of the API client is called; so in the
    traced service, so in the untraced one. *)
Theorem weatherHandler_unprocessable {C : Type} `{service_b.IApiClient C}
    (g : otel.Globals) (t : otel.Tracer) (c : C) (r : http.Request) (n : nat) :
  ~ eight_decimal_digits (url.Get (url.Query (http.URL r)) "cep") ->
  let traced := serve n (service_b.weatherHandler g (service_b.NewWeatherHandler c t) r) in
  let plain := serve n (lookup_plain.weatherHandler (lookup_plain.NewWeatherHandler c) r) in
  (status traced = 422%Z
   /\ body traced = line "invalid zipcode"
   /\ forall method arg, ~ In (ApiCall method arg) (events traced))
  /\ (status plain = 422%Z
      /\ body plain = line "invalid zipcode"
      /\ forall method arg, ~ In (ApiCall method arg) (events plain)).
Proof.
  intros Hd traced plain. subst traced plain.
  rewrite weatherHandler_run, plain_weatherHandler_run.
  unfold paths.weatherHandler, paths.plain_weatherHandler. cbv zeta.
  change (lookup_plain.isValidCEP ?x) with (common.IsValidCEP x).
  rewrite (IsValidCEP_false _ Hd). cbn [negb].
  repeat split; try reflexivity; intros method arg Hin; absent Hin.
Qed.

Lemma weatherHandler_unprocessable_witness :
  status (serve 0 (service_b.weatherHandler example.globals example.wh
                     (example.get "cep=123"))) = 422%Z
  /\ status (serve 0 (lookup_plain.weatherHandler example.wh_plain
                        (example.get "zip=01001000"))) = 422%Z.
Proof.
  split.
  - refine (proj1 (proj1 (weatherHandler_unprocessable example.globals example.tracer
                            example.client (example.get "cep=123") 0 _))).
    intros [Hlength _]. vm_compute in Hlength. discriminate Hlength.
  - refine (proj1 (proj2 (weatherHandler_unprocessable example.globals example.tracer
                            example.client (example.get "zip=01001000") 0 _))).
    intros [Hlength _]. vm_compute in Hlength. discriminate Hlength.
Defined.

(** X2: in a run of the lookup handler, traced or untraced, a call of
    [getTemperatureByCity] comes after the postal code was found valid and
    after the call of [getCityByCEP] on it, which returned no error; its
    argument is the city that call returned, and no call of the API client
    follows it. *)
Theorem weatherHandler_resolves_in_order {C : Type} `{service_b.IApiClient C}
    (g : otel.Globals) (t : otel.Tracer) (c : C) (r : http.Request) (n : nat) :
  let cep := url.Get (url.Query (http.URL r)) "cep" in
  let traced := serve n (service_b.weatherHandler g (service_b.NewWeatherHandler c t) r) in
  let plain := serve n (lookup_plain.weatherHandler (lookup_plain.NewWeatherHandler c) r) in
  forall st, st = traced \/ st = plain ->
  forall pre city post,
    events st = (pre ++ ApiCall "getTemperatureByCity" city :: post)%list ->
    eight_decimal_digits cep
    /\ service_b.getCityByCEP c cep = (city, None)
    /\ In (ApiCall "getCityByCEP" cep) pre
    /\ (forall method arg, ~ In (ApiCall method arg) post).
Proof.
  intros cep traced plain st Hst pre city post Heq.
  assert (Hin : In (ApiCall "getTemperatureByCity" city) (events st))
    by (rewrite Heq; apply in_elt).
  subst traced plain.
  rewrite weatherHandler_run, plain_weatherHandler_run in Hst.
  unfold paths.weatherHandler, paths.plain_weatherHandler in Hst. cbv zeta in Hst.
  cbn [service_b.apiClient service_b.NewWeatherHandler
       lookup_plain.apiClient lookup_plain.NewWeatherHandler] in Hst.
  change (lookup_plain.isValidCEP ?x) with (common.IsValidCEP x) in Hst.
  fold cep in Hst.
  destruct (common.IsValidCEP cep) eqn:Hv; cbn [negb] in Hst;
    [| exfalso; destruct Hst as [-> | ->]; absent Hin].
  apply IsValidCEP_true_iff in Hv.
  destruct (service_b.getCityByCEP c cep) as [city' [err |]];
    [exfalso; destruct Hst as [-> | ->]; absent Hin |].
  assert (Hlog : exists l1 l2,
             events st = (l1 ++ ApiCall "getTemperatureByCity" city' :: l2)%list
             /\ Forall (fun e => ~ is_temperature_call e) l1
             /\ Forall (fun e => ~ is_temperature_call e) l2
             /\ In (ApiCall "getCityByCEP" cep) l1
             /\ forall method arg, ~ In (ApiCall method arg) l2).
  { destruct (service_b.getTemperatureByCity c city') as [tempC [err |]];
      destruct Hst as [-> | ->]; cbn [events app];
      match goal with
      | |- exists l1 l2, (?e1 :: ?e2 :: ?e3 :: ?e4 :: ?e5 :: ?e6 :: ?x :: ?l) = _ /\ _ =>
          exists [e1; e2; e3; e4; e5; e6], l
      | |- exists l1 l2, (?e1 :: ?x :: ?l) = _ /\ _ => exists [e1], l
      end;
      (split; [reflexivity |]); (split; [no_call |]); (split; [no_call |]);
      (split; [cbn; tauto | intros method arg Hl2; absent Hl2]). }
  destruct Hlog as (l1 & l2 & Hev & Hl1 & Hl2 & Hcity & Hpost).
  rewrite Hev in Heq.
  pose proof (only_occurrence is_temperature_call _ _ _ _ _ _ Heq Hl1 Hl2
                (ex_intro _ city eq_refl)) as Hpre.
  subst pre. apply app_inv_head in Heq. injection Heq as -> <-.
  split; [exact Hv | split; [reflexivity | split; [exact Hcity | exact Hpost]]].
Qed.

Lemma weatherHandler_resolves_in_order_witness :
  let st := serve 0 (service_b.weatherHandler example.globals example.wh
                       (example.get "cep=01001000")) in
  eight_decimal_digits "01001000"
  /\ service_b.getCityByCEP example.client "01001000" = ("São Paulo", None)
  /\ In (ApiCall "getCityByCEP" "01001000") (firstn 6 (events st))
  /\ (forall method arg, ~ In (ApiCall method arg) (skipn 7 (events st))).
Proof.
  intros st.
  apply (weatherHandler_resolves_in_order example.globals example.tracer example.client
           (example.get "cep=01001000") 0 st (or_introl eq_refl)
           (firstn 6 (events st)) "São Paulo" (skipn 7 (events st))).
  vm_compute. reflexivity.
Defined.

(** ** The answers of the handlers *)

(** X3: the traced lookup service answers 200, 404 or 422 and nothing
    else.  An answer that is not 200 is plain text, one of three fixed
    lines: the text of the error the API client returned is not sent.  A 200
    has the JSON content type and the record the encoder was given, or
    nothing when the encoder refused the record. *)
Theorem weatherHandler_responses {C : Type} `{service_b.IApiClient C}
    (g : otel.Globals) (wh : service_b.WeatherHandler C) (n : nat) (r : http.Request) :
  let st := serve n (service_b.weatherHandler g wh r) in
  (status st = 200%Z /\ content_type st = "application/json"
   /\ exists resp, body st = match common.Marshal resp with
                             | Ok v => [json.Encoded v]
                             | Err _ => []
                             end)
  \/ (content_type st = "text/plain; charset=utf-8"
      /\ ((status st = 422%Z /\ body st = line "invalid zipcode")
          \/ (status st = 404%Z /\ body st = line "can not find zipcode")
          \/ (status st = 404%Z /\ body st = line "can not find temperature"))).
Proof.
  intros st. subst st. rewrite weatherHandler_run.
  unfold paths.weatherHandler. cbv zeta.
  destruct (common.IsValidCEP _); cbn [negb];
    [| right; split; [reflexivity | left; split; reflexivity]].
  destruct (service_b.getCityByCEP _ _) as [city [err |]];
    [right; split; [reflexivity | right; left; split; reflexivity] |].
  destruct (service_b.getTemperatureByCity _ _) as [tempC [err |]];
    [right; split; [reflexivity | right; right; split; reflexivity] |].
  left. split; [apply status_json_response |].
  split; [destruct (common.Marshal _); reflexivity |].
  eexists. apply body_json_response.
Qed.

(** X4: tracing does not show in the answer: the traced lookup handler and
    the untraced one send the same response for the same request and the
    same API client, whatever the tracer, the propagator and the identifiers
    drawn. *)
Theorem weatherHandler_tracing_unseen {C : Type} `{service_b.IApiClient C}
    (g : otel.Globals) (t : otel.Tracer) (c : C) (r : http.Request) (n m : nat) :
  http.response (w (serve n (service_b.weatherHandler g (service_b.NewWeatherHandler c t) r)))
  = http.response (w (serve m (lookup_plain.weatherHandler (lookup_plain.NewWeatherHandler c) r))).
Proof.
  rewrite weatherHandler_run, plain_weatherHandler_run.
  unfold paths.weatherHandler, paths.plain_weatherHandler. cbv zeta.
  cbn [service_b.apiClient service_b.NewWeatherHandler
       lookup_plain.apiClient lookup_plain.NewWeatherHandler].
  change (lookup_plain.isValidCEP ?x) with (common.IsValidCEP x).
  destruct (common.IsValidCEP _); cbn [negb]; [| reflexivity].
  destruct (service_b.getCityByCEP _ _) as [city [err |]]; [reflexivity |].
  destruct (service_b.getTemperatureByCity _ _) as [tempC [err |]]; reflexivity.
Qed.

(** X5: when one of the three temperatures of the record is no finite
    number (the Fahrenheit value [t*1.8+32] overflows for a Celsius value
    near the largest [float64]), the encoder refuses the record, the
    handler drops the error of [Encode], and the client receives 200 with
    the JSON content type and an empty body; no error is recorded on the
    span. *)
Theorem weatherHandler_unencodable {C : Type} `{service_b.IApiClient C}
    (g : otel.Globals) (t : otel.Tracer) (c : C) (r : http.Request) (n : nat)
    (city : string) (tempC : float) :
  common.IsValidCEP (url.Get (url.Query (http.URL r)) "cep") = true ->
  service_b.getCityByCEP c (url.Get (url.Query (http.URL r)) "cep") = (city, None) ->
  service_b.getTemperatureByCity c city = (tempC, None) ->
  PrimFloat.is_finite tempC = false
  \/ PrimFloat.is_finite (tempC * 1.8 + 32) = false
  \/ PrimFloat.is_finite (tempC + 273) = false ->
  let traced := serve n (service_b.weatherHandler g (service_b.NewWeatherHandler c t) r) in
  let plain := serve n (lookup_plain.weatherHandler (lookup_plain.NewWeatherHandler c) r) in
  (status traced = 200%Z /\ body traced = [] /\ content_type traced = "application/json"
   /\ forall sc code description, ~ In (SpanSetStatus sc code description) (events traced))
  /\ (status plain = 200%Z /\ body plain = [] /\ content_type plain = "application/json").
Proof.
  intros Hv Hc Ht Hinf traced plain. subst traced plain.
  rewrite weatherHandler_run, plain_weatherHandler_run.
  unfold paths.weatherHandler, paths.plain_weatherHandler. cbv zeta.
  cbn [service_b.apiClient service_b.NewWeatherHandler
       lookup_plain.apiClient lookup_plain.NewWeatherHandler].
  change (lookup_plain.isValidCEP ?x) with (common.IsValidCEP x).
  rewrite Hv, Hc, Ht. cbn [negb].
  assert (Hm : exists e,
             common.Marshal {| common.City := city; common.TempC := tempC;
                               common.TempF := tempC * 1.8 + 32;
                               common.TempK := tempC + 273 |} = Err e
             /\ lookup_plain.Marshal
                  {| lookup_plain.City := city; lookup_plain.TempC := tempC;
                     lookup_plain.TempF := tempC * 1.8 + 32;
                     lookup_plain.TempK := tempC + 273 |} = Err e).
  { unfold common.Marshal, lookup_plain.Marshal, json.encode_float64.
    cbn [common.TempC common.TempF common.TempK
         lookup_plain.TempC lookup_plain.TempF lookup_plain.TempK].
    destruct Hinf as [Hinf | [Hinf | Hinf]]; rewrite Hinf;
      repeat match goal with
             | |- context [PrimFloat.is_finite ?x] => destruct (PrimFloat.is_finite x)
             end;
      eexists; split; reflexivity. }
  destruct Hm as (e & -> & ->).
  repeat split; try reflexivity. intros sc code description Hin. absent Hin.
Qed.

Lemma weatherHandler_unencodable_witness :
  let c := example.client_weather (q "{'current':{'temp_c':1e308}}") in
  let st := serve 0 (service_b.weatherHandler example.globals
                       (service_b.NewWeatherHandler c example.tracer)
                       (example.get "cep=01001000")) in
  status st = 200%Z /\ body st = [].
Proof.
  intros c st.
  destruct (weatherHandler_unencodable example.globals example.tracer c
              (example.get "cep=01001000") 0 "São Paulo" 1e308%float
              ltac:(vm_compute; reflexivity) ltac:(vm_compute; reflexivity)
              ltac:(vm_compute; reflexivity)
              ltac:(right; left; vm_compute; reflexivity))
    as [(Hstatus & Hbody & _) _].
  split; assumption.
Defined.

(** X6: the traced gateway answers 200, 400, 422 or 500 and nothing else.
    An answer that is not 200 is plain text, one of three fixed lines: no
    error text is sent.  A 200 always carries a whole record: the decoder
    yields finite numbers only, which the encoder cannot refuse. *)
Theorem handleRequest_responses (g : otel.Globals) (out : service_a.Outside)
    (ws : service_a.WebServer) (r : http.Request) (n : nat) :
  let st := serve n (service_a.handleRequest g out ws r) in
  (status st = 200%Z /\ content_type st = "application/json"
   /\ exists response v, finite response /\ common.Marshal response = Ok v
                         /\ body st = [json.Encoded v])
  \/ (content_type st = "text/plain; charset=utf-8"
      /\ ((status st = 400%Z /\ body st = line "payload inválido")
          \/ (status st = 422%Z /\ body st = line "invalid zipcode")
          \/ (status st = 500%Z /\ body st = line "Falha para recuperar os dados"))).
Proof.
  intros st. subst st. rewrite handleRequest_run.
  unfold paths.handleRequest. cbv beta zeta.
  destruct (json.Decode _ _ _) as [entrada | err];
    [| right; split; [reflexivity | left; split; reflexivity]].
  destruct (common.IsValidCEP _); cbn [negb];
    [| right; split; [reflexivity | right; left; split; reflexivity]].
  destruct (service_a.url_Parse _ _) as [u | err];
    [| right; split; [reflexivity | right; right; split; reflexivity]].
  destruct (service_a.DefaultClient_Do _ _) as [res | err];
    [| right; split; [reflexivity | right; right; split; reflexivity]].
  destruct (http.ReadErr res) as [err |];
    [right; split; [reflexivity | right; right; split; reflexivity] |].
  destruct (json.Unmarshal _ _ _) as [response | err] eqn:Hu;
    [| right; split; [reflexivity | right; right; split; reflexivity]].
  left. pose proof (Unmarshal_finite _ _ Hu) as Hfin.
  rewrite status_json_response, body_json_response, (Marshal_finite _ Hfin).
  split; [reflexivity |]. split; [reflexivity |].
  eexists response, _. split; [exact Hfin |].
  split; [exact (Marshal_finite _ Hfin) | reflexivity].
Qed.

(** X7: a body that fails to decode ends the request of the gateway in its
    validation span: 400 with the line [payload inválido], the error of the
    decoder recorded on the span, the span ended, no second span started and
    the HTTP client not called. *)
Theorem handleRequest_bad_request (g : otel.Globals) (out : service_a.Outside)
    (ws : service_a.WebServer) (r : http.Request) (n : nat) (err : error) :
  json.Decode service_a.store_Entrada (http.ReqBody r) {| service_a.CEP := EmptyString |}
  = Err err ->
  let st := serve n (service_a.handleRequest g out ws r) in
  status st = 400%Z
  /\ body st = line "payload inválido"
  /\ exists sc parent,
       events st = [SpanStart "Validate inputs" sc parent;
                    SpanRecordError sc err;
                    SpanSetStatus sc codes.Error "payload inválido";
                    SpanEnd sc].
Proof.
  intros Hdec st. subst st. rewrite handleRequest_run.
  unfold paths.handleRequest. cbv beta zeta. rewrite Hdec.
  split; [reflexivity |]. split; [reflexivity |]. eexists _, _. reflexivity.
Qed.

Lemma handleRequest_bad_request_witness :
  let st := serve 0 (service_a.handleRequest example.globals example.out example.ws
                       (example.post (q "{'cep':"))) in
  status st = 400%Z
  /\ body st = line "payload inválido"
  /\ exists sc parent,
       events st = [SpanStart "Validate inputs" sc parent;
                    SpanRecordError sc "invalid or incomplete JSON text";
                    SpanSetStatus sc codes.Error "payload inválido";
                    SpanEnd sc].
Proof.
  exact (handleRequest_bad_request example.globals example.out example.ws
           (example.post (q "{'cep':")) 0 "invalid or incomplete JSON text"
           ltac:(vm_compute; reflexivity)).
Defined.

(** X8: the gateway calls the HTTP client once at most in a request.  The
    request it sends is a [GET] without body to the address made of
    [WEATHER_SERVICE], [/weather?cep=] and the decoded postal code, and its
    header is what the propagator injects into an empty header. *)
Theorem handleRequest_one_call (g : otel.Globals) (out : service_a.Outside)
    (ws : service_a.WebServer) (r : http.Request) (n : nat) :
  let st := serve n (service_a.handleRequest g out ws r) in
  forall pre req post, events st = (pre ++ ClientDo req :: post)%list ->
    (forall req', ~ In (ClientDo req') pre)
    /\ (forall req', ~ In (ClientDo req') post)
    /\ http.Method req = "GET"
    /\ http.ReqBody req = []
    /\ (exists entrada,
          json.Decode service_a.store_Entrada (http.ReqBody r)
            {| service_a.CEP := EmptyString |} = Ok entrada
          /\ service_a.url_Parse out
               (service_a.WEATHER_SERVICE out ++ "/weather?cep=" ++ service_a.CEP entrada)
             = Ok (http.URL req))
    /\ http.ReqHeader req
       = otel.Inject (otel.GetTextMapPropagator g) (http.Context req) ∅.
Proof.
  intros st pre req post Heq. subst st. rewrite handleRequest_run in Heq.
  assert (Hin : In (ClientDo req) (events (paths.handleRequest g out ws n r)))
    by (rewrite Heq; apply in_elt).
  unfold paths.handleRequest in Heq, Hin. cbv beta zeta in Heq, Hin.
  destruct (json.Decode _ _ _) as [entrada | err]; [| exfalso; absent Hin].
  destruct (common.IsValidCEP _); cbn [negb] in Heq, Hin; [| exfalso; absent Hin].
  destruct (service_a.url_Parse _ _) as [u | err] eqn:Hu; [| exfalso; absent Hin].
  clear Hin.
  assert (Hlog : exists l1 l2,
             (l1 ++ ClientDo (paths.outbound g ws n r u) :: l2
              = pre ++ ClientDo req :: post)%list
             /\ Forall (fun e => ~ is_call e) l1 /\ Forall (fun e => ~ is_call e) l2).
  { destruct (service_a.DefaultClient_Do _ _) as [res | err];
      [destruct (http.ReadErr res) as [err |];
       [| destruct (json.Unmarshal _ _ _) as [response | err]] |];
      cbn [events] in Heq;
      change ([ClientDo ?c] ++ ?t)%list with (ClientDo c :: t) in Heq;
      eexists _, _; (split; [exact Heq |]); split; no_call. }
  destruct Hlog as (l1 & l2 & Hlog & Hl1 & Hl2).
  pose proof (only_occurrence is_call _ _ _ _ _ _ Hlog Hl1 Hl2
                (ex_intro _ req eq_refl)) as Hpre.
  subst pre. apply app_inv_head in Hlog. injection Hlog as <- <-.
  rewrite List.Forall_forall in Hl1, Hl2.
  split; [intros req' Hin; exact (Hl1 _ Hin (ex_intro _ req' eq_refl)) |].
  split; [intros req' Hin; exact (Hl2 _ Hin (ex_intro _ req' eq_refl)) |].
  split; [reflexivity |]. split; [reflexivity |].
  split; [exists entrada; split; [reflexivity | exact Hu] | reflexivity].
Qed.

Lemma handleRequest_one_call_witness :
  let r := example.post (q "{'cep':'01001000'}") in
  let st := serve 0 (service_a.handleRequest example.globals example.out example.ws r) in
  let req := paths.outbound example.globals example.ws 0 r
               {| url.Raw := "http://service_b:8080/weather?cep=01001000";
                  url.RawQuery := "cep=01001000" |} in
  (forall req', ~ In (ClientDo req') (firstn 3 (events st)))
  /\ (forall req', ~ In (ClientDo req') (skipn 4 (events st)))
  /\ http.Method req = "GET"
  /\ http.ReqBody req = [].
Proof.
  intros r st req.
  destruct (handleRequest_one_call example.globals example.out example.ws r 0
              (firstn 3 (events st)) req (skipn 4 (events st))
              ltac:(vm_compute; reflexivity))
    as (Hpre & Hpost & Hmethod & Hbody & _).
  repeat split; assumption.
Defined.

(** ** Spans *)

Lemma SpanContext_eqb_refl (sc : trace.SpanContext) : SpanContext_eqb sc sc = true.
Proof.
  unfold SpanContext_eqb.
  rewrite !String.eqb_refl, !Bool.eqb_reflx. reflexivity.
Qed.

(** Reads a written-out log. *)
Ltac spans :=
  cbn [events app one_span_at_a_time chained andb];
  rewrite ?SpanContext_eqb_refl; reflexivity.

(** X9: in every run of the traced handlers, on every path, the spans are
    open one at a time and none is left open: each span that starts is
    ended before the next one starts and before the handler returns; errors
    and statuses are recorded on the span that is open; the API client and
    the HTTP client are called inside a span.  And the spans of a request
    form a chain: each one is started under the context of the one
    before. *)
Theorem spans_one_at_a_time {C : Type} `{service_b.IApiClient C}
    (g : otel.Globals) (wh : service_b.WeatherHandler C)
    (out : service_a.Outside) (ws : service_a.WebServer) (n : nat) (r : http.Request) :
  let lookup := events (serve n (service_b.weatherHandler g wh r)) in
  let gateway := events (serve n (service_a.handleRequest g out ws r)) in
  (one_span_at_a_time None lookup = true /\ chained None lookup = true)
  /\ (one_span_at_a_time None gateway = true /\ chained None gateway = true).
Proof.
  intros lookup gateway. subst lookup gateway.
  rewrite weatherHandler_run, handleRequest_run.
  unfold paths.weatherHandler, paths.handleRequest. cbv beta zeta. split.
  - destruct (common.IsValidCEP _); cbn [negb]; [| split; spans].
    destruct (service_b.getCityByCEP _ _) as [city [err |]]; [split; spans |].
    destruct (service_b.getTemperatureByCity _ _) as [tempC [err |]]; split; spans.
  - destruct (json.Decode _ _ _) as [entrada | err]; [| split; spans].
    destruct (common.IsValidCEP _); cbn [negb]; [| split; spans].
    destruct (service_a.url_Parse _ _) as [u | err]; [| split; spans].
    destruct (service_a.DefaultClient_Do _ _) as [res | err]; [| split; spans].
    destruct (http.ReadErr res) as [err |]; [split; spans |].
    destruct (json.Unmarshal _ _ _) as [response | err]; split; spans.
Qed.

Lemma status_mirrored_ok (doc : result json.Value) (n : nat) (es : list Event) :
  (forall sc code description, ~ In (SpanSetStatus sc code description) es) ->
  (forall sc err, ~ In (SpanRecordError sc err) es) ->
  status_mirrored {| w := json_response doc; draws := n; events := es |}.
Proof.
  intros Hstatus Herr. split; [intros _; split; assumption |].
  rewrite status_json_response. intros Hne. contradiction.
Qed.

(** An answer that is not 200, with one status recorded. *)
Ltac one_status :=
  split; [discriminate |]; intros _; eexists _, _;
  split; [cbn; repeat first [left; reflexivity | right] |];
  split; [reflexivity |];
  let Hin := fresh "Hin" in
  intros ? ? ? Hin; cbn in Hin;
  repeat (destruct Hin as [Hin | Hin]; [try discriminate Hin |]);
  [injection Hin as <- <- <-; repeat split | destruct Hin].

(** A 200 with nothing recorded. *)
Ltac no_status :=
  let Hin := fresh "Hin" in
  apply status_mirrored_ok; [intros ? ? ? Hin | intros ? ? Hin]; absent Hin.

(** X10: in the traced handlers the status of the span mirrors the answer.
    When the answer is 200 no status and no error is recorded on any span;
    when it is not, one status is recorded in the whole request, an error,
    and its description is the very line sent to the client. *)
Theorem span_status_mirrors_response {C : Type} `{service_b.IApiClient C}
    (g : otel.Globals) (wh : service_b.WeatherHandler C)
    (out : service_a.Outside) (ws : service_a.WebServer) (n : nat) (r : http.Request) :
  status_mirrored (serve n (service_b.weatherHandler g wh r))
  /\ status_mirrored (serve n (service_a.handleRequest g out ws r)).
Proof.
  rewrite weatherHandler_run, handleRequest_run.
  unfold paths.weatherHandler, paths.handleRequest. cbv beta zeta. split.
  - destruct (common.IsValidCEP _); cbn [negb]; [| one_status].
    destruct (service_b.getCityByCEP _ _) as [city [err |]]; [one_status |].
    destruct (service_b.getTemperatureByCity _ _) as [tempC [err |]]; [one_status |].
    no_status.
  - destruct (json.Decode _ _ _) as [entrada | err]; [| one_status].
    destruct (common.IsValidCEP _); cbn [negb]; [| one_status].
    destruct (service_a.url_Parse _ _) as [u | err]; [| one_status].
    destruct (service_a.DefaultClient_Do _ _) as [res | err]; [| one_status].
    destruct (http.ReadErr res) as [err |]; [one_status |].
    destruct (json.Unmarshal _ _ _) as [response | err]; [| one_status].
    no_status.
Qed.

(** ** Queries *)

Lemma unreserved_plain (c : ascii) :
  unreserved c = true -> (c =? "%")%char = false /\ (c =? "+")%char = false.
Proof.
  destruct c as [[] [] [] [] [] [] [] []]; vm_compute; intros Hc;
    first [discriminate Hc | split; reflexivity].
Qed.

(** The two digits of an escape are read back as the byte. *)
Lemma hex_digit_hex_val (c : ascii) :
  let hi := (N_of_ascii c / 16)%N in
  let lo := (N_of_ascii c mod 16)%N in
  json.hex_val (url.hex_digit hi) = Some hi
  /\ json.hex_val (url.hex_digit lo) = Some lo
  /\ ascii_of_N (hi * 16 + lo) = c
  /\ unreserved (url.hex_digit hi) = true
  /\ unreserved (url.hex_digit lo) = true.
Proof.
  destruct c as [[] [] [] [] [] [] [] []]; vm_compute; repeat split.
Qed.

(** What [QueryEscape] writes is read back by [QueryUnescape], and is made
    of escaped bytes. *)
Lemma QueryEscape_spec (s : string) :
  url.QueryUnescape (url.QueryEscape s) = Some s
  /\ all_bytes escaped_byte (url.QueryEscape s) = true.
Proof.
  induction s as [| c s [IHu IHb]]; [split; reflexivity |].
  cbn [url.QueryEscape]. fold (unreserved c).
  destruct (unreserved c) eqn:Hc.
  - destruct (unreserved_plain c Hc) as [Hpercent Hplus].
    cbn [url.QueryUnescape all_bytes]. rewrite Hpercent, Hplus, IHu, IHb.
    unfold escaped_byte. rewrite Hc. split; reflexivity.
  - destruct (Ascii.eqb_spec c " ") as [-> | Hblank].
    + cbn [url.QueryUnescape all_bytes]. rewrite IHu, IHb. split; reflexivity.
    + destruct (hex_digit_hex_val c) as (Hhi & Hlo & Hbyte & Uhi & Ulo).
      cbv zeta in Hhi, Hlo, Hbyte, Uhi, Ulo.
      cbn [url.QueryUnescape all_bytes]. rewrite Ascii.eqb_refl, Hhi, Hlo, IHu, Hbyte, IHb.
      unfold escaped_byte at 2 3. rewrite Uhi, Ulo. split; reflexivity.
Qed.

(** No byte of [s] that satisfies [p] is [c], when [c] does not satisfy [p]. *)
Lemma all_bytes_contains (p : ascii -> bool) (c : ascii) (s : string) :
  p c = false -> all_bytes p s = true -> contains_byte c s = false.
Proof.
  intros Hc. induction s as [| d s IH]; [reflexivity |].
  cbn [all_bytes contains_byte]. intros Hs.
  apply andb_true_iff in Hs. destruct Hs as [Hd Hs]. rewrite (IH Hs), orb_false_r.
  destruct (Ascii.eqb_spec d c) as [-> |]; [congruence | reflexivity].
Qed.

(** X11: [url.QueryEscape], which [getTemperatureByCity] applies to the
    city, loses nothing: [url.QueryUnescape] reads the city back whatever
    its bytes, two cities have the same escape only when they are the same,
    and no byte that separates the parts of an address is left in the
    escape. *)
Theorem QueryEscape_read_back (s : string) :
  url.QueryUnescape (url.QueryEscape s) = Some s
  /\ (forall t, url.QueryEscape s = url.QueryEscape t -> s = t)
  /\ (forall c, In c ["&"; "="; ";"; "#"; "?"; "/"; " "]%char ->
        contains_byte c (url.QueryEscape s) = false).
Proof.
  destruct (QueryEscape_spec s) as [Hround Hbytes]. split; [exact Hround |]. split.
  - intros t Heq. destruct (QueryEscape_spec t) as [Hround' _].
    rewrite Heq, Hround' in Hround. injection Hround as ->. reflexivity.
  - intros c Hc. apply (all_bytes_contains escaped_byte); [| exact Hbytes].
    cbn in Hc. repeat (destruct Hc as [<- | Hc]; [reflexivity |]). destruct Hc.
Qed.

Lemma contains_byte_app (c : ascii) (a b : string) :
  contains_byte c (a ++ b) = contains_byte c a || contains_byte c b.
Proof.
  induction a as [| d a IH]; [reflexivity |].
  change (String d a ++ b) with (String d (a ++ b)).
  cbn [contains_byte]. rewrite IH, orb_assoc. reflexivity.
Qed.

(** A text without the separator is one segment. *)
Lemma segments_one (sep : ascii) (cur s : string) :
  contains_byte sep s = false -> url.segments sep cur s = [cur ++ s].
Proof.
  revert cur. induction s as [| c s IH]; intros cur Hs.
  - cbn [url.segments]. rewrite append_nil_r. reflexivity.
  - cbn [url.segments contains_byte] in Hs |- *.
    apply orb_false_iff in Hs. destruct Hs as [Hc Hs].
    rewrite Hc, (IH _ Hs), append_cons_r. reflexivity.
Qed.

(** [Cut] cuts at the first separator. *)
Lemma Cut_app (sep : ascii) (a b : string) :
  contains_byte sep a = false ->
  url.Cut sep (a ++ String sep b) = (a, b, true).
Proof.
  induction a as [| c a IH]; intros Ha.
  - change (EmptyString ++ String sep b) with (String sep b).
    cbn [url.Cut]. rewrite Ascii.eqb_refl. reflexivity.
  - change (String c a ++ String sep b) with (String c (a ++ String sep b)).
    cbn [url.Cut contains_byte] in Ha |- *.
    apply orb_false_iff in Ha. destruct Ha as [Hc Ha].
    rewrite Hc, (IH Ha). reflexivity.
Qed.

(** A text of unreserved bytes is its own escape. *)
Lemma QueryUnescape_unreserved (s : string) :
  all_bytes unreserved s = true -> url.QueryUnescape s = Some s.
Proof.
  induction s as [| c s IH]; [reflexivity |].
  cbn [all_bytes url.QueryUnescape]. intros Hs.
  apply andb_true_iff in Hs. destruct Hs as [Hc Hs].
  destruct (unreserved_plain c Hc) as [-> ->]. rewrite (IH Hs). reflexivity.
Qed.

(** A segment [k=v] of a query adds the value to those of the key. *)
Lemma parseQuery_pair (m : gmap string (list string)) (k v k' v' : string)
    (segs : list string) :
  contains_byte ";" k = false -> contains_byte ";" v = false ->
  contains_byte "=" k = false ->
  url.QueryUnescape k = Some k' -> url.QueryUnescape v = Some v' ->
  url.parseQuery m ((k ++ String "=" v) :: segs)
  = url.parseQuery (<[k' := (default [] (m !! k') ++ [v'])%list]> m) segs.
Proof.
  intros Hk Hv Hcut Huk Huv. cbn [url.parseQuery].
  rewrite contains_byte_app. cbn [contains_byte]. rewrite Hk, Hv.
  change (("=" =? ";")%char) with false. cbn [orb].
  assert (Hne : (k ++ String "=" v =? EmptyString)%string = false)
    by (destruct k; reflexivity).
  rewrite Hne, (Cut_app _ _ _ Hcut), Huk, Huv. reflexivity.
Qed.

(** The query of the address of the weather provider is read back to the
    key and the city. *)
Lemma weather_query_read_back (key city : string) :
  all_bytes unreserved key = true ->
  let u := {| url.Raw := "https://api.weatherapi.com/v1/current.json?key=" ++ key
                         ++ "&q=" ++ url.QueryEscape city;
              url.RawQuery := "key=" ++ key ++ "&q=" ++ url.QueryEscape city |} in
  url.Get (url.Query u) "q" = city /\ url.Get (url.Query u) "key" = key.
Proof.
  intros Hkey u. subst u. unfold url.Query. cbn [url.RawQuery].
  destruct (QueryEscape_spec city) as [Hround Hesc].
  assert (Hk : forall c, escaped_byte c = false -> contains_byte c key = false).
  { intros c Hc. apply (all_bytes_contains unreserved); [| exact Hkey].
    unfold escaped_byte in Hc. apply orb_false_iff in Hc. destruct Hc as [Hc _].
    apply orb_false_iff in Hc. destruct Hc as [Hc _]. exact Hc. }
  assert (Hq : forall c, escaped_byte c = false ->
                 contains_byte c (url.QueryEscape city) = false)
    by (intros c Hc; exact (all_bytes_contains escaped_byte c _ Hc Hesc)).
  change ("key=" ++ key ++ "&q=" ++ url.QueryEscape city)
    with (("key" ++ String "=" key) ++ String "&" ("q" ++ String "=" (url.QueryEscape city))).
  rewrite segments_app
    by (rewrite contains_byte_app; cbn [contains_byte]; rewrite (Hk "&"%char eq_refl);
        reflexivity).
  rewrite segments_one
    by (rewrite contains_byte_app; cbn [contains_byte]; rewrite (Hq "&"%char eq_refl);
        reflexivity).
  change (EmptyString ++ ?x) with x.
  rewrite (parseQuery_pair _ "key" key "key" key)
    by first [reflexivity | exact (Hk ";"%char eq_refl)
             | exact (QueryUnescape_unreserved key Hkey)].
  rewrite (parseQuery_pair _ "q" (url.QueryEscape city) "q" city)
    by first [reflexivity | exact (Hq ";"%char eq_refl) | exact Hround].
  cbn [url.parseQuery]. unfold url.Get. split.
  - rewrite lookup_insert_eq. rewrite lookup_insert_ne by discriminate.
    rewrite lookup_empty. reflexivity.
  - rewrite lookup_insert_ne by discriminate. rewrite lookup_insert_eq.
    rewrite lookup_empty. reflexivity.
Qed.

(** X12: [getTemperatureByCity] asks one address, and nothing else of
    [httpGet]; a server that reads the query of this address as [url.Query]
    does finds the city under [q], byte for byte, and the key of the client
    under [key], when the key is made of unreserved bytes. *)
Theorem getTemperatureByCity_asks_for_city (httpGet : string -> result http.Response)
    (key city : string) :
  all_bytes unreserved key = true ->
  exists address u,
    deployment.Parse address = Ok u
    /\ url.Get (url.Query u) "q" = city
    /\ url.Get (url.Query u) "key" = key
    /\ forall other : string -> result http.Response,
         other address = httpGet address ->
         service_b.ApiClient_getTemperatureByCity (service_b.NewClient other key) city
         = service_b.ApiClient_getTemperatureByCity (service_b.NewClient httpGet key) city.
Proof.
  intros Hkey.
  exists ("https://api.weatherapi.com/v1/current.json?key=" ++ key ++ "&q="
          ++ url.QueryEscape city).
  eexists. split; [| split; [| split]].
  - unfold deployment.Parse.
    change ("https://api.weatherapi.com/v1/current.json?key=" ++ key ++ "&q="
            ++ url.QueryEscape city)
      with ("https://api.weatherapi.com/v1/current.json"
            ++ String "?" ("key=" ++ key ++ "&q=" ++ url.QueryEscape city)).
    rewrite Cut_app by reflexivity. reflexivity.
  - exact (proj1 (weather_query_read_back key city Hkey)).
  - exact (proj2 (weather_query_read_back key city Hkey)).
  - intros other Hother. unfold service_b.ApiClient_getTemperatureByCity.
    cbn [service_b.httpGet service_b.wheatherApiKey service_b.NewClient].
    rewrite Hother. reflexivity.
Qed.

Lemma getTemperatureByCity_asks_for_city_witness :
  exists address u,
    deployment.Parse address = Ok u
    /\ url.Get (url.Query u) "q" = "São Paulo"
    /\ url.Get (url.Query u) "key" = "KEY"
    /\ forall other : string -> result http.Response,
         other address = example.httpGet address ->
         service_b.ApiClient_getTemperatureByCity (service_b.NewClient other "KEY")
           "São Paulo"
         = service_b.ApiClient_getTemperatureByCity
             (service_b.NewClient example.httpGet "KEY") "São Paulo".
Proof.
  exact (getTemperatureByCity_asks_for_city example.httpGet "KEY" "São Paulo" eq_refl).
Defined.

(** ** The API client *)

(** X13: [getCityByCEP] returns a city or an error, never both and never
    neither: with no error the city is not empty, it is the [localidade] of
    the body the address provider sent, and the body did not say [erro];
    with an error the city is empty. *)
Theorem getCityByCEP_city_or_error (c : service_b.ApiClient) (cep city : string)
    (err : option error) :
  service_b.ApiClient_getCityByCEP c cep = (city, err) ->
  (err = None ->
     city <> EmptyString
     /\ exists resp viaCEP,
          service_b.httpGet c ("https://viacep.com.br/ws/" ++ cep ++ "/json/") = Ok resp
          /\ json.Unmarshal service_b.store_ViaCEPResponse (http.Body resp)
               {| service_b.Localidade := EmptyString; service_b.Erro := false |}
             = Ok viaCEP
          /\ service_b.Erro viaCEP = false
          /\ service_b.Localidade viaCEP = city)
  /\ (err <> None -> city = EmptyString).
Proof.
  unfold service_b.ApiClient_getCityByCEP.
  destruct (service_b.httpGet c _) as [resp | e] eqn:Hget;
    [| intros [= <- <-]; split; [discriminate | reflexivity]].
  cbv zeta.
  destruct (json.Unmarshal _ _ _) as [viaCEP | e] eqn:Hu;
    [| intros [= <- <-]; split; [discriminate | reflexivity]].
  destruct (service_b.Erro viaCEP) eqn:He; cbn [orb];
    [intros [= <- <-]; split; [discriminate | reflexivity] |].
  destruct (String.eqb_spec (service_b.Localidade viaCEP) EmptyString) as [Hl | Hl];
    intros [= <- <-]; (split; [| intros Hn; try reflexivity; contradiction]);
    [discriminate |].
  intros _. split; [exact Hl |]. exists resp, viaCEP. repeat split; assumption.
Qed.

Lemma getCityByCEP_city_or_error_witness :
  "São Paulo" <> EmptyString
  /\ exists resp viaCEP,
       service_b.httpGet example.client "https://viacep.com.br/ws/01001000/json/" = Ok resp
       /\ json.Unmarshal service_b.store_ViaCEPResponse (http.Body resp)
            {| service_b.Localidade := EmptyString; service_b.Erro := false |}
          = Ok viaCEP
       /\ service_b.Erro viaCEP = false
       /\ service_b.Localidade viaCEP = "São Paulo".
Proof.
  exact (proj1 (getCityByCEP_city_or_error example.client "01001000" "São Paulo"
                  None ltac:(vm_compute; reflexivity)) eq_refl).
Defined.

(** What every field keeps, the members of an object keep. *)
Lemma store_members_keeps {T : Type} (P : T -> Prop)
    (fields : list (string * json.Store T)) :
  (forall st, In st (List.map snd fields) ->
     forall v cur cur', st v cur = Ok cur' -> P cur -> P cur') ->
  forall ms cur r, json.store_members fields ms cur = Ok r -> P cur -> P r.
Proof.
  intros Hfields. induction ms as [| [key v] ms IH]; intros cur r Hr Hcur.
  - injection Hr as <-. exact Hcur.
  - cbn [json.store_members] in Hr.
    destruct (json.find_field fields key) as [st |] eqn:Hfind; [| exact (IH _ _ Hr Hcur)].
    destruct (st v cur) as [cur' | e] eqn:Hst; [| discriminate Hr].
    apply (IH _ _ Hr). apply find_field_In in Hfind.
    exact (Hfields st Hfind v cur cur' Hst Hcur).
Qed.

(** The temperature decoded from a body of the weather provider is a
    finite number. *)
Lemma Unmarshal_WeatherAPIResponse_finite (data : list json.chunk)
    (weather : service_b.WeatherAPIResponse) :
  json.Unmarshal service_b.store_WeatherAPIResponse data
    {| service_b.Current := {| service_b.TempC := 0 |} |} = Ok weather ->
  PrimFloat.is_finite (service_b.TempC (service_b.Current weather)) = true.
Proof.
  unfold json.Unmarshal. destruct (json.document json.parse data) as [v | e]; [| discriminate].
  unfold service_b.store_WeatherAPIResponse, json.store_struct at 1.
  destruct v as [| | | | | ms]; try discriminate; [intros [= <-]; reflexivity |].
  intros Hms.
  refine (store_members_keeps
            (fun w => PrimFloat.is_finite (service_b.TempC (service_b.Current w)) = true)
            _ _ ms _ _ Hms eq_refl).
  intros st [<- | []] v cur cur'. cbn [snd]. unfold json.field at 1, json.store_struct.
  destruct v as [| | | | | ms']; try discriminate; [intros [= <-] Hcur; exact Hcur |].
  destruct (json.store_members _ ms' (service_b.Current cur)) as [cur0 | e] eqn:Hin;
    [| discriminate].
  intros [= <-] Hcur. cbn [service_b.Current].
  refine (store_members_keeps
            (fun cr => PrimFloat.is_finite (service_b.TempC cr) = true)
            _ _ ms' _ _ Hin Hcur).
  intros st' [<- | []] v' c0 c1. cbn [snd]. unfold json.field.
  destruct (json.store_float64 v' (service_b.TempC c0)) as [f | e] eqn:Hf; [| discriminate].
  intros [= <-] Hc0. cbn [service_b.TempC].
  exact (store_float64_finite _ _ _ Hf Hc0).
Qed.

(** X14: the temperature [getTemperatureByCity] returns is a finite number,
    whatever the weather provider sent, and it is 0 whenever an error is
    returned with it. *)
Theorem getTemperatureByCity_finite (c : service_b.ApiClient) (city : string)
    (tempC : float) (err : option error) :
  service_b.ApiClient_getTemperatureByCity c city = (tempC, err) ->
  PrimFloat.is_finite tempC = true /\ (err <> None -> tempC = 0%float).
Proof.
  unfold service_b.ApiClient_getTemperatureByCity. cbv zeta.
  destruct (service_b.httpGet c _) as [resp | e];
    [| intros [= <- <-]; split; reflexivity].
  destruct (json.Unmarshal _ _ _) as [weather | e] eqn:Hu;
    [| intros [= <- <-]; split; reflexivity].
  intros [= <- <-]. split; [| intros Hn; contradiction].
  exact (Unmarshal_WeatherAPIResponse_finite _ _ Hu).
Qed.

Lemma getTemperatureByCity_finite_witness :
  PrimFloat.is_finite 25 = true.
Proof.
  exact (proj1 (getTemperatureByCity_finite example.client "São Paulo" 25%float None
                  ltac:(vm_compute; reflexivity))).
Defined.

(** X15: with the API client of the repository, a 200 of the lookup service
    names a city that is not empty and a Celsius temperature that is a
    finite number; its body is the record of this city and of the three
    temperatures derived from this number, or is empty (when a derived
    temperature is not finite). *)
Theorem weatherHandler_record_of_ApiClient (c : service_b.ApiClient)
    (g : otel.Globals) (t : otel.Tracer) (r : http.Request) (n : nat) :
  let st := serve n (service_b.weatherHandler g (service_b.NewWeatherHandler c t) r) in
  status st = 200%Z ->
  exists city tempC,
    city <> EmptyString
    /\ PrimFloat.is_finite tempC = true
    /\ (body st = []
        \/ body st
           = [json.Encoded
                (json.JObject
                   [("city", json.JString city);
                    ("temp_C", json.JNumber (json.Float64 tempC));
                    ("temp_F", json.JNumber (json.Float64 (tempC * 1.8 + 32)));
                    ("temp_K", json.JNumber (json.Float64 (tempC + 273)))])]).
Proof.
  intros st. subst st. rewrite weatherHandler_run.
  unfold paths.weatherHandler. cbv beta zeta.
  cbn [service_b.apiClient service_b.NewWeatherHandler service_b.getCityByCEP
       service_b.getTemperatureByCity service_b.ApiClient_IApiClient].
  destruct (common.IsValidCEP _); cbn [negb]; [| discriminate].
  destruct (service_b.ApiClient_getCityByCEP c _) as [city [err |]] eqn:Hcity;
    [discriminate |].
  destruct (service_b.ApiClient_getTemperatureByCity c city) as [tempC [err |]] eqn:Htemp;
    [discriminate |].
  intros _. exists city, tempC. split; [| split].
  - unfold service_b.ApiClient_getCityByCEP in Hcity.
    destruct (service_b.httpGet c _) as [resp | e]; [| discriminate Hcity].
    cbv zeta in Hcity.
    destruct (json.Unmarshal _ _ _) as [viaCEP | e]; [| discriminate Hcity].
    destruct (service_b.Erro viaCEP); [discriminate Hcity |]. cbn [orb] in Hcity.
    destruct (String.eqb_spec (service_b.Localidade viaCEP) EmptyString) as [Hl | Hl];
      [discriminate Hcity |].
    injection Hcity as <-. exact Hl.
  - unfold service_b.ApiClient_getTemperatureByCity in Htemp. cbv zeta in Htemp.
    destruct (service_b.httpGet c _) as [resp | e]; [| discriminate Htemp].
    destruct (json.Unmarshal _ _ _) as [weather | e] eqn:Hu; [| discriminate Htemp].
    injection Htemp as <-. exact (Unmarshal_WeatherAPIResponse_finite _ _ Hu).
  - rewrite body_json_response. unfold common.Marshal, json.encode_float64.
    cbn [common.City common.TempC common.TempF common.TempK].
    repeat match goal with
           | |- context [PrimFloat.is_finite ?x] => destruct (PrimFloat.is_finite x)
           end;
      first [left; reflexivity | right; reflexivity].
Qed.

Lemma weatherHandler_record_of_ApiClient_witness :
  exists city tempC,
    city <> EmptyString
    /\ PrimFloat.is_finite tempC = true
    /\ (body (serve 0 (service_b.weatherHandler example.globals example.wh
                         (example.get "cep=01001000"))) = []
        \/ body (serve 0 (service_b.weatherHandler example.globals example.wh
                            (example.get "cep=01001000")))
           = [json.Encoded
                (json.JObject
                   [("city", json.JString city);
                    ("temp_C", json.JNumber (json.Float64 tempC));
                    ("temp_F", json.JNumber (json.Float64 (tempC * 1.8 + 32)));
                    ("temp_K", json.JNumber (json.Float64 (tempC + 273)))])]).
Proof.
  exact (weatherHandler_record_of_ApiClient example.client example.globals example.tracer
           (example.get "cep=01001000") 0 ltac:(vm_compute; reflexivity)).
Defined.

(** ** The address provider reports an error *)

(** A key that names [erro] finds the field [Erro]; any other key finds the
    field [Localidade] or none. *)
Lemma find_field_ViaCEP (key : string) :
  json.find_field ViaCEP_fields key
  = if names "erro" key then Some ViaCEP_Erro
    else if names "localidade" key then Some ViaCEP_Localidade
    else None.
Proof.
  unfold json.find_field, names, ViaCEP_fields. cbn [List.find fst snd].
  destruct (String.eqb_spec "localidade" key) as [<- | Hl]; [reflexivity |].
  destruct (String.eqb_spec "erro" key) as [<- | He]; [reflexivity |].
  cbn [orb].
  destruct (String.eqb_spec (json.foldName "localidade") (json.foldName key)) as [Hfl | Hfl].
  - rewrite <- Hfl. reflexivity.
  - destruct (String.eqb (json.foldName "erro") (json.foldName key)); reflexivity.
Qed.

(** While the members of a body that reports an error are stored, [Erro]
    is [true] from the first member named [erro] on, unless the decoder
    fails. *)
Lemma store_members_erro (ms : list (string * json.Value))
    (cur r : service_b.ViaCEPResponse) :
  (forall key v, In (key, v) ms -> names "erro" key = true ->
     v <> json.JBool false /\ v <> json.JNull) ->
  json.store_members ViaCEP_fields ms cur = Ok r ->
  service_b.Erro cur = true \/ (exists key v, In (key, v) ms /\ names "erro" key = true) ->
  service_b.Erro r = true.
Proof.
  revert cur. induction ms as [| [key v] ms IH]; intros cur Hbad Hr Hsome.
  - injection Hr as <-. destruct Hsome as [H | (key & v & [] & _)]. exact H.
  - cbn [json.store_members] in Hr. rewrite find_field_ViaCEP in Hr.
    assert (Htail : forall key' v', In (key', v') ms -> names "erro" key' = true ->
                      v' <> json.JBool false /\ v' <> json.JNull)
      by (intros k x Hin; apply Hbad; right; exact Hin).
    destruct (names "erro" key) eqn:Hk.
    + destruct (Hbad key v (or_introl eq_refl) Hk) as [Hfalse Hnull].
      unfold ViaCEP_Erro, json.field, json.store_bool in Hr.
      destruct v as [| [|] | | | |]; try discriminate Hr; try contradiction.
      cbn in Hr. apply (IH _ Htail Hr). left. reflexivity.
    + assert (Hsome' : service_b.Erro cur = true
                       \/ exists key' v', In (key', v') ms /\ names "erro" key' = true).
      { destruct Hsome as [H | (k & x & [[= <- <-] | Hin] & Hn)];
          [left; exact H | congruence | right; eauto]. }
      destruct (names "localidade" key).
      * unfold ViaCEP_Localidade, json.field in Hr.
        destruct (json.store_string v (service_b.Localidade cur)) as [x | e];
          [| discriminate Hr].
        apply (IH _ Htail Hr). exact Hsome'.
      * exact (IH _ Htail Hr Hsome').
Qed.

(** X22: when the body of the address provider is a JSON object that
    reports an error (a member [erro] that is [true], or that is no boolean,
    like the string [true]), [getCityByCEP] returns an error whatever else
    the body says and whatever the status of the response, and the lookup
    service answers 404 with the line [can not find zipcode]. *)
Theorem getCityByCEP_erro (c : service_b.ApiClient) (cep : string)
    (resp : http.Response) (ms : list (string * json.Value)) :
  service_b.httpGet c ("https://viacep.com.br/ws/" ++ cep ++ "/json/") = Ok resp ->
  json.document json.parse (http.Body resp) = Ok (json.JObject ms) ->
  reports_erro ms ->
  (exists err, service_b.ApiClient_getCityByCEP c cep = (EmptyString, Some err))
  /\ forall (g : otel.Globals) (t : otel.Tracer) (r : http.Request) (n : nat),
       url.Get (url.Query (http.URL r)) "cep" = cep ->
       common.IsValidCEP cep = true ->
       let st := serve n (service_b.weatherHandler g (service_b.NewWeatherHandler c t) r) in
       status st = 404%Z /\ body st = line "can not find zipcode".
Proof.
  intros Hget Hdoc [Hsome Hbad].
  assert (Herr : exists err,
             service_b.ApiClient_getCityByCEP c cep = (EmptyString, Some err)).
  { unfold service_b.ApiClient_getCityByCEP. rewrite Hget. cbv zeta.
    unfold json.Unmarshal. rewrite Hdoc.
    unfold service_b.store_ViaCEPResponse, json.store_struct.
    change [("localidade", ?l); ("erro", ?e)] with ViaCEP_fields.
    destruct (json.store_members ViaCEP_fields ms _) as [viaCEP | e] eqn:Hms;
      [| eexists; reflexivity].
    rewrite (store_members_erro ms _ viaCEP Hbad Hms (or_intror Hsome)).
    eexists. reflexivity. }
  split; [exact Herr |].
  intros g t r n Hcep Hv st. subst st. rewrite weatherHandler_run.
  unfold paths.weatherHandler. cbv beta zeta.
  cbn [service_b.apiClient service_b.NewWeatherHandler service_b.getCityByCEP
       service_b.ApiClient_IApiClient].
  rewrite Hcep, Hv. cbn [negb]. destruct Herr as [err ->]. split; reflexivity.
Qed.

Lemma getCityByCEP_erro_witness :
  let c := service_b.NewClient
             (fun _ => example.answer 400 (q "{'erro': 'true'}")) "KEY" in
  let st := serve 0 (service_b.weatherHandler example.globals
                       (service_b.NewWeatherHandler c example.tracer)
                       (example.get "cep=99999999")) in
  status st = 404%Z /\ body st = line "can not find zipcode".
Proof.
  intros c st.
  refine (proj2 (getCityByCEP_erro c "99999999" (example.answer_of 400 (q "{'erro': 'true'}"))
                   [("erro", json.JString "true")] eq_refl
                   ltac:(vm_compute; reflexivity) _)
            example.globals example.tracer (example.get "cep=99999999") 0
            ltac:(vm_compute; reflexivity) ltac:(vm_compute; reflexivity)).
  split.
  - exists "erro", (json.JString "true"). split; [left; reflexivity | reflexivity].
  - intros key v [[= <- <-] | []] _. split; discriminate.
Defined.

(** ** The two services together *)


(** The address a gateway asks for a postal code of unreserved bytes is
    read back to this postal code. *)
Lemma Parse_weather_address (base cep : string) :
  contains_byte "?" base = false ->
  all_bytes unreserved cep = true ->
  exists u, deployment.Parse (base ++ "/weather?cep=" ++ cep) = Ok u
            /\ url.Get (url.Query u) "cep" = cep.
Proof.
  intros Hbase Hcep.
  unfold deployment.Parse.
  change (base ++ "/weather?cep=" ++ cep)
    with (base ++ "/weather" ++ String "?" ("cep" ++ String "=" cep)).
  replace (base ++ "/weather" ++ String "?" ("cep" ++ String "=" cep))
    with ((base ++ "/weather") ++ String "?" ("cep" ++ String "=" cep)).
  2:{ clear. induction base as [| c base IH]; [reflexivity |].
      change (String c base ++ ?x) with (String c (base ++ x)).
      change (String c (base ++ "/weather") ++ ?x) with (String c ((base ++ "/weather") ++ x)).
      rewrite IH. reflexivity. }
  rewrite Cut_app by (rewrite contains_byte_app, Hbase; reflexivity).
  eexists. split; [reflexivity |].
  unfold url.Query. cbn [url.RawQuery].
  assert (Hno : forall c, unreserved c = false -> contains_byte c cep = false)
    by (intros c Hc; exact (all_bytes_contains unreserved c cep Hc Hcep)).
  rewrite segments_one
    by (rewrite contains_byte_app; cbn [contains_byte]; rewrite (Hno "&"%char eq_refl);
        reflexivity).
  change (EmptyString ++ ?x) with x.
  rewrite (parseQuery_pair _ "cep" cep "cep" cep)
    by first [reflexivity | exact (Hno ";"%char eq_refl)
             | exact (QueryUnescape_unreserved cep Hcep)].
  cbn [url.parseQuery]. unfold url.Get.
  rewrite lookup_insert_eq, lookup_empty. reflexivity.
Qed.






(** ** The untraced gateway *)

Lemma plain_handleRequest_run (out : gateway_plain.Outside) (n : nat) (r : http.Request) :
  serve n (gateway_plain.handleRequest out r) = plain_handleRequest_path out n r.
Proof.
  run_plain.
  destruct (json.Decode _ _ _) as [entrada | err]; [| reflexivity].
  destruct (gateway_plain.url_Parse _ _) as [u | err]; [| reflexivity].
  destruct (gateway_plain.DefaultClient_Do _ _) as [res | err]; [| reflexivity].
  destruct (http.ReadErr res) as [err |]; [reflexivity |].
  destruct (json.Unmarshal _ _ _) as [response | err]; [| reflexivity].
  destruct (gateway_plain.Marshal _); reflexivity.
Qed.

(** X18: the untraced gateway does not validate.  A body that fails to
    decode is answered 400 without any call; any body that decodes, valid
    postal code or not, is forwarded in one [GET] without header to
    [http://localhost:8080/weather?cep=] followed by the postal code as it
    is, with 5 seconds allowed; the answer is 200 with the decoded record
    when the body of the response decodes, 500 with a fixed line otherwise,
    and never 422. *)
Theorem plain_handleRequest_forwards_unvalidated (out : gateway_plain.Outside)
    (r : http.Request) (n : nat) :
  let st := serve n (gateway_plain.handleRequest out r) in
  let decoded := json.Decode gateway_plain.store_Entrada (http.ReqBody r)
                   {| gateway_plain.CEP := EmptyString |} in
  let address entrada := "http://localhost:8080/weather?cep=" ++ gateway_plain.CEP entrada in
  (forall err, decoded = Err err ->
     status st = 400%Z /\ body st = line "payload inválido" /\ events st = [])
  /\ (forall entrada err, decoded = Ok entrada ->
        gateway_plain.url_Parse out (address entrada) = Err err ->
        status st = 500%Z /\ events st = [])
  /\ (forall entrada u, decoded = Ok entrada ->
        gateway_plain.url_Parse out (address entrada) = Ok u ->
        let req := plain_outbound u in
        events st = [ClientDo req]
        /\ context.timeout (http.Context req) = Some 5000%Z
        /\ (forall res response,
              gateway_plain.DefaultClient_Do out req = Ok res ->
              http.ReadErr res = None ->
              json.Unmarshal gateway_plain.store (http.Body res) gateway_plain.zero
              = Ok response ->
              status st = 200%Z /\ w st = json_response (gateway_plain.Marshal response))
        /\ ((exists err, gateway_plain.DefaultClient_Do out req = Err err)
            \/ (exists res, gateway_plain.DefaultClient_Do out req = Ok res
                  /\ (http.ReadErr res <> None
                      \/ exists err,
                           json.Unmarshal gateway_plain.store (http.Body res)
                             gateway_plain.zero = Err err)) ->
            status st = 500%Z /\ body st = line "Falha para recuperar os dados"))
  /\ status st <> 422%Z.
Proof.
  intros st decoded address. subst st decoded address. rewrite plain_handleRequest_run.
  unfold plain_handleRequest_path. cbv beta zeta.
  split; [intros err ->; repeat split |].
  split; [intros entrada err -> ->; split; reflexivity |].
  split.
  - intros entrada u -> ->.
    split.
    { destruct (gateway_plain.DefaultClient_Do _ _) as [res | err]; [| reflexivity].
      destruct (http.ReadErr res) as [err |]; [reflexivity |].
      destruct (json.Unmarshal _ _ _) as [response | err]; reflexivity. }
    split; [reflexivity |]. split.
    + intros res response -> -> ->. split; [apply status_json_response | reflexivity].
    + intros [[err ->] | (res & -> & [Hread | [err ->]])]; [split; reflexivity | |].
      * destruct (http.ReadErr res) as [err |]; [split; reflexivity | contradiction].
      * destruct (http.ReadErr res) as [err' |]; split; reflexivity.
  - destruct (json.Decode _ _ _) as [entrada | err]; [| discriminate].
    destruct (gateway_plain.url_Parse _ _) as [u | err]; [| discriminate].
    destruct (gateway_plain.DefaultClient_Do _ _) as [res | err]; [| discriminate].
    destruct (http.ReadErr res) as [err |]; [discriminate |].
    destruct (json.Unmarshal _ _ _) as [response | err]; [| discriminate].
    rewrite status_json_response. discriminate.
Qed.

Lemma plain_handleRequest_forwards_unvalidated_witness :
  let st := serve 0 (gateway_plain.handleRequest (plain_outside example.wh_plain 0)
                       (example.post (q "{'cep':'01001000'}"))) in
  status st = 200%Z
  /\ w st = json_response
              (gateway_plain.Marshal
                 {| gateway_plain.City := "São Paulo"; gateway_plain.TempC := 25;
                    gateway_plain.TempF := 77; gateway_plain.TempK := 298 |}).
Proof.
  intros st.
  destruct (plain_handleRequest_forwards_unvalidated (plain_outside example.wh_plain 0)
              (example.post (q "{'cep':'01001000'}")) 0) as (_ & _ & Hsent & _).
  destruct (Hsent {| gateway_plain.CEP := "01001000" |}
              {| url.Raw := "http://localhost:8080/weather?cep=01001000";
                 url.RawQuery := "cep=01001000" |}
              ltac:(vm_compute; reflexivity) ltac:(vm_compute; reflexivity))
    as (_ & _ & Hok & _).
  eapply Hok; [reflexivity | reflexivity | vm_compute; reflexivity].
Defined.

(** X19: the untraced gateway in front of the untraced lookup service.  A
    postal code that is not 8 decimal digits (made of unreserved bytes, so
    that it is read back from the address as it is) is sent to the lookup
    service, which answers 422; the client of the gateway receives 500 with
    the fixed line, not 422. *)
Theorem plain_gateway_invalid_cep {C : Type} `{service_b.IApiClient C}
    (wh : lookup_plain.WeatherHandler C) (nB n : nat) (r : http.Request)
    (entrada : gateway_plain.Entrada) :
  json.Decode gateway_plain.store_Entrada (http.ReqBody r)
    {| gateway_plain.CEP := EmptyString |} = Ok entrada ->
  all_bytes unreserved (gateway_plain.CEP entrada) = true ->
  ~ eight_decimal_digits (gateway_plain.CEP entrada) ->
  let stA := serve n (gateway_plain.handleRequest (plain_outside wh nB) r) in
  exists req,
    events stA = [ClientDo req]
    /\ status (serve nB (lookup_plain.weatherHandler wh (deployment.deliver req))) = 422%Z
    /\ status stA = 500%Z
    /\ body stA = line "Falha para recuperar os dados".
Proof.
  intros Hdec Hcep Hd stA. subst stA. rewrite plain_handleRequest_run.
  unfold plain_handleRequest_path. cbv beta zeta. rewrite Hdec.
  cbn [gateway_plain.url_Parse gateway_plain.DefaultClient_Do plain_outside].
  destruct (Parse_weather_address "http://localhost:8080" _ eq_refl Hcep)
    as (u & Hu & Hget).
  change ("http://localhost:8080" ++ "/weather?cep=" ++ gateway_plain.CEP entrada)
    with ("http://localhost:8080/weather?cep=" ++ gateway_plain.CEP entrada) in Hu.
  rewrite Hu. exists (plain_outbound u).
  cbn [http.ReadErr http.response].
  rewrite plain_weatherHandler_run. unfold paths.plain_weatherHandler. cbv beta zeta.
  change (http.URL (deployment.deliver (plain_outbound u))) with u.
  change (lookup_plain.isValidCEP ?x) with (common.IsValidCEP x).
  rewrite Hget, (IsValidCEP_false _ Hd). cbn [negb].
  repeat split.
Qed.

Lemma plain_gateway_invalid_cep_witness :
  let stA := serve 0 (gateway_plain.handleRequest (plain_outside example.wh_plain 0)
                        (example.post (q "{'cep':'123'}"))) in
  exists req,
    events stA = [ClientDo req]
    /\ status (serve 0 (lookup_plain.weatherHandler example.wh_plain
                          (deployment.deliver req))) = 422%Z
    /\ status stA = 500%Z
    /\ body stA = line "Falha para recuperar os dados".
Proof.
  exact (plain_gateway_invalid_cep example.wh_plain 0 0 (example.post (q "{'cep':'123'}"))
           {| gateway_plain.CEP := "123" |} ltac:(vm_compute; reflexivity) eq_refl
           ltac:(intros [Hlength _]; discriminate Hlength)).
Defined.

(** ** What follows the first value of a body *)

Lemma append_String (c : ascii) (a t : string) : String c a ++ t = String c (a ++ t).
Proof. reflexivity. Qed.

Lemma length_append (a t : string) :
  String.length (a ++ t) = String.length a + String.length t.
Proof.
  induction a as [| c a IH]; [reflexivity |].
  rewrite append_String. cbn [String.length]. rewrite IH. reflexivity.
Qed.

Lemma skip_space_app (s : string) (c : ascii) (s1 t : string) :
  json.skip_space s = String c s1 -> json.skip_space (s ++ t) = String c (s1 ++ t).
Proof.
  induction s as [| d s IH]; [discriminate |].
  rewrite append_String. cbn [json.skip_space].
  destruct (json.is_space d); [exact IH |].
  intros [= -> ->]. reflexivity.
Qed.

Lemma span_digits_app (s ds : string) (c : ascii) (r t : string) :
  json.span_digits s = (ds, String c r) ->
  json.span_digits (s ++ t) = (ds, String c (r ++ t)).
Proof.
  revert ds. induction s as [| d s IH]; intros ds; [discriminate |].
  rewrite append_String. cbn [json.span_digits].
  destruct (json.is_digit d).
  - destruct (json.span_digits s) as [ds' rest'] eqn:Hs. intros [= <- ->].
    rewrite (IH ds' eq_refl). reflexivity.
  - intros [= <- -> ->]. reflexivity.
Qed.

Lemma scan_sign_app (s : string) (neg : bool) (c : ascii) (r t : string) :
  json.scan_sign s = (neg, String c r) ->
  json.scan_sign (s ++ t) = (neg, String c (r ++ t)).
Proof.
  destruct s as [| d s]; [discriminate |].
  rewrite append_String. cbn [json.scan_sign].
  destruct (d =? "-")%char; [intros [= <- ->] | intros [= <- -> ->]]; reflexivity.
Qed.

Lemma scan_int_app (s ip : string) (c : ascii) (r t : string) :
  json.scan_int s = (ip, String c r) ->
  json.scan_int (s ++ t) = (ip, String c (r ++ t)).
Proof.
  destruct s as [| d s]; [discriminate |].
  unfold json.scan_int. rewrite append_String.
  destruct (d =? "0")%char; [intros [= <- ->]; reflexivity |].
  intros Hs. rewrite <- append_String. exact (span_digits_app _ _ _ _ _ Hs).
Qed.

Lemma scan_frac_app (s fp : string) (c : ascii) (r t : string) :
  json.scan_frac s = Some (fp, String c r) ->
  json.scan_frac (s ++ t) = Some (fp, String c (r ++ t)).
Proof.
  destruct s as [| d s]; [discriminate |].
  unfold json.scan_frac. rewrite append_String.
  destruct (d =? ".")%char; [| intros [= <- -> ->]; reflexivity].
  destruct (json.span_digits s) as [fp' rest] eqn:Hs.
  destruct (fp' =? EmptyString)%string eqn:Hfp; [discriminate |].
  intros [= -> ->]. rewrite (span_digits_app _ _ _ _ _ Hs), Hfp. reflexivity.
Qed.

Lemma scan_exp_app (s : string) (e : Z) (c : ascii) (r t : string) :
  json.scan_exp s = Some (e, String c r) ->
  json.scan_exp (s ++ t) = Some (e, String c (r ++ t)).
Proof.
  destruct s as [| d s]; [discriminate |].
  unfold json.scan_exp. rewrite append_String.
  destruct ((d =? "e")%char || (d =? "E")%char); [| intros [= <- -> ->]; reflexivity].
  destruct s as [| d' s]; [discriminate |].
  rewrite append_String.
  assert (Hdigits : forall s0 eneg,
            (let (ep, rest) := json.span_digits s0 in
             if (ep =? EmptyString)%string then None
             else Some (if eneg : bool then (- Z.of_N (json.digits_value 0 ep))%Z
                        else Z.of_N (json.digits_value 0 ep), rest))
            = Some (e, String c r) ->
            (let (ep, rest) := json.span_digits (s0 ++ t) in
             if (ep =? EmptyString)%string then None
             else Some (if eneg then (- Z.of_N (json.digits_value 0 ep))%Z
                        else Z.of_N (json.digits_value 0 ep), rest))
            = Some (e, String c (r ++ t))).
  { intros s0 eneg. destruct (json.span_digits s0) as [ep rest] eqn:Hs.
    destruct (ep =? EmptyString)%string eqn:Hep; [discriminate |].
    intros [= <- ->]. rewrite (span_digits_app _ _ _ _ _ Hs), Hep. reflexivity. }
  destruct (d' =? "-")%char; [exact (Hdigits s true) |].
  destruct (d' =? "+")%char; [exact (Hdigits s false) |].
  intros Hs. rewrite <- append_String. exact (Hdigits (String d' s) false Hs).
Qed.

(** A scan that leaves something started on something. *)
Lemma scan_sign_rest (s : string) (neg : bool) (c : ascii) (r : string) :
  json.scan_sign s = (neg, String c r) -> exists d s', s = String d s'.
Proof. destruct s as [| d s']; [discriminate | eauto]. Qed.

Lemma scan_number_app (s : string) (n : json.number) (c : ascii) (r t : string) :
  json.scan_number s = Some (n, String c r) ->
  json.scan_number (s ++ t) = Some (n, String c (r ++ t)).
Proof.
  unfold json.scan_number.
  destruct (json.scan_sign s) as [neg s1] eqn:Hsign.
  destruct (json.scan_int s1) as [ip s2] eqn:Hint.
  destruct (ip =? EmptyString)%string eqn:Hip; [discriminate |].
  destruct (json.scan_frac s2) as [[fp s3] |] eqn:Hfrac; [| discriminate].
  destruct (json.scan_exp s3) as [[e rest] |] eqn:Hexp; [| discriminate].
  intros [= <- ->].
  destruct s3 as [| c3 r3]; [discriminate Hexp |].
  destruct s2 as [| c2 r2]; [discriminate Hfrac |].
  destruct s1 as [| c1 r1]; [discriminate Hint |].
  rewrite (scan_sign_app _ _ _ _ t Hsign), <- append_String.
  rewrite (scan_int_app _ _ _ _ t Hint), Hip, <- append_String.
  rewrite (scan_frac_app _ _ _ _ t Hfrac), <- append_String.
  rewrite (scan_exp_app _ _ _ _ t Hexp). reflexivity.
Qed.

Lemma strip_prefix_app (p s rest t : string) :
  json.strip_prefix p s = Some rest -> json.strip_prefix p (s ++ t) = Some (rest ++ t).
Proof.
  revert s. induction p as [| a p IH]; intros s.
  - destruct s; intros [= <-]; reflexivity.
  - destruct s as [| b s]; [discriminate |].
    rewrite append_String. cbn [json.strip_prefix].
    destruct (a =? b)%char; [apply IH | discriminate].
Qed.

(** After a high surrogate that no [\u] escape follows, the replacement
    character is written. *)
Lemma no_low_surrogate {A : Type} (x : string) (low : N -> string -> A) (other : A) :
  starts_with_escape_u x = false ->
  match x with
  | String b1 (String b2 (String g1 (String g2 (String g3 (String g4 s4))))) =>
      match (if (b1 =? "\")%char && (b2 =? "u")%char
             then json.getu4 g1 g2 g3 g4 else None) with
      | Some rr1 => low rr1 s4
      | None => other
      end
  | _ => other
  end = other.
Proof.
  destruct x as [| b1 [| b2 [| g1 [| g2 [| g3 [| g4 s4]]]]]]; try reflexivity.
  cbn [starts_with_escape_u]. intros ->. reflexivity.
Qed.

(** A text that starts with [\u] and has fewer than six bytes holds no
    string. *)
Lemma unquote_short_escape (s : string) :
  starts_with_escape_u s = true -> String.length s < 6 -> json.unquote s = None.
Proof.
  destruct s as [| b1 [| b2 s2]]; try discriminate.
  cbn [starts_with_escape_u]. intros Hbu Hlen.
  apply andb_true_iff in Hbu. destruct Hbu as [Hb Hu].
  apply Ascii.eqb_eq in Hb, Hu. subst b1 b2.
  destruct s2 as [| g1 [| g2 [| g3 [| g4 s4]]]]; try reflexivity.
  cbn [String.length] in Hlen. lia.
Qed.

Lemma starts_with_escape_u_app (s t : string) :
  json.unquote s <> None -> String.length s < 6 ->
  starts_with_escape_u (s ++ t) = false.
Proof.
  intros Hs Hlen.
  destruct (starts_with_escape_u s) eqn:Hbu;
    [exfalso; exact (Hs (unquote_short_escape s Hbu Hlen)) |].
  destruct s as [| b1 [| b2 s2]].
  - exfalso. apply Hs. reflexivity.
  - rewrite append_String.
    destruct (Ascii.eqb_spec b1 "\") as [-> | Hb];
      [exfalso; apply Hs; reflexivity |].
    cbn [starts_with_escape_u]. destruct (EmptyString ++ t); [reflexivity |].
    apply Ascii.eqb_neq in Hb. rewrite Hb. reflexivity.
  - rewrite !append_String. exact Hbu.
Qed.

Lemma unquote_app (t : string) (n : nat) :
  forall s str rest, String.length s <= n ->
    json.unquote s = Some (str, rest) -> json.unquote (s ++ t) = Some (str, rest ++ t).
Proof.
  induction n as [| n IH]; intros s str rest Hn Hu.
  - destruct s; [discriminate Hu | cbn in Hn; lia].
  - assert (Hrec : forall p x y r, String.length x <= n ->
              json.prepend p (json.unquote x) = Some (y, r) ->
              json.prepend p (json.unquote (x ++ t)) = Some (y, r ++ t)).
    { intros p x y r Hx Hp.
      destruct (json.unquote x) as [[y0 r0] |] eqn:Hx0; [| discriminate Hp].
      rewrite (IH x y0 r0 Hx Hx0). cbn [json.prepend] in Hp |- *.
      injection Hp as <- <-. reflexivity. }
    destruct s as [| c s1]; [discriminate Hu |].
    rewrite append_String. cbn [json.unquote] in Hu |- *. cbn [String.length] in Hn.
    destruct (c =? dquote)%char; [injection Hu as <- <-; reflexivity |].
    destruct (c =? "\")%char.
    + destruct s1 as [| e s2]; [discriminate Hu |].
      rewrite append_String. cbn [String.length] in Hn.
      destruct (json.simple_escape e); [apply Hrec; [lia | exact Hu] |].
      destruct (e =? "u")%char; [| discriminate Hu].
      destruct s2 as [| h1 [| h2 [| h3 [| h4 s3]]]]; try discriminate Hu.
      rewrite !append_String. cbn [String.length] in Hn.
      destruct (json.getu4 h1 h2 h3 h4) as [rr |]; [| discriminate Hu].
      destruct (json.is_high_surrogate rr).
      * destruct (Nat.ltb_spec (String.length s3) 6) as [Hshort | Hlong].
        -- rewrite no_low_surrogate in Hu.
           2:{ destruct (starts_with_escape_u s3) eqn:Hbu; [| reflexivity].
               rewrite (unquote_short_escape s3 Hbu Hshort) in Hu.
               destruct s3 as [| b1 [| b2 [| g1 [| g2 [| g3 [| g4 s4]]]]]];
                 try discriminate Hu.
               cbn [String.length] in Hshort. lia. }
           rewrite no_low_surrogate.
           2:{ apply starts_with_escape_u_app; [| exact Hshort].
               destruct (json.unquote s3); [discriminate | discriminate Hu]. }
           apply Hrec; [lia | exact Hu].
        -- destruct s3 as [| b1 [| b2 [| g1 [| g2 [| g3 [| g4 s4]]]]]];
             try (cbn [String.length] in Hlong; lia).
           rewrite !append_String. cbn [String.length] in Hn.
           destruct (if (b1 =? "\")%char && (b2 =? "u")%char
                     then json.getu4 g1 g2 g3 g4 else None) as [rr1 |];
             [destruct (json.is_low_surrogate rr1) |].
           ++ apply Hrec; [lia | exact Hu].
           ++ rewrite <- !append_String. apply Hrec; [cbn [String.length]; lia | exact Hu].
           ++ rewrite <- !append_String. apply Hrec; [cbn [String.length]; lia | exact Hu].
      * destruct (json.is_low_surrogate rr); apply Hrec; (lia || exact Hu).
    + destruct (N_of_ascii c <? 32)%N; [discriminate Hu |].
      apply Hrec; [lia | exact Hu].
Qed.

(** What comes after a value does not change how the value is read: a
    number apart, which must be followed by something for it to end. *)
Lemma value_frame (t : string) (fuel : nat) :
  (forall s v rest, json.value fuel s = Some (v, rest) ->
     (forall n, v = json.JNumber n -> rest <> EmptyString) ->
     json.value fuel (s ++ t) = Some (v, rest ++ t))
  /\ (forall s ms rest, json.members fuel s = Some (ms, rest) ->
        json.members fuel (s ++ t) = Some (ms, rest ++ t))
  /\ (forall s vs rest, json.elements fuel s = Some (vs, rest) ->
        json.elements fuel (s ++ t) = Some (vs, rest ++ t)).
Proof.
  induction fuel as [| fuel (IHv & IHm & IHe)];
    [repeat split; intros; discriminate |].
  split; [| split].
  - intros s v rest Hs Hnum. cbn [json.value] in Hs |- *.
    destruct (json.skip_space s) as [| c s1] eqn:Hskip; [discriminate Hs |].
    rewrite (skip_space_app _ _ _ t Hskip).
    destruct (c =? "{")%char.
    { destruct (json.skip_space s1) as [| c2 s2] eqn:Hskip1; [discriminate Hs |].
      rewrite (skip_space_app _ _ _ t Hskip1).
      destruct (c2 =? "}")%char; [injection Hs as <- <-; reflexivity |].
      destruct (json.members fuel (String c2 s2)) as [[ms r] |] eqn:Hm; [| discriminate Hs].
      injection Hs as <- <-. rewrite <- append_String, (IHm _ _ _ Hm). reflexivity. }
    destruct (c =? "[")%char.
    { destruct (json.skip_space s1) as [| c2 s2] eqn:Hskip1; [discriminate Hs |].
      rewrite (skip_space_app _ _ _ t Hskip1).
      destruct (c2 =? "]")%char; [injection Hs as <- <-; reflexivity |].
      destruct (json.elements fuel (String c2 s2)) as [[vs r] |] eqn:He; [| discriminate Hs].
      injection Hs as <- <-. rewrite <- append_String, (IHe _ _ _ He). reflexivity. }
    destruct (c =? dquote)%char.
    { destruct (json.unquote s1) as [[str r] |] eqn:Hu; [| discriminate Hs].
      injection Hs as <- <-. rewrite (unquote_app t _ _ _ _ (le_n _) Hu). reflexivity. }
    destruct ((c =? "-")%char || json.is_digit c).
    { destruct (json.scan_number (String c s1)) as [[n r] |] eqn:Hn; [| discriminate Hs].
      injection Hs as <- <-.
      destruct r as [| d r]; [exfalso; exact (Hnum n eq_refl eq_refl) |].
      rewrite <- append_String, (scan_number_app _ _ _ _ t Hn). reflexivity. }
    rewrite <- append_String.
    destruct (json.strip_prefix "true" (String c s1)) as [r |] eqn:Ht.
    { injection Hs as <- <-. rewrite (strip_prefix_app _ _ _ t Ht). reflexivity. }
    assert (Htrue : json.strip_prefix "true" (String c s1 ++ t) = None).
    { rewrite append_String. cbn [json.strip_prefix].
      destruct (Ascii.eqb_spec "t" c) as [<- |]; [| reflexivity].
      cbn in Hs. discriminate Hs. }
    rewrite Htrue.
    destruct (json.strip_prefix "false" (String c s1)) as [r |] eqn:Hf.
    { injection Hs as <- <-. rewrite (strip_prefix_app _ _ _ t Hf). reflexivity. }
    assert (Hfalse : json.strip_prefix "false" (String c s1 ++ t) = None).
    { rewrite append_String. cbn [json.strip_prefix].
      destruct (Ascii.eqb_spec "f" c) as [<- |]; [| reflexivity].
      cbn in Hs. discriminate Hs. }
    rewrite Hfalse.
    destruct (json.strip_prefix "null" (String c s1)) as [r |] eqn:Hnull; [| discriminate Hs].
    injection Hs as <- <-. rewrite (strip_prefix_app _ _ _ t Hnull). reflexivity.
  - intros s ms rest Hs. cbn [json.members] in Hs |- *.
    destruct s as [| c s1]; [discriminate Hs |]. rewrite append_String.
    destruct (c =? dquote)%char; [| discriminate Hs].
    destruct (json.unquote s1) as [[key s2] |] eqn:Hu; [| discriminate Hs].
    rewrite (unquote_app t _ _ _ _ (le_n _) Hu).
    destruct (json.skip_space s2) as [| c3 s3] eqn:Hskip2; [discriminate Hs |].
    rewrite (skip_space_app _ _ _ t Hskip2).
    destruct (c3 =? ":")%char; [| discriminate Hs].
    destruct (json.value fuel s3) as [[v s4] |] eqn:Hval; [| discriminate Hs].
    destruct (json.skip_space s4) as [| c5 s5] eqn:Hskip4; [discriminate Hs |].
    rewrite (IHv _ _ _ Hval)
      by (intros n _ ->; discriminate Hskip4).
    rewrite (skip_space_app _ _ _ t Hskip4).
    destruct (c5 =? "}")%char; [injection Hs as <- <-; reflexivity |].
    destruct (c5 =? ",")%char; [| discriminate Hs].
    destruct (json.members fuel (json.skip_space s5)) as [[ms' r] |] eqn:Hm;
      [| discriminate Hs].
    injection Hs as <- <-.
    destruct (json.skip_space s5) as [| c6 s6] eqn:Hskip5;
      [destruct fuel; discriminate Hm |].
    rewrite (skip_space_app _ _ _ t Hskip5), <- append_String, (IHm _ _ _ Hm).
    reflexivity.
  - intros s vs rest Hs. cbn [json.elements] in Hs |- *.
    destruct (json.value fuel s) as [[v s1] |] eqn:Hval; [| discriminate Hs].
    destruct (json.skip_space s1) as [| c s2] eqn:Hskip1; [discriminate Hs |].
    rewrite (IHv _ _ _ Hval)
      by (intros n _ ->; discriminate Hskip1).
    rewrite (skip_space_app _ _ _ t Hskip1).
    destruct (c =? "]")%char; [injection Hs as <- <-; reflexivity |].
    destruct (c =? ",")%char; [| discriminate Hs].
    destruct (json.elements fuel s2) as [[vs' r] |] eqn:He; [| discriminate Hs].
    injection Hs as <- <-. rewrite (IHe _ _ _ He). reflexivity.
Qed.

(** The decoder reads the first value of a body and leaves what follows an
    object unread. *)
Lemma parse_first_object_app (s t : string) (ms : list (string * json.Value)) :
  json.parse_first s = Ok (json.JObject ms) ->
  json.parse_first (s ++ t) = Ok (json.JObject ms).
Proof.
  unfold json.parse_first.
  destruct (json.value (S (2 * String.length s)) s) as [[v rest] |] eqn:Hv;
    [| discriminate].
  intros Hobj.
  assert (Hv' : v = json.JObject ms).
  { destruct v; try (injection Hobj as ->; reflexivity); try discriminate Hobj;
      destruct rest as [| c r]; try discriminate Hobj;
      destruct (json.is_space c); discriminate Hobj. }
  subst v.
  rewrite <- (value_fuel s (S (2 * String.length (s ++ t)))) in Hv
    by (rewrite length_append; lia).
  destruct (value_frame t (S (2 * String.length (s ++ t)))) as (Hframe & _ & _).
  rewrite (Hframe _ _ _ Hv) by discriminate. reflexivity.
Qed.

Lemma skip_space_app_rest (a t : string) :
  json.skip_space t <> EmptyString -> json.skip_space (a ++ t) <> EmptyString.
Proof.
  intros Ht. induction a as [| c a IH]; [exact Ht |].
  rewrite append_String. cbn [json.skip_space].
  destruct (json.is_space c); [exact IH | discriminate].
Qed.

(** [json.Unmarshal] refuses a text with anything but blanks after its
    first value. *)
Lemma parse_object_app (s t : string) (ms : list (string * json.Value)) :
  json.parse_first s = Ok (json.JObject ms) ->
  json.skip_space t <> EmptyString ->
  json.parse (s ++ t) = Err "invalid character after top-level value".
Proof.
  intros Hobj Ht. unfold json.parse_first in Hobj. unfold json.parse.
  destruct (json.value (S (2 * String.length s)) s) as [[v rest] |] eqn:Hv;
    [| discriminate Hobj].
  assert (Hv' : v = json.JObject ms).
  { destruct v; try (injection Hobj as ->; reflexivity); try discriminate Hobj;
      destruct rest as [| c r]; try discriminate Hobj;
      destruct (json.is_space c); discriminate Hobj. }
  subst v.
  rewrite <- (value_fuel s (S (2 * String.length (s ++ t)))) in Hv
    by (rewrite length_append; lia).
  destruct (value_frame t (S (2 * String.length (s ++ t)))) as (Hframe & _ & _).
  rewrite (Hframe _ _ _ Hv) by discriminate.
  pose proof (skip_space_app_rest rest t Ht) as Hrest.
  destruct (json.skip_space (rest ++ t)); [contradiction | reflexivity].
Qed.

Lemma document_Bytes (read : string -> result json.Value) (s : string) :
  json.document read [json.Bytes s] = read s.
Proof. unfold json.document. cbn [json.text]. rewrite append_nil_r. reflexivity. Qed.

(** X20: the gateways read the first JSON value of the body of a request
    and nothing after it.  When the body starts with an object, whatever
    bytes follow the object change nothing in the run of the handler,
    traced or untraced; the same bytes as the body of a response of the
    lookup service are refused by [json.Unmarshal], whatever the variable
    they are decoded into, as soon as something else than blanks follows
    the object. *)
Theorem handleRequest_reads_first_object (g : otel.Globals) (out : service_a.Outside)
    (ws : service_a.WebServer) (plain : gateway_plain.Outside) (n : nat)
    (r r' : http.Request) (s t : string) (ms : list (string * json.Value)) :
  json.parse_first s = Ok (json.JObject ms) ->
  http.ReqBody r = [json.Bytes s] ->
  http.ReqBody r' = [json.Bytes (s ++ t)] ->
  http.ReqHeader r' = http.ReqHeader r ->
  http.Context r' = http.Context r ->
  serve n (service_a.handleRequest g out ws r') = serve n (service_a.handleRequest g out ws r)
  /\ serve n (gateway_plain.handleRequest plain r')
     = serve n (gateway_plain.handleRequest plain r)
  /\ (json.skip_space t <> EmptyString ->
      forall T (st : json.Store T) (old : T),
        json.Unmarshal st [json.Bytes (s ++ t)] old
        = Err "invalid character after top-level value").
Proof.
  intros Hobj Hr Hr' Hh Hc. split; [| split].
  - rewrite !handleRequest_run. unfold paths.handleRequest, paths.outbound. cbv beta zeta.
    unfold json.Decode. rewrite Hr, Hr', Hh, Hc, !document_Bytes.
    rewrite (parse_first_object_app s t ms Hobj), Hobj. reflexivity.
  - rewrite !plain_handleRequest_run. unfold plain_handleRequest_path. cbv beta zeta.
    unfold json.Decode. rewrite Hr, Hr', !document_Bytes.
    rewrite (parse_first_object_app s t ms Hobj), Hobj. reflexivity.
  - intros Ht T st old. unfold json.Unmarshal.
    rewrite document_Bytes, (parse_object_app s t ms Hobj Ht). reflexivity.
Qed.

Lemma handleRequest_reads_first_object_witness :
  serve 0 (service_a.handleRequest example.globals example.out example.ws
             (example.post (q "{'cep':'01001000'}" ++ "}{ trailing")))
  = serve 0 (service_a.handleRequest example.globals example.out example.ws
               (example.post (q "{'cep':'01001000'}"))).
Proof.
  exact (proj1 (handleRequest_reads_first_object example.globals example.out example.ws
                  (plain_outside example.wh_plain 0) 0
                  (example.post (q "{'cep':'01001000'}"))
                  (example.post (q "{'cep':'01001000'}" ++ "}{ trailing"))
                  (q "{'cep':'01001000'}") "}{ trailing"
                  [("cep", json.JString "01001000")]
                  ltac:(vm_compute; reflexivity) eq_refl eq_refl eq_refl eq_refl)).
Defined.

(** ** The two gateways side by side *)

Lemma find_field_alike {T T' : Type} (R : T -> T' -> Prop)
    (fields : list (string * json.Store T)) (fields' : list (string * json.Store T')) :
  Forall2 (fun f f' => fst f = fst f' /\ stores_alike R (snd f) (snd f')) fields fields' ->
  forall key,
    match json.find_field fields key, json.find_field fields' key with
    | Some st, Some st' => stores_alike R st st'
    | None, None => True
    | _, _ => False
    end.
Proof.
  intros Hfields key. unfold json.find_field.
  assert (Hfind : forall p : string -> bool,
            match List.find (fun f => p (fst f)) fields,
                  List.find (fun f => p (fst f)) fields' with
            | Some f, Some f' => stores_alike R (snd f) (snd f')
            | None, None => True
            | _, _ => False
            end).
  { intros p. induction Hfields as [| [k st] [k' st'] l l' [Hk Hst] _ IH]; [exact I |].
    cbn [fst snd] in Hk, Hst. subst k'. cbn [List.find fst].
    destruct (p k); [exact Hst | exact IH]. }
  pose proof (Hfind (fun k => String.eqb k key)) as Hexact.
  pose proof (Hfind (fun k => String.eqb (json.foldName k) (json.foldName key))) as Hfold.
  cbv beta in Hexact, Hfold.
  destruct (List.find (fun f => String.eqb (fst f) key) fields) as [f |];
    destruct (List.find (fun f => String.eqb (fst f) key) fields') as [f' |];
    try contradiction; [exact Hexact |].
  destruct (List.find _ fields) as [f |]; destruct (List.find _ fields') as [f' |];
    try contradiction; [exact Hfold | exact I].
Qed.

Lemma store_members_alike {T T' : Type} (R : T -> T' -> Prop)
    (fields : list (string * json.Store T)) (fields' : list (string * json.Store T')) :
  Forall2 (fun f f' => fst f = fst f' /\ stores_alike R (snd f) (snd f')) fields fields' ->
  forall ms a a', R a a' ->
    alike R (json.store_members fields ms a) (json.store_members fields' ms a').
Proof.
  intros Hfields. induction ms as [| [key v] ms IH]; intros a a' Ha; [exact Ha |].
  cbn [json.store_members].
  pose proof (find_field_alike R fields fields' Hfields key) as Hfind.
  destruct (json.find_field fields key) as [st |];
    destruct (json.find_field fields' key) as [st' |]; try contradiction;
    [| exact (IH a a' Ha)].
  pose proof (Hfind v a a' Ha) as Hst. unfold alike in Hst.
  destruct (st v a) as [b | e]; destruct (st' v a') as [b' | e']; try contradiction;
    [exact (IH b b' Hst) | exact I].
Qed.

Lemma store_struct_alike {T T' : Type} (R : T -> T' -> Prop) (type type' : string)
    (fields : list (string * json.Store T)) (fields' : list (string * json.Store T')) :
  Forall2 (fun f f' => fst f = fst f' /\ stores_alike R (snd f) (snd f')) fields fields' ->
  stores_alike R (json.store_struct type fields) (json.store_struct type' fields').
Proof.
  intros Hfields v a a' Ha. unfold json.store_struct.
  destruct v; try exact I; [exact Ha |].
  exact (store_members_alike R fields fields' Hfields _ a a' Ha).
Qed.

Lemma field_alike {T T' A : Type} (R : T -> T' -> Prop) (st : json.Store A)
    (get : T -> A) (set : T -> A -> T) (get' : T' -> A) (set' : T' -> A -> T') :
  (forall a a', R a a' -> get a = get' a') ->
  (forall a a' x, R a a' -> R (set a x) (set' a' x)) ->
  stores_alike R (json.field st get set) (json.field st get' set').
Proof.
  intros Hget Hset v a a' Ha. unfold json.field. rewrite <- (Hget a a' Ha).
  destruct (st v (get a)); [exact (Hset _ _ _ Ha) | exact I].
Qed.

Lemma Unmarshal_alike {T T' : Type} (R : T -> T' -> Prop)
    (st : json.Store T) (st' : json.Store T') (read : string -> result json.Value)
    (data : list json.chunk) (a : T) (a' : T') :
  stores_alike R st st' -> R a a' ->
  alike R (match json.document read data with Ok v => st v a | Err e => Err e end)
          (match json.document read data with Ok v => st' v a' | Err e => Err e end).
Proof.
  intros Hst Ha. destruct (json.document read data); [exact (Hst _ _ _ Ha) | exact I].
Qed.

Lemma store_record_alike : stores_alike same_record common.store gateway_plain.store.
Proof.
  apply store_struct_alike.
  repeat (apply List.Forall2_cons;
          [split; [reflexivity |]; apply field_alike;
           [intros a a' (H1 & H2 & H3 & H4); assumption
           | intros a a' x (H1 & H2 & H3 & H4); repeat split; assumption] |]).
  apply List.Forall2_nil.
Qed.

Lemma store_Entrada_alike :
  stores_alike same_entrada service_a.store_Entrada gateway_plain.store_Entrada.
Proof.
  apply store_struct_alike.
  apply List.Forall2_cons; [| apply List.Forall2_nil].
  split; [reflexivity |]. apply field_alike; [intros a a' Ha; exact Ha |].
  intros a a' x _. reflexivity.
Qed.

(** X21: but for the validation, the traced gateway answers as the
    untraced one.  Let the two stand in front of the same lookup service
    (the address of the traced one is [http://localhost:8080], and the
    lookup service answers its request as it answers that of the untraced
    one): whenever the traced gateway does not answer 422, the two send the
    same response. *)
Theorem handleRequest_as_untraced (g : otel.Globals) (out : service_a.Outside)
    (ws : service_a.WebServer) (plain : gateway_plain.Outside) (r : http.Request)
    (n m : nat) :
  service_a.WEATHER_SERVICE out = "http://localhost:8080" ->
  (forall address, service_a.url_Parse out address = gateway_plain.url_Parse plain address) ->
  (forall u, service_a.DefaultClient_Do out (paths.outbound g ws n r u)
             = gateway_plain.DefaultClient_Do plain (plain_outbound u)) ->
  let traced := serve n (service_a.handleRequest g out ws r) in
  let untraced := serve m (gateway_plain.handleRequest plain r) in
  status traced <> 422%Z ->
  http.response (w traced) = http.response (w untraced).
Proof.
  intros Hbase Hparse Hdo traced untraced. subst traced untraced.
  rewrite handleRequest_run, plain_handleRequest_run.
  unfold paths.handleRequest, plain_handleRequest_path. cbv beta zeta.
  pose proof (Unmarshal_alike same_entrada _ _ json.parse_first (http.ReqBody r)
                {| service_a.CEP := EmptyString |} {| gateway_plain.CEP := EmptyString |}
                store_Entrada_alike eq_refl) as Hdec.
  fold (json.Decode service_a.store_Entrada (http.ReqBody r)
          {| service_a.CEP := EmptyString |}) in Hdec.
  fold (json.Decode gateway_plain.store_Entrada (http.ReqBody r)
          {| gateway_plain.CEP := EmptyString |}) in Hdec.
  destruct (json.Decode service_a.store_Entrada _ _) as [entrada | err];
    destruct (json.Decode gateway_plain.store_Entrada _ _) as [entrada' | err'];
    try contradiction; [| reflexivity].
  unfold alike, same_entrada in Hdec.
  destruct (common.IsValidCEP _); cbn [negb]; [intros _ | intros Hs; contradiction].
  rewrite Hbase, Hparse, <- Hdec.
  change ("http://localhost:8080" ++ "/weather?cep=" ++ service_a.CEP entrada)
    with ("http://localhost:8080/weather?cep=" ++ service_a.CEP entrada).
  destruct (gateway_plain.url_Parse plain _) as [u | err]; [| reflexivity].
  rewrite Hdo.
  destruct (gateway_plain.DefaultClient_Do plain _) as [res | err]; [| reflexivity].
  destruct (http.ReadErr res) as [err |]; [reflexivity |].
  pose proof (Unmarshal_alike same_record _ _ json.parse (http.Body res)
                common.zero gateway_plain.zero store_record_alike
                (conj eq_refl (conj eq_refl (conj eq_refl eq_refl)))) as Hu.
  fold (json.Unmarshal common.store (http.Body res) common.zero) in Hu.
  fold (json.Unmarshal gateway_plain.store (http.Body res) gateway_plain.zero) in Hu.
  destruct (json.Unmarshal common.store _ _) as [response | err];
    destruct (json.Unmarshal gateway_plain.store _ _) as [response' | err'];
    try contradiction; [| reflexivity].
  destruct Hu as (H1 & H2 & H3 & H4).
  unfold common.Marshal, gateway_plain.Marshal. rewrite H1, H2, H3, H4. reflexivity.
Qed.

Lemma handleRequest_as_untraced_witness :
  let res := example.answer 200
               (q "{'city':'São Paulo','temp_C':25,'temp_F':77,'temp_K':298}") in
  let out := {| service_a.WEATHER_SERVICE := "http://localhost:8080";
                service_a.url_Parse := deployment.Parse;
                service_a.DefaultClient_Do := fun _ => res |} in
  let plain := {| gateway_plain.url_Parse := deployment.Parse;
                  gateway_plain.DefaultClient_Do := fun _ => res |} in
  let r := example.post (q "{'cep':'01001000'}") in
  http.response (w (serve 0 (service_a.handleRequest example.globals out example.ws r)))
  = http.response (w (serve 0 (gateway_plain.handleRequest plain r))).
Proof.
  intros res out plain r.
  apply (handleRequest_as_untraced example.globals out example.ws plain r 0 0
           eq_refl (fun _ => eq_refl) (fun _ => eq_refl)).
  vm_compute. discriminate.
Defined.
